(** * The n2n supernode ([sn.c]): a shallow embedding and its properties

    The supernode is a single-threaded UDP dispatcher.  Its state is one
    [n2n_sn_t] structure threaded through every handler; its effects are
    the datagrams it hands to [sendto].  The embedding keeps both: every
    handler takes and returns a [world], the structure together with the
    log of what has been sent so far.

    Integers are [Z]; where the C type wraps, the wrap is written out.
    Fixed-size octet arrays ([n2n_mac_t], [n2n_community_t]) are [list Z];
    octets past the end of a list read as 0. *)

From Stdlib Require Import ZArith String Ascii Lia.
From stdpp Require Import base decidable option list numbers strings pretty.

Open Scope Z_scope.

(** ** Machine integers *)

(** [size_t] on the LP64 targets the supernode is built for. *)
Definition to_size_t (z : Z) : Z := z mod 2 ^ 64.
Definition to_unsigned_int (z : Z) : Z := z mod 2 ^ 32.

(** [++x] on a [size_t] counter. *)
Definition incr_size_t (x : Z) : Z := to_size_t (x + 1).

(** ** Octet arrays *)

Definition N2N_SN_LPORT_DEFAULT : Z := 7654.
Definition N2N_SN_PKTBUF_SIZE : Z := 2048.
Definition N2N_SN_MGMT_PORT : Z := 5645.

(** Modelled from the spec: [n2n.h] is not among the sources; section 3
    reserves 16 octets for a community name and 6 for a MAC address, and
    an IPv4 address takes 4. *)
Definition N2N_COMMUNITY_SIZE : nat := 16.
Definition N2N_MAC_SIZE : nat := 6.
Definition IPV4_SIZE : nat := 4.

(** The octet at offset [i] of an array. *)
Definition octet (a : list Z) (i : nat) : Z := nth i a 0.

(** [memcmp(a, b, n)]: the difference of the first pair of octets that
    differ, 0 when the first [n] octets agree. *)
Fixpoint memcmp (a b : list Z) (n : nat) : Z :=
  match n with
  | O => 0
  | S n' =>
      if hd 0 a =? hd 0 b then memcmp (tl a) (tl b) n'
      else hd 0 a - hd 0 b
  end.

(** [memcpy(dst, src, n)] over a whole array of [n] octets: the value of
    [dst] afterwards. *)
Fixpoint memcpy (src : list Z) (n : nat) : list Z :=
  match n with
  | O => []
  | S n' => hd 0 src :: memcpy (tl src) n'
  end.

(** ** Socket addresses *)

(** [n2n_sock_t].  The address is a union of a 4-octet and a 16-octet
    array; the supernode only ever fills in the IPv4 member. *)
Record n2n_sock_t := mk_sock {
  family : Z;
  port   : Z;
  addr_v4 : list Z
}.

(** [struct sockaddr_in] as [recvfrom] fills it in.  [sin_port] is kept
    in network byte order: the pair is its two octets as they lie in
    memory, most significant first. *)
Record sockaddr_in := mk_sockaddr_in {
  sin_port : Z * Z;
  sin_addr : list Z
}.

Definition ntohs (p : Z * Z) : Z := fst p * 256 + snd p.

#[global] Instance n2n_sock_eq_dec : EqDecision n2n_sock_t.
Proof. solve_decision. Defined.

#[global] Instance sockaddr_in_eq_dec : EqDecision sockaddr_in.
Proof. solve_decision. Defined.

(** ** The edge directory *)

(** [struct peer_info], the fields the supernode uses. *)
Record peer_info := mk_peer {
  community_name : list Z;
  mac_addr       : list Z;
  peer_sock      : n2n_sock_t;
  last_seen      : Z
}.

Definition set_last_seen (now : Z) (scan : peer_info) : peer_info :=
  {| community_name := community_name scan; mac_addr := mac_addr scan;
     peer_sock := peer_sock scan; last_seen := now |}.

(** Modelled from the spec: [find_peer_by_mac] lives in [n2n.c], which is
    not among the sources.  Section 4.B allows a linear scan; the call
    sites in [sn.c] pass the list and a MAC and nothing else, so the scan
    compares the 6 octets of the MAC only.  The pointer it returns is
    modelled by the position of the record in the list together with the
    record found there. *)
Fixpoint find_peer_by_mac (peers : list peer_info) (mac : list Z)
  : option (nat * peer_info) :=
  match peers with
  | [] => None
  | scan :: rest =>
      if memcmp mac (mac_addr scan) N2N_MAC_SIZE =? 0 then Some (O, scan)
      else prod_map S id <$> find_peer_by_mac rest mac
  end.

(** Modelled from the spec: [is_multi_broadcast_mac] is in [n2n.c].
    Section 3: a MAC is non-unicast when the low bit of its first octet
    is set, or when it is the all-ones value. *)
Definition is_multi_broadcast_mac (mac : list Z) : Z :=
  if Z.testbit (octet mac 0) 0
     || forallb (fun i => octet mac i =? 255) (seq 0 N2N_MAC_SIZE)
  then 1 else 0.

(** ** Counters and the supernode structure *)

Record sn_stats_t := mk_stats {
  errors         : Z;
  reg_super      : Z;
  reg_super_nak  : Z;
  fwd            : Z;
  broadcast      : Z;
  last_fwd       : Z;
  last_reg_super : Z
}.

(** Federation ([sn_multiple.h]): the two discovery states. *)
Inductive snm_state := N2N_SNM_STATE_DISCOVERY | N2N_SNM_STATE_READY.

#[global] Instance snm_state_eq_dec : EqDecision snm_state.
Proof. solve_decision. Defined.

(** [struct sn_info] and [sn_list_t], as far as [sn.c] reads them. *)
Record sn_info := mk_sn_info { sn : n2n_sock_t }.

Record sn_list_t := mk_sn_list {
  sn_head     : list sn_info;
  sn_filename : string
}.

(** [struct comm_info] and [comm_list_t].  The array [sn_sock] of a
    community is [ci_sn_sock] here: [n2n_sn] has a field [sn_sock] too. *)
Record comm_info := mk_comm_info {
  name       : list Z;
  sn_num     : Z;
  ci_sn_sock : list n2n_sock_t
}.

Record comm_list_t := mk_comm_list {
  head          : list comm_info;
  persist       : list comm_info;
  comm_filename : string
}.

Record n2n_sn_t := mk_sn {
  start_time          : Z;
  stats               : sn_stats_t;
  daemon              : Z;
  lport               : Z;
  sock                : Z;
  mgmt_sock           : Z;
  snm_discovery_state : snm_state;
  sn_port             : Z;
  sn_sock             : Z;
  seq_num             : Z;
  supernodes          : sn_list_t;
  communities         : comm_list_t;
  edges               : list peer_info
}.

(** Field updates, one per field that some handler assigns. *)
Definition set_stats (f : sn_stats_t -> sn_stats_t) (s : n2n_sn_t) : n2n_sn_t :=
  mk_sn (start_time s) (f (stats s)) (daemon s) (lport s) (sock s)
        (mgmt_sock s) (snm_discovery_state s) (sn_port s) (sn_sock s)
        (seq_num s) (supernodes s) (communities s) (edges s).

Definition set_edges (e : list peer_info) (s : n2n_sn_t) : n2n_sn_t :=
  mk_sn (start_time s) (stats s) (daemon s) (lport s) (sock s)
        (mgmt_sock s) (snm_discovery_state s) (sn_port s) (sn_sock s)
        (seq_num s) (supernodes s) (communities s) e.

Definition set_snm_discovery_state (st : snm_state) (s : n2n_sn_t) : n2n_sn_t :=
  mk_sn (start_time s) (stats s) (daemon s) (lport s) (sock s)
        (mgmt_sock s) st (sn_port s) (sn_sock s)
        (seq_num s) (supernodes s) (communities s) (edges s).

Definition set_seq_num (n : Z) (s : n2n_sn_t) : n2n_sn_t :=
  mk_sn (start_time s) (stats s) (daemon s) (lport s) (sock s)
        (mgmt_sock s) (snm_discovery_state s) (sn_port s) (sn_sock s)
        n (supernodes s) (communities s) (edges s).

Definition set_supernodes (l : sn_list_t) (s : n2n_sn_t) : n2n_sn_t :=
  mk_sn (start_time s) (stats s) (daemon s) (lport s) (sock s)
        (mgmt_sock s) (snm_discovery_state s) (sn_port s) (sn_sock s)
        (seq_num s) l (communities s) (edges s).

Definition set_communities (c : comm_list_t) (s : n2n_sn_t) : n2n_sn_t :=
  mk_sn (start_time s) (stats s) (daemon s) (lport s) (sock s)
        (mgmt_sock s) (snm_discovery_state s) (sn_port s) (sn_sock s)
        (seq_num s) (supernodes s) c (edges s).

Definition set_start_time (t : Z) (s : n2n_sn_t) : n2n_sn_t :=
  mk_sn t (stats s) (daemon s) (lport s) (sock s)
        (mgmt_sock s) (snm_discovery_state s) (sn_port s) (sn_sock s)
        (seq_num s) (supernodes s) (communities s) (edges s).

Definition set_lport (p : Z) (s : n2n_sn_t) : n2n_sn_t :=
  mk_sn (start_time s) (stats s) (daemon s) p (sock s)
        (mgmt_sock s) (snm_discovery_state s) (sn_port s) (sn_sock s)
        (seq_num s) (supernodes s) (communities s) (edges s).

Definition set_sn_port (p : Z) (s : n2n_sn_t) : n2n_sn_t :=
  mk_sn (start_time s) (stats s) (daemon s) (lport s) (sock s)
        (mgmt_sock s) (snm_discovery_state s) p (sn_sock s)
        (seq_num s) (supernodes s) (communities s) (edges s).

Definition set_daemon (d : Z) (s : n2n_sn_t) : n2n_sn_t :=
  mk_sn (start_time s) (stats s) d (lport s) (sock s)
        (mgmt_sock s) (snm_discovery_state s) (sn_port s) (sn_sock s)
        (seq_num s) (supernodes s) (communities s) (edges s).

Definition set_socks (fd mgmt snfd : Z) (s : n2n_sn_t) : n2n_sn_t :=
  mk_sn (start_time s) (stats s) (daemon s) (lport s) fd
        mgmt (snm_discovery_state s) (sn_port s) snfd
        (seq_num s) (supernodes s) (communities s) (edges s).

Definition incr_errors (st : sn_stats_t) : sn_stats_t :=
  mk_stats (incr_size_t (errors st)) (reg_super st) (reg_super_nak st)
           (fwd st) (broadcast st) (last_fwd st) (last_reg_super st).

Definition incr_reg_super (st : sn_stats_t) : sn_stats_t :=
  mk_stats (errors st) (incr_size_t (reg_super st)) (reg_super_nak st)
           (fwd st) (broadcast st) (last_fwd st) (last_reg_super st).

Definition incr_fwd (st : sn_stats_t) : sn_stats_t :=
  mk_stats (errors st) (reg_super st) (reg_super_nak st)
           (incr_size_t (fwd st)) (broadcast st) (last_fwd st)
           (last_reg_super st).

Definition incr_broadcast (st : sn_stats_t) : sn_stats_t :=
  mk_stats (errors st) (reg_super st) (reg_super_nak st)
           (fwd st) (incr_size_t (broadcast st)) (last_fwd st)
           (last_reg_super st).

Definition set_last_fwd (now : Z) (st : sn_stats_t) : sn_stats_t :=
  mk_stats (errors st) (reg_super st) (reg_super_nak st)
           (fwd st) (broadcast st) now (last_reg_super st).

Definition set_last_reg_super (now : Z) (st : sn_stats_t) : sn_stats_t :=
  mk_stats (errors st) (reg_super st) (reg_super_nak st)
           (fwd st) (broadcast st) (last_fwd st) now.

(** ** The outside world *)

(** Where a datagram goes: [sendto_sock] takes an [n2n_sock_t], the bare
    [sendto] calls take the [sockaddr_in] the request came from. *)
Inductive dest :=
  | ToSock (s : n2n_sock_t)
  | ToAddr (a : sockaddr_in).

(** What the supernode does to its environment.  [Sendto fd to data]
    is one call of [sendto_sock] or [sendto]: the descriptor, the
    socket or address argument, and the octets of the buffer argument
    up to the size argument. *)
Inductive io_event :=
  | Sendto (fd : Z) (to : dest) (data : list Z)
  | WriteCommunities (file : string) (comms : list comm_info)
  | WriteSupernodes (file : string) (sns : list sn_info).

(** The supernode structure and everything it has emitted, oldest first. *)
Record world := mk_world {
  sss : n2n_sn_t;
  out : list io_event
}.

Definition with_sss (f : n2n_sn_t -> n2n_sn_t) (w : world) : world :=
  mk_world (f (sss w)) (out w).

Definition emit (e : io_event) (w : world) : world :=
  mk_world (sss w) (out w ++ [e]).

(** ** Wire structures ([n2n_wire.h]), the fields [sn.c] touches *)

Record n2n_common_t := mk_common {
  ttl       : Z;
  pc        : Z;
  flags     : Z;
  community : list Z
}.

Record n2n_PACKET_t := mk_PACKET {
  pkt_srcMac : list Z;
  pkt_dstMac : list Z;
  pkt_sock   : n2n_sock_t
}.

Record n2n_REGISTER_t := mk_REGISTER {
  reg_cookie : Z;
  reg_srcMac : list Z;
  reg_dstMac : list Z;
  reg_sock   : n2n_sock_t
}.

Record n2n_REGISTER_SUPER_t := mk_REGISTER_SUPER {
  rs_cookie  : Z;
  rs_edgeMac : list Z
}.

Record n2n_REGISTER_SUPER_ACK_t := mk_REGISTER_SUPER_ACK {
  ack_cookie   : Z;
  ack_edgeMac  : list Z;
  ack_lifetime : Z;
  ack_sock     : n2n_sock_t;
  ack_num_sn   : Z;
  ack_sn_bak   : list n2n_sock_t
}.

Definition set_ttl (t : Z) (c : n2n_common_t) : n2n_common_t :=
  mk_common t (pc c) (flags c) (community c).

Definition set_flags (f : Z) (c : n2n_common_t) : n2n_common_t :=
  mk_common (ttl c) (pc c) f (community c).

Definition set_pkt_sock (s : n2n_sock_t) (p : n2n_PACKET_t) : n2n_PACKET_t :=
  mk_PACKET (pkt_srcMac p) (pkt_dstMac p) s.

Definition set_reg_sock (s : n2n_sock_t) (r : n2n_REGISTER_t) : n2n_REGISTER_t :=
  mk_REGISTER (reg_cookie r) (reg_srcMac r) (reg_dstMac r) s.

Definition set_backup (n : Z) (bak : list n2n_sock_t)
    (a : n2n_REGISTER_SUPER_ACK_t) : n2n_REGISTER_SUPER_ACK_t :=
  mk_REGISTER_SUPER_ACK (ack_cookie a) (ack_edgeMac a) (ack_lifetime a)
                        (ack_sock a) n bak.

(** [memset(&s, 0, sizeof(n2n_sock_t))]. *)
Definition zero_sock : n2n_sock_t := mk_sock 0 0 (replicate IPV4_SIZE 0).

(** [strlen] of an octet array: the octets before the first NUL. *)
Fixpoint strlen (s : list Z) : Z :=
  match s with
  | [] => 0
  | c :: s' => if c =? 0 then 0 else 1 + strlen s'
  end.

(** The part of the n2n library that [sn.c] calls and that is not among
    the sources: the constants of [n2n.h], the codec of [n2n_wire.h], and
    the peer-list helpers of [n2n.c].  They are taken as parameters, so
    that every statement below holds whatever they are.

    A decoder receives the buffer with the counters [rem] and [idx] and
    answers the structure with the counters advanced; [decode_common]
    alone has its result tested.  An encoder answers the octets it
    appends at [*idx]. *)
Class n2n_lib := {
  N2N_FLAGS_FROM_SUPERNODE : Z;
  N2N_FLAGS_SOCKET         : Z;
  MSG_TYPE_REGISTER        : Z;
  MSG_TYPE_PACKET          : Z;
  MSG_TYPE_REGISTER_ACK    : Z;
  MSG_TYPE_REGISTER_SUPER  : Z;
  n2n_register_super_ack   : Z;
  AF_INET                  : Z;
  N2N_DEFAULT_TTL          : Z;
  msg_types_distinct :
    NoDup [MSG_TYPE_PACKET; MSG_TYPE_REGISTER; MSG_TYPE_REGISTER_ACK;
           MSG_TYPE_REGISTER_SUPER];

  decode_common : list Z -> Z -> Z -> option (n2n_common_t * Z * Z);
  decode_PACKET : n2n_common_t -> list Z -> Z -> Z -> n2n_PACKET_t * Z * Z;
  decode_REGISTER :
    n2n_common_t -> list Z -> Z -> Z -> n2n_REGISTER_t * Z * Z;
  decode_REGISTER_SUPER :
    n2n_common_t -> list Z -> Z -> Z -> n2n_REGISTER_SUPER_t * Z * Z;
  encode_PACKET : n2n_common_t -> n2n_PACKET_t -> list Z;
  encode_REGISTER : n2n_common_t -> n2n_REGISTER_t -> list Z;
  encode_REGISTER_SUPER_ACK :
    n2n_common_t -> n2n_REGISTER_SUPER_ACK_t -> list Z;
  encode_buf : list Z -> Z -> list Z;

  sock_equal : n2n_sock_t -> n2n_sock_t -> Z;
  purge_expired_registrations : list peer_info -> Z -> list peer_info;
  purge_peer_list : list peer_info -> Z -> list peer_info
}.

(** The federation library ([sn_multiple.h] and its wire codec), again as
    far as [sn.c] calls it.  [N2N_MULTIPLE_SUPERNODES] is the build
    switch.  The helpers receive pointers to the supernode and community
    lists only, never to the whole [n2n_sn_t]: what they may change is
    what they answer here.  The last field is not of the library: it
    stands for what the stack holds where [sn.c] reads a list head it
    has not initialised. *)
Record snm_hdr_t := mk_snm_hdr {
  snm_type  : Z;
  snm_flags : Z;
  snm_seq   : Z
}.

Record n2n_SNM_REQ_t := mk_SNM_REQ {
  comm_num : Z;
  comm_ptr : list (list Z)
}.

Class snm_lib := {
  N2N_MULTIPLE_SUPERNODES      : bool;
  N2N_SUPER_DISCOVERY_INTERVAL : Z;
  N2N_MAX_COMM_PER_SN          : Z;
  N2N_MIN_SN_PER_COMM          : Z;
  SNM_TYPE_REQ_LIST_MSG        : Z;
  SNM_TYPE_RSP_LIST_MSG        : Z;
  SNM_TYPE_ADV_MSG             : Z;
  n2n_SNM_INFO_t               : Type;
  n2n_SNM_ADV_t                : Type;
  GET_A : Z -> bool;
  GET_E : Z -> bool;
  SET_S : Z -> Z;
  SET_C : Z -> Z;
  SET_N : Z -> Z;
  SET_A : Z -> Z;

  decode_SNM_hdr : list Z -> Z -> Z -> option (snm_hdr_t * Z * Z);
  decode_SNM_REQ : snm_hdr_t -> list Z -> Z -> Z -> n2n_SNM_REQ_t * Z * Z;
  decode_SNM_INFO : snm_hdr_t -> list Z -> Z -> Z -> n2n_SNM_INFO_t * Z * Z;
  decode_SNM_ADV : snm_hdr_t -> list Z -> Z -> Z -> n2n_SNM_ADV_t * Z * Z;
  encode_SNM_REQ : snm_hdr_t -> n2n_SNM_REQ_t -> list Z;
  encode_SNM_INFO : snm_hdr_t -> n2n_SNM_INFO_t -> list Z;
  encode_SNM_ADV : snm_hdr_t -> n2n_SNM_ADV_t -> list Z;

  build_snm_info :
    Z -> sn_list_t -> comm_list_t -> snm_hdr_t -> n2n_SNM_REQ_t ->
    snm_hdr_t * n2n_SNM_INFO_t;
  build_snm_adv : Z -> option (list comm_info) -> snm_hdr_t * n2n_SNM_ADV_t;
  process_snm_rsp :
    sn_list_t -> comm_list_t -> n2n_sock_t -> snm_hdr_t -> n2n_SNM_INFO_t ->
    sn_list_t * comm_list_t * Z;
  process_snm_adv :
    sn_list_t -> comm_list_t -> n2n_sock_t -> n2n_SNM_ADV_t ->
    sn_list_t * comm_list_t * Z;
  update_supernodes : sn_list_t -> n2n_sock_t -> sn_list_t * Z;
  update_and_save_supernodes : sn_list_t -> n2n_sock_t -> Z -> sn_list_t;
  add_new_community :
    comm_list_t -> list Z -> comm_list_t * Z * option comm_info;
  comm_find : list comm_info -> list Z -> Z -> option comm_info;
  sn_is_loopback : n2n_sock_t -> Z -> bool;
  (** [sn_cpy] of the sender's [sockaddr_in] read through an
      [n2n_sock_t] pointer, then [htons] on the port: this depends on
      how the two structures are laid out. *)
  sender_sn_of : sockaddr_in -> n2n_sock_t;
  read_supernodes_from_file : string -> option (list sn_info);
  read_communities_from_file : string -> option (list comm_info);
  (** What a [struct n2n_list] that was declared and never initialised
      links to, [k] events into the run: the list head [tmp_list] of
      [advertise_community_to_all] (line 433) is such a one. *)
  uninitialised_n2n_list : nat -> list comm_info
}.

(** ** The handlers of [sn.c] *)

Section Supernode.

Context {L : n2n_lib} {F : snm_lib}.

(** What the network answers: [net k] is the value returned by the send
    call made when [k] events have been emitted so far.  Quantifying over
    [net] covers full writes, short writes and errors alike. *)
Variable net : nat -> Z.

(** [init_sn]: [memset] to zero, then the defaults.  The federation
    fields are part of the structure in every build here; without
    [N2N_MULTIPLE_SUPERNODES] nothing reads them. *)
Definition init_sn : n2n_sn_t :=
  {| start_time := 0;
     stats := mk_stats 0 0 0 0 0 0 0;
     daemon := 1;
     lport := N2N_SN_LPORT_DEFAULT;
     sock := -1;
     mgmt_sock := -1;
     snm_discovery_state := N2N_SNM_STATE_DISCOVERY;
     sn_port := 0;
     sn_sock := -1;
     seq_num := to_unsigned_int (-1);
     supernodes := mk_sn_list [] "";
     communities := mk_comm_list [] [] "";
     edges := [] |}.

(** [deinit_sn]. *)
Definition deinit_sn (s : n2n_sn_t) : n2n_sn_t :=
  let s := set_socks (-1) (-1) (sn_sock s) s in
  let s := set_edges (purge_peer_list (edges s) 4294967295) s in
  if N2N_MULTIPLE_SUPERNODES then
    let s := set_seq_num (to_unsigned_int (-1)) s in
    let s := set_supernodes
               (mk_sn_list [] (sn_filename (supernodes s))) s in
    set_communities
      (mk_comm_list [] (persist (communities s))
                    (comm_filename (communities s))) s
  else s.

Definition reg_lifetime (s : n2n_sn_t) : Z := 120.

(** [update_edge].  A new record is put at the head of the list; a known
    one is changed where it stands. *)
Definition update_edge (s : n2n_sn_t) (edgeMac community : list Z)
    (sender_sock : n2n_sock_t) (now : Z) : n2n_sn_t * Z :=
  match find_peer_by_mac (edges s) edgeMac with
  | None =>
      let scan :=
        {| community_name := memcpy community N2N_COMMUNITY_SIZE;
           mac_addr := memcpy edgeMac N2N_MAC_SIZE;
           peer_sock := sender_sock;
           last_seen := 0 |} in
      (set_edges (set_last_seen now scan :: edges s) s, 0)
  | Some (i, _) =>
      let known (scan : peer_info) : peer_info :=
        let scan :=
          if negb (memcmp community (community_name scan)
                          N2N_COMMUNITY_SIZE =? 0)
             || negb (sock_equal sender_sock (peer_sock scan) =? 0)
          then {| community_name := memcpy community N2N_COMMUNITY_SIZE;
                  mac_addr := mac_addr scan;
                  peer_sock := sender_sock;
                  last_seen := last_seen scan |}
          else scan in
        set_last_seen now scan in
      (set_edges (alter known i (edges s)) s, 0)
  end.

(** Modelled from the spec: [sendto_sock] is not among the sources; per
    section 4.D it is a [sendto] to the peer's socket.  The datagram is
    the first [pktsize] octets of the buffer; the result is the
    network's. *)
Definition sendto_sock (w : world) (fd : Z) (pktbuf : list Z) (pktsize : Z)
    (to : n2n_sock_t) : world * Z :=
  (emit (Sendto fd (ToSock to) (take (Z.to_nat pktsize) pktbuf)) w,
   net (length (out w))).

(** [sendto] towards the address a request came from. *)
Definition sendto (w : world) (fd : Z) (buf : list Z) (size : Z)
    (to : sockaddr_in) : world * Z :=
  (emit (Sendto fd (ToAddr to) (take (Z.to_nat size) buf)) w,
   net (length (out w))).

(** Modelled from the spec: [sendto_sock] is not among the sources, and
    the federation senders hand it their arguments in another order
    than the edge plane does: descriptor, socket, buffer, size (lines
    515, 550 and 577) against descriptor, buffer, size, socket (lines
    219 and 274); no one C prototype takes both.  Section 4.E has each
    of these messages sent to the supernode or edge it is for, and the
    call is read accordingly, by the types of its arguments: the first
    [pktsize] octets of [pktbuf] go to [to].  What a build does with
    these calls if [sendto_sock] is declared the way the edge plane
    calls it is not modelled. *)
Definition sendto_sock_sn (w : world) (fd : Z) (to : n2n_sock_t)
    (pktbuf : list Z) (pktsize : Z) : world * Z :=
  sendto_sock w fd pktbuf pktsize to.

(** [try_forward].  [data_sent_len] is an [int] compared with a
    [size_t]. *)
Definition try_forward (w : world) (cmn : n2n_common_t) (dstMac : list Z)
    (pktbuf : list Z) (pktsize : Z) : world * Z :=
  match find_peer_by_mac (edges (sss w)) dstMac with
  | Some (_, scan) =>
      let '(w, data_sent_len) :=
        sendto_sock w (sock (sss w)) pktbuf pktsize (peer_sock scan) in
      if to_size_t data_sent_len =? pktsize
      then (with_sss (set_stats incr_fwd) w, 0)
      else (with_sss (set_stats incr_errors) w, 0)
  | None => (w, 0)
  end.

(** One turn of the loop of [try_broadcast]. *)
Definition try_broadcast_scan (cmn : n2n_common_t) (srcMac : list Z)
    (pktbuf : list Z) (pktsize : Z) (w : world) (scan : peer_info) : world :=
  if (memcmp (community_name scan) (community cmn) N2N_COMMUNITY_SIZE =? 0)
     && negb (memcmp srcMac (mac_addr scan) N2N_MAC_SIZE =? 0)
  then
    let '(w, data_sent_len) :=
      sendto_sock w (sock (sss w)) pktbuf pktsize (peer_sock scan) in
    if negb (to_size_t data_sent_len =? pktsize)
    then with_sss (set_stats incr_errors) w
    else with_sss (set_stats incr_broadcast) w
  else w.

(** [try_broadcast]: the loop runs over the edge list from its head; the
    body leaves the list alone. *)
Definition try_broadcast (w : world) (cmn : n2n_common_t) (srcMac : list Z)
    (pktbuf : list Z) (pktsize : Z) : world * Z :=
  (fold_left (try_broadcast_scan cmn srcMac pktbuf pktsize)
             (edges (sss w)) w, 0).

(** ** The management reply *)

Definition newline : string := String (ascii_of_nat 10) EmptyString.

(** The lines [process_mgmt] prints, in order.  [%u] takes an
    [unsigned int], [%lu] an [unsigned long].  None of the [snprintf]
    calls can run out of room: ten lines of at most 40 octets fit the
    2048-octet buffer many times over. *)
Definition mgmt_lines (s : n2n_sn_t) (now : Z) : list string :=
  [ "----------------" +:+ newline;
    "uptime    " +:+ pretty (to_size_t (now - start_time s)) +:+ newline;
    "edges     "
      +:+ pretty (to_unsigned_int (Z.of_nat (length (edges s)))) +:+ newline;
    "errors    " +:+ pretty (to_unsigned_int (errors (stats s))) +:+ newline;
    "reg_sup   "
      +:+ pretty (to_unsigned_int (reg_super (stats s))) +:+ newline;
    "reg_nak   "
      +:+ pretty (to_unsigned_int (reg_super_nak (stats s))) +:+ newline;
    "fwd       " +:+ pretty (to_unsigned_int (fwd (stats s))) +:+ newline;
    "broadcast "
      +:+ pretty (to_unsigned_int (broadcast (stats s))) +:+ newline;
    "last fwd  " +:+ pretty (to_size_t (now - last_fwd (stats s)))
      +:+ " sec ago" +:+ newline;
    "last reg  " +:+ pretty (to_size_t (now - last_reg_super (stats s)))
      +:+ " sec ago" +:+ newline ].

Definition octets_of_string (s : string) : list Z :=
  (fun c => Z.of_N (N_of_ascii c)) <$> list_ascii_of_string s.

(** [process_mgmt]: the request is not looked at. *)
Definition process_mgmt (w : world) (sender_sock : sockaddr_in)
    (mgmt_buf : list Z) (now : Z) : world * Z :=
  let resbuf := octets_of_string (String.concat "" (mgmt_lines (sss w) now)) in
  let ressize := Z.of_nat (length resbuf) in
  let '(w, r) := sendto w (mgmt_sock (sss w)) resbuf ressize sender_sock in
  if r <=? 0 then (with_sss (set_stats incr_errors) w, 0) else (w, 0).

(** ** The edge dispatcher *)

(** Modelled from the spec: [init_cmn] is not among the sources.  It
    starts a common header for a frame the supernode originates: packet
    code, flags and community as given (section 4.D: "Set flags
    [SOCKET | FROM_SUPERNODE]"), and the default TTL. *)
Definition init_cmn (pc0 flags0 : Z) (community0 : list Z) : n2n_common_t :=
  {| ttl := N2N_DEFAULT_TTL; pc := pc0; flags := flags0;
     community := memcpy community0 N2N_COMMUNITY_SIZE |}.

(** The socket the datagram was seen to come from, as the handlers write
    it into [pkt.sock], [reg.sock] and [ack.sock]. *)
Definition observed_sock (sender_sock : sockaddr_in) : n2n_sock_t :=
  {| family := AF_INET;
     port := ntohs (sin_port sender_sock);
     addr_v4 := memcpy (sin_addr sender_sock) IPV4_SIZE |}.

(** The header is encoded again and the rest of the datagram, from
    [idx] on, is copied behind it.  In the source this goes into
    [encbuf], an array of [N2N_SN_PKTBUF_SIZE] octets (lines 771 and
    834), and nothing tests for its end: the list here is what the
    array holds as long as [encx] stays within [N2N_SN_PKTBUF_SIZE].
    A received datagram has up to that many octets and the rewrite
    adds the inlined socket to them; for such a datagram the source
    writes past the array, which is outside this model. *)
Definition reencode (hdr : list Z) (udp_buf : list Z) (udp_size idx : Z)
  : list Z * Z :=
  let encbuf :=
    hdr ++ encode_buf (drop (Z.to_nat idx) udp_buf)
                      (to_size_t (udp_size - idx)) in
  (encbuf, Z.of_nat (length encbuf)).

(** The [MSG_TYPE_PACKET] branch. *)
Definition process_PACKET (w : world) (sender_sock : sockaddr_in)
    (udp_buf : list Z) (udp_size : Z) (now : Z)
    (cmn : n2n_common_t) (from_supernode : Z) (rem idx : Z) : world :=
  let w := with_sss (set_stats (set_last_fwd now)) w in
  let '(pkt, rem, idx) := decode_PACKET cmn udp_buf rem idx in
  let unicast := is_multi_broadcast_mac (pkt_dstMac pkt) =? 0 in
  let '(pkt, (rec_buf, encx)) :=
    if from_supernode =? 0 then
      let cmn2 :=
        set_flags (Z.lor (flags cmn)
                     (Z.lor N2N_FLAGS_SOCKET N2N_FLAGS_FROM_SUPERNODE)) cmn in
      let pkt := set_pkt_sock (observed_sock sender_sock) pkt in
      (pkt, reencode (encode_PACKET cmn2 pkt) udp_buf udp_size idx)
    else (pkt, (udp_buf, udp_size)) in
  if unicast
  then fst (try_forward w cmn (pkt_dstMac pkt) rec_buf encx)
  else fst (try_broadcast w cmn (pkt_srcMac pkt) rec_buf encx).

(** The [MSG_TYPE_REGISTER] branch. *)
Definition process_REGISTER (w : world) (sender_sock : sockaddr_in)
    (udp_buf : list Z) (udp_size : Z) (now : Z)
    (cmn : n2n_common_t) (rem idx : Z) : world :=
  let w := with_sss (set_stats (set_last_fwd now)) w in
  let '(reg, rem, idx) := decode_REGISTER cmn udp_buf rem idx in
  let unicast := is_multi_broadcast_mac (reg_dstMac reg) =? 0 in
  if unicast then
    let '(reg, (rec_buf, encx)) :=
      if negb (Z.land (flags cmn) N2N_FLAGS_FROM_SUPERNODE =? 0) then
        let cmn2 :=
          set_flags (Z.lor (flags cmn)
                       (Z.lor N2N_FLAGS_SOCKET N2N_FLAGS_FROM_SUPERNODE))
                    cmn in
        let reg := set_reg_sock (observed_sock sender_sock) reg in
        (reg, reencode (encode_REGISTER cmn2 reg) udp_buf udp_size idx)
      else (reg, (udp_buf, udp_size)) in
    fst (try_forward w cmn (reg_dstMac reg) rec_buf encx)
  else w.

(** The acknowledgement built for a [REGISTER_SUPER], before the
    federation fills in the backup supernodes. *)
Definition build_ack (s : n2n_sn_t) (reg : n2n_REGISTER_SUPER_t)
    (sender_sock : sockaddr_in) : n2n_REGISTER_SUPER_ACK_t :=
  {| ack_cookie := rs_cookie reg;
     ack_edgeMac := memcpy (rs_edgeMac reg) N2N_MAC_SIZE;
     ack_lifetime := reg_lifetime s;
     ack_sock := observed_sock sender_sock;
     ack_num_sn := 0;
     ack_sn_bak := [zero_sock] |}.

(** The block under [#ifdef N2N_MULTIPLE_SUPERNODES]. *)
Definition fill_backup (s : n2n_sn_t) (cmn : n2n_common_t)
    (ack : n2n_REGISTER_SUPER_ACK_t) : n2n_REGISTER_SUPER_ACK_t :=
  if N2N_MULTIPLE_SUPERNODES then
    match comm_find (head (communities s)) (community cmn)
                    (strlen (community cmn)) with
    | Some ci =>
        let n := Z.to_nat (sn_num ci) in
        set_backup (sn_num ci)
                   (take n (ci_sn_sock ci) ++ drop n (ack_sn_bak ack)) ack
    | None => ack
    end
  else ack.

(** The [MSG_TYPE_REGISTER_SUPER] branch. *)
Definition process_REGISTER_SUPER (w : world) (sender_sock : sockaddr_in)
    (udp_buf : list Z) (udp_size : Z) (now : Z)
    (cmn : n2n_common_t) (rem idx : Z) : world :=
  let w := with_sss (set_stats (set_last_reg_super now)) w in
  let w := with_sss (set_stats incr_reg_super) w in
  let '(reg, rem, idx) := decode_REGISTER_SUPER cmn udp_buf rem idx in
  let cmn2 :=
    init_cmn n2n_register_super_ack
             (Z.lor N2N_FLAGS_SOCKET N2N_FLAGS_FROM_SUPERNODE)
             (community cmn) in
  let ack := build_ack (sss w) reg sender_sock in
  let w :=
    with_sss (fun s => fst (update_edge s (rs_edgeMac reg) (community cmn)
                                        (ack_sock ack) now)) w in
  let ack := fill_backup (sss w) cmn ack in
  let ackbuf := encode_REGISTER_SUPER_ACK cmn2 ack in
  let encx := Z.of_nat (length ackbuf) in
  fst (sendto w (sock (sss w)) ackbuf encx sender_sock).

(** [--(cmn.ttl)] on a [uint8_t]: the header the branches work with. *)
Definition hop (cmn : n2n_common_t) : n2n_common_t :=
  set_ttl ((ttl cmn - 1) mod 256) cmn.

(** [process_udp].  The datagram is the [udp_size] octets [udp_buf].
    [from_supernode] is a [uint8_t]. *)
Definition process_udp (w : world) (sender_sock : sockaddr_in)
    (udp_buf : list Z) (now : Z) : world * Z :=
  let udp_size := Z.of_nat (length udp_buf) in
  match decode_common udp_buf udp_size 0 with
  | None => (w, -1)
  | Some (cmn, rem, idx) =>
      let msg_type := pc cmn in
      let from_supernode :=
        Z.land (flags cmn) N2N_FLAGS_FROM_SUPERNODE mod 256 in
      if ttl cmn <? 1 then (w, 0)
      else
        let cmn := hop cmn in
        if msg_type =? MSG_TYPE_PACKET then
          (process_PACKET w sender_sock udp_buf udp_size now
                          cmn from_supernode rem idx, 0)
        else if msg_type =? MSG_TYPE_REGISTER then
          (process_REGISTER w sender_sock udp_buf udp_size now cmn rem idx, 0)
        else if msg_type =? MSG_TYPE_REGISTER_ACK then (w, 0)
        else if msg_type =? MSG_TYPE_REGISTER_SUPER then
          (process_REGISTER_SUPER w sender_sock udp_buf udp_size now
                                  cmn rem idx, 0)
        else (w, 0)
  end.

(** ** Federation *)

(** [send_snm_req].  The sequence number is an [unsigned int], bumped
    while the header is initialised, before the loopback test. *)
Definition send_snm_req (w : world) (to : n2n_sock_t) (req_communities : Z)
    (comms : option (list (list Z))) (communities_num : Z) : world :=
  let w := with_sss (fun s => set_seq_num (to_unsigned_int (seq_num s + 1)) s) w in
  let hdr := mk_snm_hdr SNM_TYPE_REQ_LIST_MSG 0 (seq_num (sss w)) in
  let req := mk_SNM_REQ 0 [] in
  if sn_is_loopback to (sn_port (sss w)) then w
  else
    let hdr := mk_snm_hdr (snm_type hdr) (SET_S (snm_flags hdr)) (snm_seq hdr) in
    let '(hdr, req) :=
      if negb (req_communities =? 0) then
        (mk_snm_hdr (snm_type hdr) (SET_C (snm_flags hdr)) (snm_seq hdr), req)
      else
        match comms with
        | Some names =>
            (mk_snm_hdr (snm_type hdr) (SET_N (snm_flags hdr)) (snm_seq hdr),
             mk_SNM_REQ (Z.land communities_num 65535) names)
        | None => (hdr, req)
        end in
    let pktbuf := encode_SNM_REQ hdr req in
    fst (sendto_sock_sn w (sn_sock (sss w)) to pktbuf
                        (Z.of_nat (length pktbuf))).

Definition send_req_to_all_supernodes (w : world) (req_communities : Z)
    (comms : option (list (list Z))) (communities_num : Z) : world :=
  fold_left
    (fun w sni => send_snm_req w (sn sni) req_communities comms communities_num)
    (sn_head (supernodes (sss w))) w.

Definition send_snm_rsp (w : world) (to : n2n_sock_t) (hdr : snm_hdr_t)
    (req : n2n_SNM_REQ_t) : world :=
  let '(rsp_hdr, rsp) :=
    build_snm_info (sock (sss w)) (supernodes (sss w)) (communities (sss w))
                   hdr req in
  let pktbuf := encode_SNM_INFO rsp_hdr rsp in
  fst (sendto_sock_sn w (sn_sock (sss w)) to pktbuf
                      (Z.of_nat (length pktbuf))).

(** [send_snm_adv]; [comm_list] may be [NULL]. *)
Definition send_snm_adv (w : world) (to : n2n_sock_t)
    (comm_list : option (list comm_info)) : world :=
  if sn_is_loopback to (sn_port (sss w)) then w
  else
    let '(hdr, adv) := build_snm_adv (sock (sss w)) comm_list in
    let hdr :=
      if decide (snm_discovery_state (sss w) <> N2N_SNM_STATE_READY)
      then mk_snm_hdr (snm_type hdr) (SET_A (snm_flags hdr)) (snm_seq hdr)
      else hdr in
    let pktbuf := encode_SNM_ADV hdr adv in
    fst (sendto_sock_sn w (sn_sock (sss w)) to pktbuf
                        (Z.of_nat (length pktbuf))).

Definition advertise_all (w : world) : world :=
  match head (communities (sss w)) with
  | [] => w
  | _ :: _ =>
      fold_left
        (fun w sni =>
           send_snm_adv w (sn sni) (Some (head (communities (sss w)))))
        (sn_head (supernodes (sss w))) w
  end.

(** [advertise_community_to_all].  [tmp_list] is not initialised before
    [list_add] puts [ci] at its head (lines 433 to 437): what follows
    [ci] in the list handed to [send_snm_adv] is whatever the head
    linked to. *)
Definition advertise_community_to_all (w : world) (community0 : list Z)
  : world :=
  let ci := mk_comm_info (memcpy community0 N2N_COMMUNITY_SIZE) 0 [] in
  let tmp_list := ci :: uninitialised_n2n_list (length (out w)) in
  fold_left (fun w sni => send_snm_adv w (sn sni) (Some tmp_list))
            (sn_head (supernodes (sss w))) w.

(** The [while] loop of [communities_discovery]: walk the communities
    that were being queried, adopting those that too few supernodes
    host, while there is room. *)
Fixpoint adopt_communities (comms : comm_list_t) (queried : list comm_info)
    (comm_num : Z) : comm_list_t :=
  match queried with
  | [] => comms
  | ci :: rest =>
      if comm_num <? N2N_MAX_COMM_PER_SN then
        if sn_num ci <? N2N_MIN_SN_PER_COMM then
          let '(comms, added, _) := add_new_community comms (name ci) in
          adopt_communities comms rest
            (if negb (added =? 0) then comm_num + 1 else comm_num)
        else adopt_communities comms rest comm_num
      else comms
  end.

(** [communities_discovery].  Copying one list head over another makes
    the two share their nodes; here [head] takes the value of
    [persist]. *)
Definition communities_discovery (w : world) (nowTime : Z) : world :=
  if nowTime - start_time (sss w) <? N2N_SUPER_DISCOVERY_INTERVAL then w
  else if decide (snm_discovery_state (sss w) = N2N_SNM_STATE_DISCOVERY) then
    let tmp_list := head (communities (sss w)) in
    let comm_num := Z.of_nat (length (persist (communities (sss w)))) in
    let comms :=
      mk_comm_list (persist (communities (sss w)))
                   (persist (communities (sss w)))
                   (comm_filename (communities (sss w))) in
    let comms := adopt_communities comms tmp_list comm_num in
    let w := with_sss (set_communities comms) w in
    let w := advertise_all w in
    with_sss (set_snm_discovery_state N2N_SNM_STATE_READY) w
  else w.

(** The loop of the [RSP] branch: a request to each of the first
    [sn_num] supernodes of the list. *)
Fixpoint request_new_supernodes (w : world) (l : list sn_info) (sn_num0 : Z)
  : world :=
  match l with
  | [] => w
  | new_sn :: rest =>
      if sn_num0 =? 0 then w
      else request_new_supernodes (send_snm_req w (sn new_sn) 1 None 0)
                                  rest (sn_num0 - 1)
  end.

(** The [REQ] branch of [process_sn_msg], once the state has been found
    to be [READY]. *)
Definition process_SNM_REQ (w : world) (sender_sn : n2n_sock_t)
    (hdr : snm_hdr_t) (msg_buf : list Z) (rem idx : Z) : world * Z :=
  let '(req, rem, idx) := decode_SNM_REQ hdr msg_buf rem idx in
  let answered : option world :=
    if GET_A (snm_flags hdr) then
      let edge_request : option world :=
        if GET_E (snm_flags hdr) then
          if negb (comm_num req =? 1) then None
          else
            let '(comms, need_write, ci) :=
              add_new_community (communities (sss w))
                                (nth 0 (comm_ptr req) []) in
            let w := with_sss (set_communities comms) w in
            if negb (need_write =? 0) then
              let w :=
                emit (WriteCommunities (comm_filename (communities (sss w)))
                                       (head (communities (sss w)))) w in
              Some (advertise_community_to_all w (from_option name [] ci))
            else Some w
        else Some w in
      (fun w => send_snm_adv w sender_sn None) <$> edge_request
    else Some (send_snm_rsp w sender_sn hdr req) in
  match answered with
  | None => (w, -1)
  | Some w =>
      if negb (GET_E (snm_flags hdr)) then
        (with_sss (fun s =>
           set_supernodes
             (update_and_save_supernodes (supernodes s) sender_sn 1) s) w, 0)
      else (w, 0)
  end.

(** [process_sn_msg]. *)
Definition process_sn_msg (w : world) (sender_sock : sockaddr_in)
    (msg_buf : list Z) (now : Z) : world * Z :=
  let msg_size := Z.of_nat (length msg_buf) in
  let sender_sn := sender_sn_of sender_sock in
  match decode_SNM_hdr msg_buf msg_size 0 with
  | None => (w, -1)
  | Some (hdr, rem, idx) =>
      let msg_type := snm_type hdr in
      if msg_type =? SNM_TYPE_REQ_LIST_MSG then
        if decide (snm_discovery_state (sss w) <> N2N_SNM_STATE_READY)
        then (w, -1)
        else process_SNM_REQ w sender_sn hdr msg_buf rem idx
      else if msg_type =? SNM_TYPE_RSP_LIST_MSG then
        if decide (snm_discovery_state (sss w) = N2N_SNM_STATE_READY)
        then (w, -1)
        else
          let '(rsp, rem, idx) := decode_SNM_INFO hdr msg_buf rem idx in
          let '(sns, comms, sn_num0) :=
            process_snm_rsp (supernodes (sss w)) (communities (sss w))
                            sender_sn hdr rsp in
          let w := with_sss (fun s => set_communities comms
                                        (set_supernodes sns s)) w in
          (request_new_supernodes w (sn_head (supernodes (sss w))) sn_num0, 0)
      else if msg_type =? SNM_TYPE_ADV_MSG then
        let '(adv, rem, idx) := decode_SNM_ADV hdr msg_buf rem idx in
        let '(sns, comms, communities_updated) :=
          process_snm_adv (supernodes (sss w)) (communities (sss w))
                          sender_sn adv in
        let w := with_sss (fun s => set_communities comms
                                      (set_supernodes sns s)) w in
        if negb (communities_updated =? 0) && GET_A (snm_flags hdr)
        then (send_snm_adv w sender_sn (Some (head (communities (sss w)))), 0)
        else (w, 0)
      else (w, 0)
  end.

(** [load_snm_info], run once by [main] before the loop. *)
Definition load_snm_info (w : world) : world * Z :=
  let cmdline_supernodes := sn_head (supernodes (sss w)) in
  let filename := "SN_SNM_" +:+ pretty (sn_port (sss w)) in
  let w := with_sss (set_supernodes (mk_sn_list [] filename)) w in
  match read_supernodes_from_file filename with
  | None => (w, -1)
  | Some from_file =>
      let w := with_sss (set_supernodes (mk_sn_list from_file filename)) w in
      let '(sns, new_ones) :=
        fold_left
          (fun '(sns, new_ones) sni =>
             let '(sns, r) := update_supernodes sns (sn sni) in
             (sns, new_ones + r))
          cmdline_supernodes (supernodes (sss w), 0) in
      let w := with_sss (set_supernodes sns) w in
      let w :=
        if negb (new_ones =? 0)
        then emit (WriteSupernodes filename (sn_head (supernodes (sss w)))) w
        else w in
      let cfile := "SN_COMM_" +:+ pretty (sn_port (sss w)) in
      let comms c l := mk_comm_list (head c) l cfile in
      let w :=
        with_sss (fun s => set_communities
                             (comms (communities s) (persist (communities s)))
                             s) w in
      match read_communities_from_file cfile with
      | None => (w, -1)
      | Some persisted =>
          let w :=
            with_sss (fun s => set_communities
                                 (comms (communities s) persisted) s) w in
          match sn_head (supernodes (sss w)) with
          | [] =>
              (with_sss (set_snm_discovery_state N2N_SNM_STATE_READY) w, 0)
          | _ :: _ => (w, 0)
          end
      end
  end.

(** ** The event loop *)

(** What [recvfrom] produced on a socket that [select] reported. *)
Record recv := mk_recv {
  bread  : Z;
  sender : sockaddr_in;
  pktbuf : list Z
}.

(** Everything one turn of the loop of [run_loop] takes from outside:
    the clock readings, the result of [select], and for each socket
    whether it was reported readable and what was read from it. *)
Record turn := mk_turn {
  discovery_clock : Z;
  rc              : Z;
  now_clock       : Z;
  on_sn_sock      : option recv;
  on_sock         : option recv;
  on_mgmt_sock    : option recv;
  purge_clock     : Z
}.

Definition datagram (r : recv) : list Z := take (Z.to_nat (bread r)) (pktbuf r).

(** The body of the [while] loop.  The boolean is [keep_running]; a
    [break] leaves the loop at once, without the purge. *)
Definition run_loop_turn (w : world) (t : turn) : world * bool :=
  let w :=
    if N2N_MULTIPLE_SUPERNODES
       && negb (bool_decide (snm_discovery_state (sss w) = N2N_SNM_STATE_READY))
    then communities_discovery w (discovery_clock t)
    else w in
  let now := now_clock t in
  let purge (w : world) : world * bool :=
    (with_sss (fun s =>
       set_edges (purge_expired_registrations (edges s) (purge_clock t)) s) w,
     true) in
  if 0 <? rc t then
    let after_sn : world * bool :=
      match (if N2N_MULTIPLE_SUPERNODES then on_sn_sock t else None) with
      | Some r =>
          if bread r <=? 0 then (w, false)
          else (fst (process_sn_msg w (sender r) (datagram r) now), true)
      | None => (w, true)
      end in
    let after_udp : world * bool :=
      let '(w, keep) := after_sn in
      if keep then
        match on_sock t with
        | Some r =>
            if bread r <? 0 then (w, false)
            else if 0 <? bread r
            then (fst (process_udp w (sender r) (datagram r) now), true)
            else (w, true)
        | None => (w, true)
        end
      else (w, false) in
    let after_mgmt : world * bool :=
      let '(w, keep) := after_udp in
      if keep then
        match on_mgmt_sock t with
        | Some r =>
            if bread r <=? 0 then (w, false)
            else (fst (process_mgmt w (sender r) (datagram r) now), true)
        | None => (w, true)
        end
      else (w, false) in
    let '(w, keep) := after_mgmt in
    if keep then purge w else (w, false)
  else purge w.

(** The loop over the turns the environment supplies.  When they run
    out the supernode is still serving; after a [break] it runs
    [deinit_sn] and returns. *)
Fixpoint run_turns (w : world) (ts : list turn) : world :=
  match ts with
  | [] => w
  | t :: ts' =>
      let '(w, keep_running) := run_loop_turn w t in
      if keep_running then run_turns w ts' else with_sss deinit_sn w
  end.

(** [run_loop]: [start] is what [time(NULL)] answers on entry. *)
Definition run_loop (w : world) (start : Z) (ts : list turn) : world :=
  run_turns (with_sss (set_start_time start) w) ts.

(** ** Start-up *)

(** A command-line option as [getopt_long] reports it, its argument
    already read by [atoi] or [sock_from_cstr]. *)
Inductive cli_option :=
  | opt_l (lport0 : Z)
  | opt_s (sn_port0 : Z)
  | opt_i (sn0 : n2n_sock_t)
  | opt_f
  | opt_h
  | opt_v.

(** The [switch] of [main]; [None] is [exit_help].  The options [-s] and
    [-i] exist in a federation build only. *)
Definition apply_option (s : n2n_sn_t) (o : cli_option) : option n2n_sn_t :=
  match o with
  | opt_l p => Some (set_lport (p mod 65536) s)
  | opt_s p =>
      if N2N_MULTIPLE_SUPERNODES then Some (set_sn_port p s) else Some s
  | opt_i sn0 =>
      if N2N_MULTIPLE_SUPERNODES
      then Some (set_supernodes (fst (update_supernodes (supernodes s) sn0)) s)
      else Some s
  | opt_f => Some (set_daemon 0 s)
  | opt_h => None
  | opt_v => Some s
  end.

Fixpoint apply_options (s : n2n_sn_t) (argv : list cli_option)
  : option n2n_sn_t :=
  match argv with
  | [] => Some s
  | o :: argv' =>
      match apply_option s o with
      | Some s' => apply_options s' argv'
      | None => None
      end
  end.

(** [main]: the three file descriptors are what [open_socket] answers,
    [start] and [ts] feed [run_loop].  [None] is an [exit] before the
    loop is entered. *)
Definition main (argv : list cli_option) (fd mgmt_fd sn_fd : Z) (start : Z)
    (ts : list turn) : option world :=
  match apply_options init_sn argv with
  | None => None
  | Some s =>
      if fd =? -1 then None
      else if mgmt_fd =? -1 then None
      else
        let s := set_socks fd mgmt_fd (sn_sock s) s in
        let w := mk_world s [] in
        if N2N_MULTIPLE_SUPERNODES then
          let '(w, r) := load_snm_info w in
          if negb (r =? 0) then None
          else if sn_fd =? -1 then None
          else
            let w := with_sss (fun s => set_socks (sock s) (mgmt_sock s) sn_fd s) w in
            let w :=
              send_req_to_all_supernodes w
                (if decide (snm_discovery_state (sss w) <> N2N_SNM_STATE_READY)
                 then 1 else 0)
                None 0 in
            Some (run_loop w start ts)
        else Some (run_loop w start ts)
  end.

End Supernode.

(** * A reference instance of the missing libraries

    The statements of this file hold for every [n2n_lib] and [snm_lib].
    To run the handlers on concrete datagrams one instance of each is
    spelled out here, with the wire layout of section 4.A of the
    specification. *)

Module Ref.

Definition encode_uint16 (v : Z) : list Z := [(v / 256) mod 256; v mod 256].

Definition encode_uint32 (v : Z) : list Z :=
  [(v / 16777216) mod 256; (v / 65536) mod 256; (v / 256) mod 256; v mod 256].

Definition decode_uint16 (b : list Z) : Z := octet b 0 * 256 + octet b 1.

Definition decode_uint32 (b : list Z) : Z :=
  ((octet b 0 * 256 + octet b 1) * 256 + octet b 2) * 256 + octet b 3.

(** Modelled from the spec: the flag masks and packet codes of [n2n.h]
    are missing; section 4.A names them without their values.  The
    values here are those of the n2n 2.x wire protocol, with which
    section 6 demands compatibility. *)
Definition FLAGS_FROM_SUPERNODE : Z := 32.
Definition FLAGS_SOCKET : Z := 64.
Definition PC_REGISTER : Z := 1.
Definition PC_PACKET : Z := 3.
Definition PC_REGISTER_ACK : Z := 4.
Definition PC_REGISTER_SUPER : Z := 5.
Definition PC_REGISTER_SUPER_ACK : Z := 6.
Definition PKT_VERSION : Z := 2.

(** Modelled from the spec: the encoder of the common header is missing.
    Section 4.A: version (1 octet), TTL (1), packet code (1), flags (2,
    big-endian), community (16). *)
Definition encode_common (c : n2n_common_t) : list Z :=
  [PKT_VERSION; ttl c mod 256; pc c mod 256]
    ++ encode_uint16 (flags c) ++ memcpy (community c) N2N_COMMUNITY_SIZE.

(** Modelled from the spec: [decode_common] is missing.  It fails when
    the header would read past [rem] (section 4.A). *)
Definition decode_common (buf : list Z) (rem idx : Z)
  : option (n2n_common_t * Z * Z) :=
  if rem <? 21 then None
  else
    let b := drop (Z.to_nat idx) buf in
    Some (mk_common (octet b 1) (octet b 2) (decode_uint16 (drop 3 b))
                    (memcpy (drop 5 b) N2N_COMMUNITY_SIZE),
          rem - 21, idx + 21).

(** Modelled from the spec: the socket codec is missing.  Section 3: an
    address family, a 16-bit port and, for IPv4, 4 address octets. *)
Definition encode_sock (s : n2n_sock_t) : list Z :=
  [family s mod 256] ++ encode_uint16 (port s) ++ memcpy (addr_v4 s) IPV4_SIZE.

Definition decode_sock (b : list Z) : n2n_sock_t :=
  mk_sock (octet b 0) (decode_uint16 (drop 1 b)) (memcpy (drop 3 b) IPV4_SIZE).

Definition has_socket (c : n2n_common_t) : bool :=
  negb (Z.land (flags c) FLAGS_SOCKET =? 0).

(** Modelled from the spec: [decode_PACKET] is missing.  Section 4.A:
    srcMac, dstMac, the inline socket when the [SOCKET] flag announces
    one; the Ethernet frame follows.  A truncated payload leaves the
    structure zeroed and the counters where they were. *)
Definition decode_PACKET (c : n2n_common_t) (buf : list Z) (rem idx : Z)
  : n2n_PACKET_t * Z * Z :=
  let b := drop (Z.to_nat idx) buf in
  let need := 12 + (if has_socket c then 7 else 0) in
  if rem <? need then (mk_PACKET [] [] zero_sock, rem, idx)
  else
    (mk_PACKET (memcpy b N2N_MAC_SIZE) (memcpy (drop 6 b) N2N_MAC_SIZE)
               (if has_socket c then decode_sock (drop 12 b) else zero_sock),
     rem - need, idx + need).

(** Modelled from the spec: [encode_PACKET] is missing; the layout is
    that of [decode_PACKET]. *)
Definition encode_PACKET (c : n2n_common_t) (p : n2n_PACKET_t) : list Z :=
  encode_common c ++ memcpy (pkt_srcMac p) N2N_MAC_SIZE
    ++ memcpy (pkt_dstMac p) N2N_MAC_SIZE
    ++ (if has_socket c then encode_sock (pkt_sock p) else []).

(** Modelled from the spec: [decode_REGISTER] is missing.  Section 4.A:
    cookie (32 bits), srcMac, dstMac, the optional inline socket. *)
Definition decode_REGISTER (c : n2n_common_t) (buf : list Z) (rem idx : Z)
  : n2n_REGISTER_t * Z * Z :=
  let b := drop (Z.to_nat idx) buf in
  let need := 16 + (if has_socket c then 7 else 0) in
  if rem <? need then (mk_REGISTER 0 [] [] zero_sock, rem, idx)
  else
    (mk_REGISTER (decode_uint32 b) (memcpy (drop 4 b) N2N_MAC_SIZE)
                 (memcpy (drop 10 b) N2N_MAC_SIZE)
                 (if has_socket c then decode_sock (drop 16 b) else zero_sock),
     rem - need, idx + need).

(** Modelled from the spec: [encode_REGISTER] is missing; the layout is
    that of [decode_REGISTER]. *)
Definition encode_REGISTER (c : n2n_common_t) (r : n2n_REGISTER_t) : list Z :=
  encode_common c ++ encode_uint32 (reg_cookie r)
    ++ memcpy (reg_srcMac r) N2N_MAC_SIZE ++ memcpy (reg_dstMac r) N2N_MAC_SIZE
    ++ (if has_socket c then encode_sock (reg_sock r) else []).

(** Modelled from the spec: [decode_REGISTER_SUPER] is missing.  Section
    4.A: cookie, edgeMac; the authentication block is not looked at. *)
Definition decode_REGISTER_SUPER (c : n2n_common_t) (buf : list Z)
    (rem idx : Z) : n2n_REGISTER_SUPER_t * Z * Z :=
  let b := drop (Z.to_nat idx) buf in
  if rem <? 10 then (mk_REGISTER_SUPER 0 [], rem, idx)
  else (mk_REGISTER_SUPER (decode_uint32 b) (memcpy (drop 4 b) N2N_MAC_SIZE),
        rem - 10, idx + 10).

(** Modelled from the spec: [encode_REGISTER_SUPER_ACK] is missing.
    Section 4.A: cookie, edgeMac, lifetime (16 bits), the observed
    socket, the number of backup supernodes and that many sockets. *)
Definition encode_REGISTER_SUPER_ACK (c : n2n_common_t)
    (a : n2n_REGISTER_SUPER_ACK_t) : list Z :=
  encode_common c ++ encode_uint32 (ack_cookie a)
    ++ memcpy (ack_edgeMac a) N2N_MAC_SIZE ++ encode_uint16 (ack_lifetime a)
    ++ encode_sock (ack_sock a) ++ [ack_num_sn a mod 256]
    ++ concat (encode_sock <$> take (Z.to_nat (ack_num_sn a)) (ack_sn_bak a)).

(** Modelled from the spec: [encode_buf] is missing; it copies [s]
    octets. *)
Definition encode_buf (p : list Z) (s : Z) : list Z := take (Z.to_nat s) p.

(** Modelled from the spec: [sock_equal] is missing.  Section 9 reads
    the test [0 != sock_equal(...)] that guards the write in
    [update_edge] as inverted, a test for the socket being unchanged:
    the function answers non-zero for equal sockets and 0 for sockets
    that differ. *)
Definition sock_equal (a b : n2n_sock_t) : Z := if decide (a = b) then 1 else 0.

(** The opposite convention, that of [memcmp] on the line before it in
    [update_edge]: 0 for equal sockets.  Under it the test of
    [update_edge] is not inverted. *)
Definition sock_cmp (a b : n2n_sock_t) : Z := if decide (a = b) then 0 else 1.

(** Modelled from the spec: the purge of [n2n.c] is missing.  Section
    4.B: it removes the records with [now - last_seen > horizon]; the
    horizon is at least the registration lifetime. *)
Definition PURGE_HORIZON : Z := 120.

Definition purge_expired_registrations (peers : list peer_info) (now : Z)
  : list peer_info :=
  List.filter (fun p => negb (PURGE_HORIZON <? now - last_seen p)) peers.

(** Modelled from the spec: [purge_peer_list] is missing; it drops the
    records last seen before the given time, all of them for
    [0xffffffff] (section 7, orderly shutdown). *)
Definition purge_peer_list (peers : list peer_info) (purge_before : Z)
  : list peer_info :=
  List.filter (fun p => negb (last_seen p <? purge_before)) peers.

Definition msg_types_distinct
  : NoDup [PC_PACKET; PC_REGISTER; PC_REGISTER_ACK; PC_REGISTER_SUPER] :=
  ltac:(apply (bool_decide_unpack _); vm_compute; exact I).

#[export] Instance lib : n2n_lib :=
  Build_n2n_lib FLAGS_FROM_SUPERNODE FLAGS_SOCKET PC_REGISTER PC_PACKET
    PC_REGISTER_ACK PC_REGISTER_SUPER PC_REGISTER_SUPER_ACK 2 2
    msg_types_distinct
    decode_common decode_PACKET decode_REGISTER decode_REGISTER_SUPER
    encode_PACKET encode_REGISTER encode_REGISTER_SUPER_ACK encode_buf
    sock_equal purge_expired_registrations purge_peer_list.

(** The same library with [sock_cmp] for [sock_equal]. *)
Definition lib_cmp : n2n_lib :=
  Build_n2n_lib FLAGS_FROM_SUPERNODE FLAGS_SOCKET PC_REGISTER PC_PACKET
    PC_REGISTER_ACK PC_REGISTER_SUPER PC_REGISTER_SUPER_ACK 2 2
    msg_types_distinct
    decode_common decode_PACKET decode_REGISTER decode_REGISTER_SUPER
    encode_PACKET encode_REGISTER encode_REGISTER_SUPER_ACK encode_buf
    sock_cmp purge_expired_registrations purge_peer_list.

(** ** Federation *)

(** Modelled from the spec: the flag macros of the federation header are
    missing.  Section 4.A lists the bits S, C, N, A, E; they are given
    the positions 0 to 4 in that order. *)
Definition FLAG_S : Z := 1.
Definition FLAG_C : Z := 2.
Definition FLAG_N : Z := 4.
Definition FLAG_A : Z := 8.
Definition FLAG_E : Z := 16.

Definition has_flag (bit flags0 : Z) : bool := negb (Z.land flags0 bit =? 0).

(** An [INFO] response lists supernodes and community names, an [ADV]
    community names. *)
Definition SNM_INFO : Type := list n2n_sock_t * list (list Z).
Definition SNM_ADV : Type := list (list Z).

Definition encode_SNM_hdr (h : snm_hdr_t) : list Z :=
  [snm_type h mod 256; snm_flags h mod 256] ++ encode_uint32 (snm_seq h).

(** Modelled from the spec: [decode_SNM_hdr] is missing.  Section 4.A:
    type (1 octet), flags (1), sequence number (32 bits). *)
Definition decode_SNM_hdr (buf : list Z) (rem idx : Z)
  : option (snm_hdr_t * Z * Z) :=
  if rem <? 6 then None
  else
    let b := drop (Z.to_nat idx) buf in
    Some (mk_snm_hdr (octet b 0) (octet b 1) (decode_uint32 (drop 2 b)),
          rem - 6, idx + 6).

(** [n] community names of 16 octets each, and [n] sockets. *)
Definition decode_names (n : nat) (b : list Z) : list (list Z) :=
  (fun k => memcpy (drop (16 * k) b) N2N_COMMUNITY_SIZE) <$> seq 0 n.

Definition decode_socks (n : nat) (b : list Z) : list n2n_sock_t :=
  (fun k => decode_sock (drop (7 * k) b)) <$> seq 0 n.

Definition encode_names (l : list (list Z)) : list Z :=
  encode_uint16 (Z.of_nat (length l))
    ++ concat ((fun c => memcpy c N2N_COMMUNITY_SIZE) <$> l).

(** Modelled from the spec: the payload codecs of the federation
    protocol are missing; section 4.A only says that they mirror the
    structures.  Counts are 16 bits wide and precede their items. *)
Definition decode_SNM_REQ (h : snm_hdr_t) (buf : list Z) (rem idx : Z)
  : n2n_SNM_REQ_t * Z * Z :=
  let b := drop (Z.to_nat idx) buf in
  if has_flag FLAG_N (snm_flags h) && (2 <=? rem) then
    let n := decode_uint16 b in
    if rem <? 2 + 16 * n then (mk_SNM_REQ 0 [], rem, idx)
    else (mk_SNM_REQ n (decode_names (Z.to_nat n) (drop 2 b)),
          rem - (2 + 16 * n), idx + (2 + 16 * n))
  else (mk_SNM_REQ 0 [], rem, idx).

Definition decode_SNM_ADV (h : snm_hdr_t) (buf : list Z) (rem idx : Z)
  : SNM_ADV * Z * Z :=
  let b := drop (Z.to_nat idx) buf in
  let n := decode_uint16 b in
  if (rem <? 2) || (rem <? 2 + 16 * n) then ([], rem, idx)
  else (decode_names (Z.to_nat n) (drop 2 b),
        rem - (2 + 16 * n), idx + (2 + 16 * n)).

Definition decode_SNM_INFO (h : snm_hdr_t) (buf : list Z) (rem idx : Z)
  : SNM_INFO * Z * Z :=
  let b := drop (Z.to_nat idx) buf in
  let n := decode_uint16 b in
  if (rem <? 2) || (rem <? 2 + 7 * n) then (([], []), rem, idx)
  else
    let '(names, rem', idx') :=
      decode_SNM_ADV h buf (rem - (2 + 7 * n)) (idx + (2 + 7 * n)) in
    ((decode_socks (Z.to_nat n) (drop 2 b), names), rem', idx').

Definition encode_SNM_REQ (h : snm_hdr_t) (r : n2n_SNM_REQ_t) : list Z :=
  encode_SNM_hdr h
    ++ (if has_flag FLAG_N (snm_flags h) then encode_names (comm_ptr r)
        else []).

Definition encode_SNM_ADV (h : snm_hdr_t) (a : SNM_ADV) : list Z :=
  encode_SNM_hdr h ++ encode_names a.

Definition encode_SNM_INFO (h : snm_hdr_t) (i : SNM_INFO) : list Z :=
  encode_SNM_hdr h ++ encode_uint16 (Z.of_nat (length (fst i)))
    ++ concat (encode_sock <$> fst i) ++ encode_names (snd i).

Definition same_name (a b : list Z) : bool :=
  memcmp a b N2N_COMMUNITY_SIZE =? 0.

Definition knows_sn (l : sn_list_t) (s : n2n_sock_t) : bool :=
  existsb (fun i => bool_decide (sn i = s)) (sn_head l).

(** Modelled from the spec: [update_supernodes] is missing.  Section 3:
    supernode records are de-duplicated by address; the answer counts
    the records added. *)
Definition update_supernodes (l : sn_list_t) (s : n2n_sock_t)
  : sn_list_t * Z :=
  if knows_sn l s then (l, 0)
  else (mk_sn_list (mk_sn_info s :: sn_head l) (sn_filename l), 1).

Definition update_and_save_supernodes (l : sn_list_t) (s : n2n_sock_t)
    (save : Z) : sn_list_t :=
  fst (update_supernodes l s).

(** Modelled from the spec: [add_new_community] is missing.  Section
    4.C: a community joins the local set unless it is there already or
    the cap on hosted communities is reached. *)
Definition MAX_COMM_PER_SN : Z := 3.
Definition MIN_SN_PER_COMM : Z := 2.

Definition add_new_community (c : comm_list_t) (name0 : list Z)
  : comm_list_t * Z * option comm_info :=
  match List.find (fun ci => same_name (name ci) name0) (head c) with
  | Some ci => (c, 0, Some ci)
  | None =>
      if Z.of_nat (length (head c)) <? MAX_COMM_PER_SN then
        let ci := mk_comm_info (memcpy name0 N2N_COMMUNITY_SIZE) 0 [] in
        (mk_comm_list (ci :: head c) (persist c) (comm_filename c), 1, Some ci)
      else (c, 0, None)
  end.

Definition comm_find (l : list comm_info) (name0 : list Z) (len : Z)
  : option comm_info :=
  List.find (fun ci => memcmp (name ci) name0 (Z.to_nat len) =? 0) l.

(** A community as another supernode reports it: that supernode hosts
    it. *)
Definition learn_community (from : n2n_sock_t) (c : comm_list_t)
    (name0 : list Z) : comm_list_t :=
  if existsb (fun ci => same_name (name ci) name0) (head c) then c
  else mk_comm_list
         (mk_comm_info (memcpy name0 N2N_COMMUNITY_SIZE) 1 [from] :: head c)
         (persist c) (comm_filename c).

(** Modelled from the spec: [process_snm_rsp] is missing.  Section 4.E:
    it merges the supernodes and communities of the response into the
    directories and answers how many supernodes were new. *)
Definition process_snm_rsp (l : sn_list_t) (c : comm_list_t)
    (from : n2n_sock_t) (h : snm_hdr_t) (i : SNM_INFO)
  : sn_list_t * comm_list_t * Z :=
  let '(l, added) :=
    fold_left (fun '(l, k) s => let '(l, r) := update_supernodes l s in
                                  (l, k + r))
              (fst i) (l, 0) in
  (l, fold_left (learn_community from) (snd i) c, added).

(** Modelled from the spec: [process_snm_adv] is missing.  Section 4.E:
    it merges the sender's communities and tells whether the local set
    changed. *)
Definition process_snm_adv (l : sn_list_t) (c : comm_list_t)
    (from : n2n_sock_t) (a : SNM_ADV) : sn_list_t * comm_list_t * Z :=
  let c' := fold_left (learn_community from) a c in
  (fst (update_supernodes l from), c',
   if Nat.eqb (length (head c')) (length (head c)) then 0 else 1).

Definition build_snm_info (fd : Z) (l : sn_list_t) (c : comm_list_t)
    (h : snm_hdr_t) (r : n2n_SNM_REQ_t) : snm_hdr_t * SNM_INFO :=
  (mk_snm_hdr 2 FLAG_S (snm_seq h),
   (sn <$> sn_head l,
    if has_flag FLAG_C (snm_flags h) then name <$> head c
    else List.filter (fun n => existsb (fun ci => same_name (name ci) n)
                                       (head c)) (comm_ptr r))).

Definition build_snm_adv (fd : Z) (comm_list : option (list comm_info))
  : snm_hdr_t * SNM_ADV :=
  (mk_snm_hdr 3 FLAG_S 0, name <$> default [] comm_list).

(** Modelled from the spec: [sn_is_loopback] is missing.  Section 4.E:
    an address in 127.0.0.0/8 on the configured supernode port. *)
Definition sn_is_loopback (s : n2n_sock_t) (port0 : Z) : bool :=
  (octet (addr_v4 s) 0 =? 127) && (port s =? port0).

Definition sender_sn_of (a : sockaddr_in) : n2n_sock_t :=
  mk_sock 2 (ntohs (sin_port a)) (memcpy (sin_addr a) IPV4_SIZE).

(** The files are not modelled: both are read as empty. *)
Definition read_supernodes_from_file (f : string) : option (list sn_info) :=
  Some [].

Definition read_communities_from_file (f : string)
  : option (list comm_info) := Some [].

(** Modelled from the spec: the federation library of [sn_multiple.h],
    built in.  Message types are those of section 4.A (REQ = 1, RSP = 2,
    ADV = 3); the discovery interval and the two caps are build-time
    settings.  A list head that was never initialised is taken to link
    to nothing. *)
#[export] Instance snm : snm_lib :=
  Build_snm_lib true 60 MAX_COMM_PER_SN MIN_SN_PER_COMM 1 2 3
    SNM_INFO SNM_ADV
    (has_flag FLAG_A) (has_flag FLAG_E)
    (Z.lor FLAG_S) (Z.lor FLAG_C) (Z.lor FLAG_N) (Z.lor FLAG_A)
    decode_SNM_hdr decode_SNM_REQ decode_SNM_INFO decode_SNM_ADV
    encode_SNM_REQ encode_SNM_INFO encode_SNM_ADV
    build_snm_info build_snm_adv process_snm_rsp process_snm_adv
    update_supernodes update_and_save_supernodes add_new_community
    comm_find sn_is_loopback sender_sn_of
    read_supernodes_from_file read_communities_from_file
    (fun _ => []).

End Ref.

(** * Scenarios

    The concrete values of section 8 of the specification: community
    "net1", edges AA:BB:CC:00:00:01 at 192.0.2.10:40000 and
    AA:BB:CC:00:00:02 at 192.0.2.11:40001, and frames in the reference
    layout. *)
Module Scenario.

Definition net1 : list Z := [110; 101; 116; 49; 0; 0; 0; 0; 0; 0; 0; 0; 0; 0; 0; 0].
Definition net2 : list Z := [110; 101; 116; 50; 0; 0; 0; 0; 0; 0; 0; 0; 0; 0; 0; 0].

Definition mac1 : list Z := [170; 187; 204; 0; 0; 1].
Definition mac2 : list Z := [170; 187; 204; 0; 0; 2].
Definition mac3 : list Z := [170; 187; 204; 0; 0; 3].
Definition mac_unknown : list Z := [222; 173; 190; 239; 0; 0].
Definition mac_broadcast : list Z := [255; 255; 255; 255; 255; 255].

(** 40000 is 0x9C40, 40001 is 0x9C41. *)
Definition sender1 : sockaddr_in := mk_sockaddr_in (156, 64) [192; 0; 2; 10].
Definition sender2 : sockaddr_in := mk_sockaddr_in (156, 65) [192; 0; 2; 11].

Definition sock1 : n2n_sock_t := mk_sock 2 40000 [192; 0; 2; 10].
Definition sock2 : n2n_sock_t := mk_sock 2 40001 [192; 0; 2; 11].
Definition sock3 : n2n_sock_t := mk_sock 2 40002 [192; 0; 2; 12].

Definition edge1 : peer_info := mk_peer net1 mac1 sock1 100.
Definition edge2 : peer_info := mk_peer net1 mac2 sock2 101.
Definition edge3 : peer_info := mk_peer net1 mac3 sock3 102.

(** A supernode on descriptors 3, 4 and 5 with the given directory. *)
Definition serving (peers : list peer_info) : world :=
  mk_world (set_edges peers (set_socks 3 4 5 init_sn)) [].

Definition serving_ready (peers : list peer_info) : world :=
  with_sss (set_snm_discovery_state N2N_SNM_STATE_READY) (serving peers).

(** A frame: version 2, then TTL, packet code, flags, community and
    payload. *)
Definition frame (ttl0 pc0 flags0 : Z) (community0 payload : list Z)
  : list Z :=
  [2; ttl0; pc0; 0; flags0] ++ community0 ++ payload.

Definition ethernet : list Z := [8; 0; 69; 0; 0; 20].

(** [PACKET] from edge 2 to edge 1 that says it comes from a supernode
    (flags 0x20), TTL 2. *)
Definition packet_from_supernode : list Z :=
  frame 2 3 32 net1 (mac2 ++ mac1 ++ ethernet).

(** The same [PACKET] straight from the edge (flags 0). *)
Definition packet_from_edge : list Z :=
  frame 2 3 0 net1 (mac2 ++ mac1 ++ ethernet).

(** A [PACKET] for edge 1 that carries the community "net2". *)
Definition packet_other_community : list Z :=
  frame 2 3 0 net2 (mac2 ++ mac1 ++ ethernet).

(** [REGISTER] from edge 2 to edge 1, cookie 0x01020304, straight from
    the edge (flags 0), and the same with [FROM_SUPERNODE] set. *)
Definition register_from_edge : list Z :=
  frame 2 1 0 net1 ([1; 2; 3; 4] ++ mac2 ++ mac1).

Definition register_from_supernode : list Z :=
  frame 2 1 32 net1 ([1; 2; 3; 4] ++ mac2 ++ mac1).

Definition register_other_community : list Z :=
  frame 2 1 0 net2 ([1; 2; 3; 4] ++ mac2 ++ mac1).

(** [REGISTER_SUPER] of edge 1, cookie 0xDEADBEEF. *)
Definition register_super : list Z :=
  frame 2 5 0 net1 ([222; 173; 190; 239] ++ mac1).

(** Frames with TTL 0: a [PACKET], and the [REGISTER_SUPER] of edge 1. *)
Definition expired : list Z := frame 0 3 0 net1 (mac2 ++ mac1 ++ ethernet).

Definition register_super_expired : list Z :=
  frame 0 5 0 net1 ([222; 173; 190; 239] ++ mac1).

(** A federation request for an advertisement (type 1, flags S and A). *)
Definition snm_req : list Z := [1; 9; 0; 0; 0; 7].

(** A network whose answers are listed call by call, and one that
    fails every send. *)
Definition delivers (sizes : list Z) (k : nat) : Z := nth k sizes 0.
Definition fails (k : nat) : Z := -1.

(** One turn of the loop in which the three sockets are readable. *)
Definition busy_turn : turn :=
  {| discovery_clock := 1000; rc := 3; now_clock := 1000;
     on_sn_sock := Some (mk_recv 6 sender2 snm_req);
     on_sock := Some (mk_recv 31 sender1 register_super);
     on_mgmt_sock := Some (mk_recv 1 sender1 [10]);
     purge_clock := 1000 |}.

(** A [PACKET] from edge 2 to the broadcast MAC, a [REGISTER_ACK]
    (packet code 4), of which the supernode makes nothing, and a
    datagram too short for a common header. *)
Definition packet_broadcast : list Z :=
  frame 2 3 0 net1 (mac2 ++ mac_broadcast ++ ethernet).

Definition register_ack : list Z := frame 2 4 0 net1 [].

Definition runt : list Z := [2; 1; 3].

(** A federation response (type 2, flag S, sequence number 7) that
    lists one supernode, 192.0.2.12:40002, and no community. *)
Definition snm_rsp : list Z :=
  [2; 1; 0; 0; 0; 7] ++ [0; 1] ++ [2; 156; 66; 192; 0; 2; 12] ++ [0; 0].

End Scenario.

(** * What the handlers must keep

    Two facts about the supernode structure that no handler may undo:
    a federation in state [READY] stays there, and the count of declined
    registrations stays what it was. *)
Definition keeps (s s' : n2n_sn_t) : Prop :=
  (snm_discovery_state s = N2N_SNM_STATE_READY ->
   snm_discovery_state s' = N2N_SNM_STATE_READY)
  /\ reg_super_nak (stats s') = reg_super_nak (stats s).

(** * Vocabulary for the directory, the log and the planes *)

(** No two records of the directory carry the same MAC. *)
Definition unique_macs (peers : list peer_info) : Prop :=
  forall (i j : nat) (p q : peer_info),
    peers !! i = Some p -> peers !! j = Some q ->
    memcmp (mac_addr p) (mac_addr q) N2N_MAC_SIZE = 0 -> i = j.

(** What [update_edge] makes of a record it knows: the function it
    applies in place, by name. *)
Definition refresh_peer {L : n2n_lib} (community0 : list Z)
    (sender_sock : n2n_sock_t) (now : Z) (scan : peer_info) : peer_info :=
  set_last_seen now
    (if negb (memcmp community0 (community_name scan) N2N_COMMUNITY_SIZE =? 0)
        || negb (sock_equal sender_sock (peer_sock scan) =? 0)
     then {| community_name := memcpy community0 N2N_COMMUNITY_SIZE;
             mac_addr := mac_addr scan;
             peer_sock := sender_sock;
             last_seen := last_seen scan |}
     else scan).

(** The fields of the structure that are set up before the loop runs. *)
Definition config_of (s : n2n_sn_t) : Z * Z * Z * Z * Z * Z * Z :=
  (start_time s, daemon s, lport s, sock s, mgmt_sock s, sn_port s, sn_sock s).

(** The fields the federation owns. *)
Definition federation_of (s : n2n_sn_t)
  : snm_state * Z * sn_list_t * comm_list_t :=
  (snm_discovery_state s, seq_num s, supernodes s, communities s).

(** The advertisement [send_snm_adv] puts on the wire for a supernode in
    state [s]: what [build_snm_adv] makes of the community list, with
    the A flag added while discovery is not over. *)
Definition adv_datagram {F : snm_lib} (s : n2n_sn_t)
    (comm_list : option (list comm_info)) : list Z :=
  let '(hdr, adv) := build_snm_adv (sock s) comm_list in
  encode_SNM_ADV
    (if decide (snm_discovery_state s <> N2N_SNM_STATE_READY)
     then mk_snm_hdr (snm_type hdr) (SET_A (snm_flags hdr)) (snm_seq hdr)
     else hdr)
    adv.

(** The request [send_snm_req] encodes once the sequence number has
    become [seq]: the S flag in any case, the C flag when all
    communities are asked for, or else the N flag with the names
    given. *)
Definition req_datagram {F : snm_lib} (seq req_communities : Z)
    (comms : option (list (list Z))) (communities_num : Z) : list Z :=
  let flags0 := SET_S 0 in
  if negb (req_communities =? 0)
  then encode_SNM_REQ (mk_snm_hdr SNM_TYPE_REQ_LIST_MSG (SET_C flags0) seq)
                      (mk_SNM_REQ 0 [])
  else match comms with
       | Some names =>
           encode_SNM_REQ
             (mk_snm_hdr SNM_TYPE_REQ_LIST_MSG (SET_N flags0) seq)
             (mk_SNM_REQ (Z.land communities_num 65535) names)
       | None =>
           encode_SNM_REQ (mk_snm_hdr SNM_TYPE_REQ_LIST_MSG flags0 seq)
                          (mk_SNM_REQ 0 [])
       end.

(** A round of requests down a list of supernodes, the sequence number
    being [seq] before it: supernode [k] of the list, counted from 0,
    is sent the request with sequence number [seq + k + 1] (an
    [unsigned int]) on descriptor [fd], unless [sn_is_loopback] holds
    it back. *)
Definition req_round {F : snm_lib} (fd port0 seq req_communities : Z)
    (comms : option (list (list Z))) (communities_num : Z)
    (sns : list sn_info) : list io_event :=
  concat
    (imap (fun k sni =>
             if sn_is_loopback (sn sni) port0 then []
             else [Sendto fd (ToSock (sn sni))
                          (req_datagram (to_unsigned_int (seq + Z.of_nat k + 1))
                                        req_communities comms
                                        communities_num)])
          sns).

(** The supernodes of a list that [sn_is_loopback] does not hold back. *)
Definition not_loopback {F : snm_lib} (port0 : Z) (sns : list sn_info)
  : list sn_info :=
  List.filter (fun sni => negb (sn_is_loopback (sn sni) port0)) sns.

(** Whether a turn of the loop ends in [break], read off what [select]
    and [recvfrom] answered: a failed or empty read on the federation
    or management socket, or a failed read on the edge socket, each
    only if the sockets before it in the turn did not break first. *)
Definition turn_breaks {F : snm_lib} (t : turn) : bool :=
  (0 <? rc t)
  && ((match (if N2N_MULTIPLE_SUPERNODES then on_sn_sock t else None) with
       | Some r => bread r <=? 0
       | None => false
       end)
      || (match on_sock t with
          | Some r => bread r <? 0
          | None => false
          end)
      || (match on_mgmt_sock t with
          | Some r => bread r <=? 0
          | None => false
          end)).

(** An event is a datagram handed to [sendto] on descriptor [fd]. *)
Definition sent_on (fd : Z) (e : io_event) : Prop :=
  match e with
  | Sendto fd' _ _ => fd' = fd
  | _ => False
  end.

(** The descriptors the supernode holds; the federation socket exists
    in a federation build only. *)
Definition own_sockets {F : snm_lib} (s : n2n_sn_t) : list Z :=
  sock s :: mgmt_sock s
    :: (if N2N_MULTIPLE_SUPERNODES then [sn_sock s] else []).

(** An event that, if it is a datagram, was handed to [sendto] on one of
    the descriptors [fds]. *)
Definition sends_on (fds : list Z) (e : io_event) : Prop :=
  match e with
  | Sendto fd _ _ => fd ∈ fds
  | _ => True
  end.

(** [w'] comes after [w]: the log has grown, by datagrams on the
    descriptors [P] names only, and what [P] names has not changed. *)
Definition extends (P : n2n_sn_t -> list Z) (w w' : world) : Prop :=
  P (sss w') = P (sss w)
  /\ exists evs, out w' = out w ++ evs /\ Forall (sends_on (P (sss w))) evs.

(** * Properties *)

(** ** Octet arrays *)

Lemma memcmp_refl (a : list Z) (n : nat) : memcmp a a n = 0.
Proof.
  revert a; induction n as [|n IH]; intros a; simpl; [reflexivity|].
  rewrite Z.eqb_refl. apply IH.
Qed.

Lemma memcmp_memcpy (a : list Z) (n : nat) : memcmp a (memcpy a n) n = 0.
Proof.
  revert a; induction n as [|n IH]; intros a; simpl; [reflexivity|].
  rewrite Z.eqb_refl. apply IH.
Qed.

Lemma memcmp_memcpy_l (a : list Z) (n : nat) : memcmp (memcpy a n) a n = 0.
Proof.
  revert a; induction n as [|n IH]; intros a; simpl; [reflexivity|].
  rewrite Z.eqb_refl. apply IH.
Qed.

(** [memcmp] answers 0 exactly when the first [n] octets agree. *)
Lemma memcmp_0_iff (a b : list Z) (n : nat) :
  memcmp a b n = 0 <-> memcpy a n = memcpy b n.
Proof.
  revert a b; induction n as [|n IH]; intros a b; simpl; [tauto|].
  destruct (Z.eqb_spec (hd 0 a) (hd 0 b)) as [E|E].
  - rewrite IH. split; [intros ->; congruence|intros H; congruence].
  - split; [lia|intros H; congruence].
Qed.

Lemma memcmp_sym_0 (a b : list Z) (n : nat) :
  memcmp a b n = 0 -> memcmp b a n = 0.
Proof. rewrite !memcmp_0_iff. congruence. Qed.

Lemma memcpy_exact (a : list Z) (n : nat) : length a = n -> memcpy a n = a.
Proof.
  revert a; induction n as [|n IH]; intros [|x a] Hlen; simpl in *;
    try discriminate; [reflexivity|].
  f_equal. apply IH. lia.
Qed.

#[global] Arguments memcmp : simpl never.
#[global] Arguments memcpy : simpl never.
#[global] Arguments reencode : simpl never.
#[global] Arguments mgmt_lines : simpl never.
#[global] Arguments octets_of_string : simpl never.

(** ** Looking a peer up *)

Lemma find_peer_by_mac_Some (peers : list peer_info) (mac : list Z)
    (i : nat) (scan : peer_info) :
  find_peer_by_mac peers mac = Some (i, scan) ->
  peers !! i = Some scan /\ memcmp mac (mac_addr scan) N2N_MAC_SIZE = 0.
Proof.
  revert i; induction peers as [|p peers IH]; intros i; simpl; [discriminate|].
  destruct (Z.eqb_spec (memcmp mac (mac_addr p) N2N_MAC_SIZE) 0) as [E|E].
  - intros [= <- <-]. auto.
  - destruct (find_peer_by_mac peers mac) as [[j q]|] eqn:Hf;
      simpl; [|discriminate].
    intros [= <- <-]. simpl. apply IH. reflexivity.
Qed.

Lemma find_peer_by_mac_None (peers : list peer_info) (mac : list Z) :
  find_peer_by_mac peers mac = None <->
  Forall (fun p => memcmp mac (mac_addr p) N2N_MAC_SIZE <> 0) peers.
Proof.
  induction peers as [|p peers IH]; simpl.
  - split; [constructor|reflexivity].
  - destruct (Z.eqb_spec (memcmp mac (mac_addr p) N2N_MAC_SIZE) 0) as [E|E].
    + split; [discriminate|]. intros H. inversion H; subst. contradiction.
    + rewrite Forall_cons, <- IH.
      destruct (find_peer_by_mac peers mac) as [[j q]|]; simpl;
        split; try discriminate; try tauto.
      intros [_ H]. discriminate.
Qed.

(** The lookup reads MAC addresses only: a change to the record found
    that keeps its MAC leaves it where it was found. *)
Lemma find_peer_by_mac_alter (peers : list peer_info) (mac : list Z)
    (i : nat) (scan : peer_info) (f : peer_info -> peer_info) :
  (forall p, mac_addr (f p) = mac_addr p) ->
  find_peer_by_mac peers mac = Some (i, scan) ->
  find_peer_by_mac (alter f i peers) mac = Some (i, f scan).
Proof.
  intros Hf. revert i; induction peers as [|p peers IH]; intros i; simpl;
    [discriminate|].
  destruct (Z.eqb_spec (memcmp mac (mac_addr p) N2N_MAC_SIZE) 0) as [E|E].
  - intros [= <- <-]. simpl. rewrite Hf.
    destruct (Z.eqb_spec (memcmp mac (mac_addr p) N2N_MAC_SIZE) 0);
      [reflexivity|contradiction].
  - destruct (find_peer_by_mac peers mac) as [[j q]|] eqn:Hq;
      simpl; [|discriminate].
    intros [= <- <-]. simpl.
    destruct (Z.eqb_spec (memcmp mac (mac_addr p) N2N_MAC_SIZE) 0);
      [contradiction|].
    specialize (IH j eq_refl). unfold alter in IH. rewrite IH. reflexivity.
Qed.

(** ** Forwarding *)

Section Forwarding.

Context {L : n2n_lib} {F : snm_lib}.
Variable net : nat -> Z.

(** What [try_forward] hands to the network when the destination is
    known: one datagram, to the socket of the record found. *)
Lemma try_forward_known (w : world) (cmn : n2n_common_t)
    (dstMac pktbuf : list Z) (pktsize : Z) (i : nat) (scan : peer_info) :
  find_peer_by_mac (edges (sss w)) dstMac = Some (i, scan) ->
  out (fst (try_forward net w cmn dstMac pktbuf pktsize))
  = out w ++ [Sendto (sock (sss w)) (ToSock (peer_sock scan))
                     (take (Z.to_nat pktsize) pktbuf)].
Proof.
  intros Hfind. unfold try_forward. rewrite Hfind. simpl.
  destruct (to_size_t (net (length (out w))) =? pktsize); reflexivity.
Qed.

(** One turn of the broadcast loop leaves the edge list and the socket
    alone. *)
Lemma try_broadcast_scan_frame (cmn : n2n_common_t) (srcMac pktbuf : list Z)
    (pktsize : Z) (w : world) (scan : peer_info) :
  edges (sss (try_broadcast_scan net cmn srcMac pktbuf pktsize w scan))
  = edges (sss w)
  /\ sock (sss (try_broadcast_scan net cmn srcMac pktbuf pktsize w scan))
     = sock (sss w).
Proof.
  unfold try_broadcast_scan.
  destruct (_ && _); [|auto].
  simpl. destruct (negb _); auto.
Qed.

(** What one turn sends. *)
Lemma try_broadcast_scan_out (cmn : n2n_common_t) (srcMac pktbuf : list Z)
    (pktsize : Z) (w : world) (scan : peer_info) :
  out (try_broadcast_scan net cmn srcMac pktbuf pktsize w scan)
  = out w ++
    (if decide (memcmp (community_name scan) (community cmn)
                       N2N_COMMUNITY_SIZE = 0
                /\ memcmp srcMac (mac_addr scan) N2N_MAC_SIZE <> 0)
     then [Sendto (sock (sss w)) (ToSock (peer_sock scan))
                  (take (Z.to_nat pktsize) pktbuf)]
     else []).
Proof.
  unfold try_broadcast_scan.
  destruct (Z.eqb_spec (memcmp (community_name scan) (community cmn)
                               N2N_COMMUNITY_SIZE) 0) as [Ec|Ec];
    destruct (Z.eqb_spec (memcmp srcMac (mac_addr scan) N2N_MAC_SIZE) 0)
      as [Em|Em]; simpl;
    destruct (decide _) as [[? ?]|Hn]; try contradiction;
    try (rewrite app_nil_r; reflexivity).
  - destruct (negb _); reflexivity.
  - exfalso. apply Hn. split; assumption.
Qed.

Lemma try_broadcast_fold (cmn : n2n_common_t) (srcMac pktbuf : list Z)
    (pktsize : Z) (peers : list peer_info) (w : world) :
  let w' :=
    fold_left (try_broadcast_scan net cmn srcMac pktbuf pktsize) peers w in
  edges (sss w') = edges (sss w) /\ sock (sss w') = sock (sss w)
  /\ out w' = out w ++
       ((fun p => Sendto (sock (sss w)) (ToSock (peer_sock p))
                         (take (Z.to_nat pktsize) pktbuf))
          <$> filter (fun p => memcmp (community_name p) (community cmn)
                                      N2N_COMMUNITY_SIZE = 0
                               /\ memcmp srcMac (mac_addr p)
                                         N2N_MAC_SIZE <> 0) peers).
Proof.
  revert w; induction peers as [|p peers IH]; intros w; simpl.
  - rewrite app_nil_r. auto.
  - destruct (IH (try_broadcast_scan net cmn srcMac pktbuf pktsize w p))
      as (He & Hs & Ho).
    destruct (try_broadcast_scan_frame cmn srcMac pktbuf pktsize w p)
      as [He' Hs'].
    split; [congruence|]. split; [congruence|].
    rewrite Ho, try_broadcast_scan_out, Hs', filter_cons.
    destruct (decide _); simpl; [|rewrite app_nil_r; reflexivity].
    rewrite <- app_assoc. reflexivity.
Qed.

(** C6: [try_broadcast] attempts a send to exactly the directory records
    whose community is the frame's and whose MAC is not the source MAC,
    one datagram each, in directory order; so no datagram goes to the
    source MAC and none to a record of another community. *)
Theorem try_broadcast_targets (w : world) (cmn : n2n_common_t)
    (srcMac pktbuf : list Z) (pktsize : Z) :
  out (fst (try_broadcast net w cmn srcMac pktbuf pktsize))
  = out w ++
    ((fun p => Sendto (sock (sss w)) (ToSock (peer_sock p))
                      (take (Z.to_nat pktsize) pktbuf))
       <$> filter (fun p => memcmp (community_name p) (community cmn)
                                   N2N_COMMUNITY_SIZE = 0
                            /\ memcmp srcMac (mac_addr p) N2N_MAC_SIZE <> 0)
                  (edges (sss w))).
Proof.
  unfold try_broadcast. simpl.
  apply (try_broadcast_fold cmn srcMac pktbuf pktsize (edges (sss w)) w).
Qed.

End Forwarding.

(** ** The dispatcher *)

Section Dispatcher.

Context {L : n2n_lib} {F : snm_lib}.
Variable net : nat -> Z.

(** The four packet codes the dispatcher tests are pairwise different. *)
Lemma msg_types_ne :
  MSG_TYPE_PACKET <> MSG_TYPE_REGISTER
  /\ MSG_TYPE_PACKET <> MSG_TYPE_REGISTER_ACK
  /\ MSG_TYPE_PACKET <> MSG_TYPE_REGISTER_SUPER
  /\ MSG_TYPE_REGISTER <> MSG_TYPE_REGISTER_ACK
  /\ MSG_TYPE_REGISTER <> MSG_TYPE_REGISTER_SUPER
  /\ MSG_TYPE_REGISTER_ACK <> MSG_TYPE_REGISTER_SUPER.
Proof.
  pose proof msg_types_distinct as H.
  rewrite !NoDup_cons, !elem_of_cons, elem_of_nil in H.
  intuition congruence.
Qed.

Lemma process_udp_PACKET (w : world) (sender_sock : sockaddr_in)
    (udp_buf : list Z) (now : Z) (cmn : n2n_common_t) (rem idx : Z) :
  decode_common udp_buf (Z.of_nat (length udp_buf)) 0 = Some (cmn, rem, idx) ->
  1 <= ttl cmn ->
  pc cmn = MSG_TYPE_PACKET ->
  process_udp net w sender_sock udp_buf now
  = (process_PACKET net w sender_sock udp_buf (Z.of_nat (length udp_buf)) now
       (hop cmn) (Z.land (flags cmn) N2N_FLAGS_FROM_SUPERNODE mod 256)
       rem idx, 0).
Proof.
  intros Hdec Httl Hpc. unfold process_udp. rewrite Hdec.
  destruct (Z.ltb_spec (ttl cmn) 1); [lia|].
  rewrite Hpc, Z.eqb_refl. reflexivity.
Qed.

Lemma process_udp_REGISTER (w : world) (sender_sock : sockaddr_in)
    (udp_buf : list Z) (now : Z) (cmn : n2n_common_t) (rem idx : Z) :
  decode_common udp_buf (Z.of_nat (length udp_buf)) 0 = Some (cmn, rem, idx) ->
  1 <= ttl cmn ->
  pc cmn = MSG_TYPE_REGISTER ->
  process_udp net w sender_sock udp_buf now
  = (process_REGISTER net w sender_sock udp_buf (Z.of_nat (length udp_buf))
       now (hop cmn) rem idx, 0).
Proof.
  intros Hdec Httl Hpc. unfold process_udp. rewrite Hdec.
  destruct (Z.ltb_spec (ttl cmn) 1); [lia|].
  destruct msg_types_ne as (H1 & _).
  rewrite Hpc.
  destruct (Z.eqb_spec MSG_TYPE_REGISTER MSG_TYPE_PACKET); [congruence|].
  rewrite Z.eqb_refl. reflexivity.
Qed.

Lemma process_udp_REGISTER_SUPER (w : world) (sender_sock : sockaddr_in)
    (udp_buf : list Z) (now : Z) (cmn : n2n_common_t) (rem idx : Z) :
  decode_common udp_buf (Z.of_nat (length udp_buf)) 0 = Some (cmn, rem, idx) ->
  1 <= ttl cmn ->
  pc cmn = MSG_TYPE_REGISTER_SUPER ->
  process_udp net w sender_sock udp_buf now
  = (process_REGISTER_SUPER net w sender_sock udp_buf
       (Z.of_nat (length udp_buf)) now (hop cmn) rem idx, 0).
Proof.
  intros Hdec Httl Hpc. unfold process_udp. rewrite Hdec.
  destruct (Z.ltb_spec (ttl cmn) 1); [lia|].
  destruct msg_types_ne as (_ & _ & H3 & _ & H5 & H6).
  rewrite Hpc.
  destruct (Z.eqb_spec MSG_TYPE_REGISTER_SUPER MSG_TYPE_PACKET);
    [congruence|].
  destruct (Z.eqb_spec MSG_TYPE_REGISTER_SUPER MSG_TYPE_REGISTER);
    [congruence|].
  destruct (Z.eqb_spec MSG_TYPE_REGISTER_SUPER MSG_TYPE_REGISTER_ACK);
    [congruence|].
  rewrite Z.eqb_refl. reflexivity.
Qed.

(** C8: a datagram whose decoded TTL is 0 is dropped: the dispatcher
    answers 0 and leaves the supernode and the log of sent datagrams as
    they were. *)
Theorem process_udp_expired_ttl (w : world) (sender_sock : sockaddr_in)
    (udp_buf : list Z) (now : Z) (cmn : n2n_common_t) (rem idx : Z) :
  decode_common udp_buf (Z.of_nat (length udp_buf)) 0 = Some (cmn, rem, idx) ->
  ttl cmn = 0 ->
  process_udp net w sender_sock udp_buf now = (w, 0).
Proof.
  intros Hdec Httl. unfold process_udp. rewrite Hdec, Httl. reflexivity.
Qed.

(** A unicast [PACKET] goes through [try_forward], with the buffer the
    flag test chose. *)
Lemma process_PACKET_unicast (w : world) (sender_sock : sockaddr_in)
    (udp_buf : list Z) (udp_size now : Z) (cmn : n2n_common_t)
    (from_supernode rem idx : Z) (pkt : n2n_PACKET_t) (rem' idx' : Z) :
  decode_PACKET cmn udp_buf rem idx = (pkt, rem', idx') ->
  is_multi_broadcast_mac (pkt_dstMac pkt) = 0 ->
  exists rec_buf encx,
    process_PACKET net w sender_sock udp_buf udp_size now cmn
                   from_supernode rem idx
    = fst (try_forward net (with_sss (set_stats (set_last_fwd now)) w) cmn
                       (pkt_dstMac pkt) rec_buf encx)
    /\ (from_supernode <> 0 -> rec_buf = udp_buf /\ encx = udp_size)
    /\ (from_supernode = 0 ->
        (rec_buf, encx)
        = reencode
            (encode_PACKET
               (set_flags (Z.lor (flags cmn)
                             (Z.lor N2N_FLAGS_SOCKET N2N_FLAGS_FROM_SUPERNODE))
                          cmn)
               (set_pkt_sock (observed_sock sender_sock) pkt))
            udp_buf udp_size idx').
Proof.
  intros Hdec Huni. unfold process_PACKET. rewrite Hdec, Huni. simpl.
  destruct (Z.eqb_spec from_supernode 0) as [E|E].
  - destruct (reencode _ _ _ _) as [rec_buf encx] eqn:Hre.
    exists rec_buf, encx. simpl.
    split; [reflexivity|]. split; [intros; contradiction|reflexivity].
  - exists udp_buf, udp_size. simpl.
    split; [reflexivity|]. split; [auto|intros; contradiction].
Qed.

(** A unicast [REGISTER] likewise; the flag test is the one of the
    source, which rewrites when [FROM_SUPERNODE] is set. *)
Lemma process_REGISTER_unicast (w : world) (sender_sock : sockaddr_in)
    (udp_buf : list Z) (udp_size now : Z) (cmn : n2n_common_t)
    (rem idx : Z) (reg : n2n_REGISTER_t) (rem' idx' : Z) :
  decode_REGISTER cmn udp_buf rem idx = (reg, rem', idx') ->
  is_multi_broadcast_mac (reg_dstMac reg) = 0 ->
  exists rec_buf encx,
    process_REGISTER net w sender_sock udp_buf udp_size now cmn rem idx
    = fst (try_forward net (with_sss (set_stats (set_last_fwd now)) w) cmn
                       (reg_dstMac reg) rec_buf encx)
    /\ (Z.land (flags cmn) N2N_FLAGS_FROM_SUPERNODE = 0 ->
        rec_buf = udp_buf /\ encx = udp_size)
    /\ (Z.land (flags cmn) N2N_FLAGS_FROM_SUPERNODE <> 0 ->
        (rec_buf, encx)
        = reencode
            (encode_REGISTER
               (set_flags (Z.lor (flags cmn)
                             (Z.lor N2N_FLAGS_SOCKET N2N_FLAGS_FROM_SUPERNODE))
                          cmn)
               (set_reg_sock (observed_sock sender_sock) reg))
            udp_buf udp_size idx').
Proof.
  intros Hdec Huni. unfold process_REGISTER. rewrite Hdec, Huni. simpl.
  destruct (Z.eqb_spec (Z.land (flags cmn) N2N_FLAGS_FROM_SUPERNODE) 0)
    as [E|E]; simpl.
  - exists udp_buf, udp_size.
    split; [reflexivity|]. split; [auto|intros; contradiction].
  - eexists _, _.
    split; [reflexivity|]. split; [intros; contradiction|reflexivity].
Qed.

Lemma take_whole (buf : list Z) :
  take (Z.to_nat (Z.of_nat (length buf))) buf = buf.
Proof. rewrite Nat2Z.id. apply firstn_all. Qed.

(** C1, as the code has it: a unicast [PACKET] that arrives with
    [FROM_SUPERNODE] set, for a MAC the directory knows, is sent on as
    one datagram made of the ingress octets, all of them: the TTL that
    [process_udp] decrements is the one of the decoded header, and the
    buffer that is forwarded is not encoded again, so its TTL octet is
    the ingress one and not one less. *)
Theorem from_supernode_packet_sent_verbatim (w : world)
    (sender_sock : sockaddr_in) (udp_buf : list Z) (now : Z)
    (cmn : n2n_common_t) (rem idx : Z) (pkt : n2n_PACKET_t) (rem' idx' : Z)
    (i : nat) (scan : peer_info) :
  decode_common udp_buf (Z.of_nat (length udp_buf)) 0 = Some (cmn, rem, idx) ->
  1 <= ttl cmn ->
  pc cmn = MSG_TYPE_PACKET ->
  Z.land (flags cmn) N2N_FLAGS_FROM_SUPERNODE mod 256 <> 0 ->
  decode_PACKET (hop cmn) udp_buf rem idx = (pkt, rem', idx') ->
  is_multi_broadcast_mac (pkt_dstMac pkt) = 0 ->
  find_peer_by_mac (edges (sss w)) (pkt_dstMac pkt) = Some (i, scan) ->
  out (fst (process_udp net w sender_sock udp_buf now))
  = out w ++ [Sendto (sock (sss w)) (ToSock (peer_sock scan)) udp_buf].
Proof.
  intros Hdec Httl Hpc Hfrom Hpkt Huni Hfind.
  rewrite (process_udp_PACKET _ _ _ _ _ _ _ Hdec Httl Hpc). simpl.
  destruct (process_PACKET_unicast w sender_sock udp_buf
              (Z.of_nat (length udp_buf)) now (hop cmn)
              (Z.land (flags cmn) N2N_FLAGS_FROM_SUPERNODE mod 256)
              rem idx pkt rem' idx' Hpkt Huni)
    as (rec_buf & encx & -> & Hset & _).
  destruct (Hset Hfrom) as [-> ->].
  rewrite (try_forward_known net _ _ _ _ _ i scan); [|exact Hfind].
  simpl. rewrite take_whole. reflexivity.
Qed.

(** C2, as the code has it: for a [REGISTER] with a unicast destination
    the test on [FROM_SUPERNODE] is the opposite of the one for
    [PACKET].  A frame that arrives without the flag is forwarded as it
    came, without the sender's socket; a frame that arrives with the
    flag is encoded again with [SOCKET] and [FROM_SUPERNODE] set and the
    sender's observed socket inlined.  A [REGISTER] for a multicast or
    broadcast MAC produces no datagram. *)
Theorem register_rewrite_when_from_supernode (w : world)
    (sender_sock : sockaddr_in) (udp_buf : list Z) (now : Z)
    (cmn : n2n_common_t) (rem idx : Z) (reg : n2n_REGISTER_t)
    (rem' idx' : Z) :
  decode_common udp_buf (Z.of_nat (length udp_buf)) 0 = Some (cmn, rem, idx) ->
  1 <= ttl cmn ->
  pc cmn = MSG_TYPE_REGISTER ->
  decode_REGISTER (hop cmn) udp_buf rem idx = (reg, rem', idx') ->
  let w' := fst (process_udp net w sender_sock udp_buf now) in
  (is_multi_broadcast_mac (reg_dstMac reg) <> 0 -> out w' = out w)
  /\ forall (i : nat) (scan : peer_info),
       is_multi_broadcast_mac (reg_dstMac reg) = 0 ->
       find_peer_by_mac (edges (sss w)) (reg_dstMac reg) = Some (i, scan) ->
       (Z.land (flags cmn) N2N_FLAGS_FROM_SUPERNODE = 0 ->
        out w' = out w ++ [Sendto (sock (sss w)) (ToSock (peer_sock scan))
                                  udp_buf])
       /\ (Z.land (flags cmn) N2N_FLAGS_FROM_SUPERNODE <> 0 ->
           out w' = out w ++
             [Sendto (sock (sss w)) (ToSock (peer_sock scan))
                (fst (reencode
                   (encode_REGISTER
                      (set_flags
                         (Z.lor (flags cmn)
                            (Z.lor N2N_FLAGS_SOCKET N2N_FLAGS_FROM_SUPERNODE))
                         (hop cmn))
                      (set_reg_sock (observed_sock sender_sock) reg))
                   udp_buf (Z.of_nat (length udp_buf)) idx'))]).
Proof.
  intros Hdec Httl Hpc Hreg w'. subst w'.
  rewrite (process_udp_REGISTER _ _ _ _ _ _ _ Hdec Httl Hpc). simpl.
  split.
  - intros Hmulti. unfold process_REGISTER. rewrite Hreg.
    destruct (Z.eqb_spec (is_multi_broadcast_mac (reg_dstMac reg)) 0);
      [contradiction|reflexivity].
  - intros i scan Huni Hfind.
    destruct (process_REGISTER_unicast w sender_sock udp_buf
                (Z.of_nat (length udp_buf)) now (hop cmn)
                rem idx reg rem' idx' Hreg Huni)
      as (rec_buf & encx & -> & Hclear & Hset).
    rewrite (try_forward_known net _ _ _ _ _ i scan); [|exact Hfind].
    simpl. split.
    + intros Hz. destruct (Hclear Hz) as [-> ->].
      rewrite take_whole. reflexivity.
    + intros Hnz. specialize (Hset Hnz).
      pose proof (f_equal fst Hset) as Hbuf.
      pose proof (f_equal snd Hset) as Hlen.
      cbn [fst snd] in Hbuf, Hlen. subst rec_buf encx.
      unfold reencode. cbn [fst snd]. rewrite take_whole. reflexivity.
Qed.

(** C7: when the destination MAC of [try_forward] is not in the
    directory, the call changes nothing and answers 0: no datagram is
    sent, to the destination or (as a broadcast) to anyone else, and no
    counter moves.  Nor does the dispatcher make up for it: a unicast
    [PACKET] for an unknown MAC leaves [process_udp] with [last_fwd]
    set and nothing else changed. *)
Theorem try_forward_unknown_mac_drops (w : world) (dstMac : list Z) :
  find_peer_by_mac (edges (sss w)) dstMac = None ->
  (forall (cmn : n2n_common_t) (pktbuf : list Z) (pktsize : Z),
      try_forward net w cmn dstMac pktbuf pktsize = (w, 0))
  /\ (forall sender_sock udp_buf now cmn rem idx pkt rem' idx',
        decode_common udp_buf (Z.of_nat (length udp_buf)) 0
          = Some (cmn, rem, idx) ->
        1 <= ttl cmn ->
        pc cmn = MSG_TYPE_PACKET ->
        decode_PACKET (hop cmn) udp_buf rem idx = (pkt, rem', idx') ->
        pkt_dstMac pkt = dstMac ->
        is_multi_broadcast_mac dstMac = 0 ->
        process_udp net w sender_sock udp_buf now
        = (with_sss (set_stats (set_last_fwd now)) w, 0)).
Proof.
  intros Hfind. split.
  - intros cmn pktbuf pktsize. unfold try_forward. rewrite Hfind.
    reflexivity.
  - intros sender_sock udp_buf now cmn rem idx pkt rem' idx'
           Hdec Httl Hpc Hpkt <- Huni.
    rewrite (process_udp_PACKET _ _ _ _ _ _ _ Hdec Httl Hpc). f_equal.
    destruct (process_PACKET_unicast w sender_sock udp_buf
                (Z.of_nat (length udp_buf)) now (hop cmn)
                (Z.land (flags cmn) N2N_FLAGS_FROM_SUPERNODE mod 256)
                rem idx pkt rem' idx' Hpkt Huni)
      as (rec_buf & encx & -> & _).
    unfold try_forward. cbn [with_sss sss edges set_stats].
    rewrite Hfind. reflexivity.
Qed.

(** C4: the lookup of [try_forward] is by MAC alone.  Once the
    destination MAC is found in the directory, the datagram goes to the
    socket of the record found whatever community the frame carries,
    also when the record is registered under another community; this is
    so for the call itself and for the unicast [PACKET] and [REGISTER]
    frames that [process_udp] hands to it. *)
Theorem try_forward_ignores_community (w : world) (dstMac : list Z)
    (i : nat) (scan : peer_info) :
  find_peer_by_mac (edges (sss w)) dstMac = Some (i, scan) ->
  (forall (cmn : n2n_common_t) (pktbuf : list Z) (pktsize : Z),
     memcmp (community_name scan) (community cmn) N2N_COMMUNITY_SIZE <> 0 ->
     out (fst (try_forward net w cmn dstMac pktbuf pktsize))
     = out w ++ [Sendto (sock (sss w)) (ToSock (peer_sock scan))
                        (take (Z.to_nat pktsize) pktbuf)])
  /\ (forall (cmn cmn' : n2n_common_t) (pktbuf : list Z) (pktsize : Z),
        try_forward net w cmn dstMac pktbuf pktsize
        = try_forward net w cmn' dstMac pktbuf pktsize)
  /\ (forall sender_sock udp_buf now cmn rem idx pkt rem' idx',
        decode_common udp_buf (Z.of_nat (length udp_buf)) 0
          = Some (cmn, rem, idx) ->
        1 <= ttl cmn ->
        pc cmn = MSG_TYPE_PACKET ->
        decode_PACKET (hop cmn) udp_buf rem idx = (pkt, rem', idx') ->
        pkt_dstMac pkt = dstMac ->
        is_multi_broadcast_mac dstMac = 0 ->
        memcmp (community_name scan) (community cmn) N2N_COMMUNITY_SIZE <> 0 ->
        exists data,
          out (fst (process_udp net w sender_sock udp_buf now))
          = out w ++ [Sendto (sock (sss w)) (ToSock (peer_sock scan)) data])
  /\ (forall sender_sock udp_buf now cmn rem idx reg rem' idx',
        decode_common udp_buf (Z.of_nat (length udp_buf)) 0
          = Some (cmn, rem, idx) ->
        1 <= ttl cmn ->
        pc cmn = MSG_TYPE_REGISTER ->
        decode_REGISTER (hop cmn) udp_buf rem idx = (reg, rem', idx') ->
        reg_dstMac reg = dstMac ->
        is_multi_broadcast_mac dstMac = 0 ->
        memcmp (community_name scan) (community cmn) N2N_COMMUNITY_SIZE <> 0 ->
        exists data,
          out (fst (process_udp net w sender_sock udp_buf now))
          = out w ++ [Sendto (sock (sss w)) (ToSock (peer_sock scan)) data]).
Proof.
  intros Hfind. repeat apply conj.
  - intros cmn pktbuf pktsize _.
    apply (try_forward_known net _ _ _ _ _ i scan Hfind).
  - reflexivity.
  - intros sender_sock udp_buf now cmn rem idx pkt rem' idx'
           Hdec Httl Hpc Hpkt <- Huni _.
    rewrite (process_udp_PACKET _ _ _ _ _ _ _ Hdec Httl Hpc). simpl.
    destruct (process_PACKET_unicast w sender_sock udp_buf
                (Z.of_nat (length udp_buf)) now (hop cmn)
                (Z.land (flags cmn) N2N_FLAGS_FROM_SUPERNODE mod 256)
                rem idx pkt rem' idx' Hpkt Huni)
      as (rec_buf & encx & -> & _).
    rewrite (try_forward_known net _ _ _ _ _ i scan); [|exact Hfind].
    eexists. reflexivity.
  - intros sender_sock udp_buf now cmn rem idx reg rem' idx'
           Hdec Httl Hpc Hreg <- Huni _.
    rewrite (process_udp_REGISTER _ _ _ _ _ _ _ Hdec Httl Hpc). simpl.
    destruct (process_REGISTER_unicast w sender_sock udp_buf
                (Z.of_nat (length udp_buf)) now (hop cmn)
                rem idx reg rem' idx' Hreg Huni)
      as (rec_buf & encx & -> & _).
    rewrite (try_forward_known net _ _ _ _ _ i scan); [|exact Hfind].
    eexists. reflexivity.
Qed.

(** ** Registration *)

Lemma alter_as_insert {A : Type} (f : A -> A) (l : list A) (i : nat) (x : A) :
  l !! i = Some x -> alter f i l = <[i := f x]> l.
Proof.
  revert i; induction l as [|y l IH]; intros [|i]; simpl; try discriminate.
  - intros [= ->]. reflexivity.
  - intros H. f_equal. apply IH. exact H.
Qed.

(** [update_edge] touches the edge list and nothing else. *)
Lemma update_edge_frame (s : n2n_sn_t) (edgeMac community0 : list Z)
    (sender_sock : n2n_sock_t) (now : Z) :
  fst (update_edge s edgeMac community0 sender_sock now)
  = set_edges (edges (fst (update_edge s edgeMac community0 sender_sock now))) s.
Proof.
  unfold update_edge.
  destruct (find_peer_by_mac (edges s) edgeMac) as [[i old]|]; reflexivity.
Qed.

(** The edge list after [update_edge], when [sock_equal] answers 0 for
    equal sockets and for no others, the way [memcmp] does: the record
    is then overwritten when community or socket differ. *)
Lemma update_edge_edges (s : n2n_sn_t) (edgeMac community0 : list Z)
    (sender_sock : n2n_sock_t) (now : Z) :
  (forall a b, sock_equal a b = 0 <-> a = b) ->
  edges (fst (update_edge s edgeMac community0 sender_sock now))
  = match find_peer_by_mac (edges s) edgeMac with
    | None =>
        mk_peer (memcpy community0 N2N_COMMUNITY_SIZE)
                (memcpy edgeMac N2N_MAC_SIZE) sender_sock now :: edges s
    | Some (i, old) =>
        <[i := if decide (memcmp community0 (community_name old)
                                 N2N_COMMUNITY_SIZE <> 0
                          \/ sender_sock <> peer_sock old)
               then mk_peer (memcpy community0 N2N_COMMUNITY_SIZE)
                            (mac_addr old) sender_sock now
               else set_last_seen now old]> (edges s)
    end.
Proof.
  intros Hse. unfold update_edge.
  destruct (find_peer_by_mac (edges s) edgeMac) as [[i old]|] eqn:Hfind;
    [|reflexivity].
  destruct (find_peer_by_mac_Some _ _ _ _ Hfind) as [Hi _].
  simpl. rewrite (alter_as_insert _ _ _ _ Hi). f_equal.
  destruct (Z.eqb_spec (memcmp community0 (community_name old)
                               N2N_COMMUNITY_SIZE) 0) as [Ec|Ec];
    destruct (Z.eqb_spec (sock_equal sender_sock (peer_sock old)) 0)
      as [Es|Es]; simpl;
    destruct (decide _) as [Hd|Hd]; try reflexivity.
  - apply Hse in Es. destruct Hd; contradiction.
  - exfalso. apply Hd. right. intros Heq. apply Es, Hse, Heq.
  - exfalso. apply Hd. left. exact Ec.
  - exfalso. apply Hd. left. exact Ec.
Qed.

(** When [sock_equal] answers 0 for sockets that differ and for no
    others, an edge that keeps its community and moves to a new socket
    keeps the old socket in the directory. *)
Lemma update_edge_if_sock_equal_inverted (s : n2n_sn_t)
    (edgeMac community0 : list Z) (sender_sock : n2n_sock_t) (now : Z)
    (i : nat) (old : peer_info) :
  (forall a b, sock_equal a b = 0 <-> a <> b) ->
  find_peer_by_mac (edges s) edgeMac = Some (i, old) ->
  memcmp community0 (community_name old) N2N_COMMUNITY_SIZE = 0 ->
  sender_sock <> peer_sock old ->
  edges (fst (update_edge s edgeMac community0 sender_sock now))
  = <[i := set_last_seen now old]> (edges s).
Proof.
  intros Hse Hfind Hc Hs. unfold update_edge. rewrite Hfind.
  destruct (find_peer_by_mac_Some _ _ _ _ Hfind) as [Hi _].
  simpl. rewrite (alter_as_insert _ _ _ _ Hi), Hc.
  apply Hse in Hs. rewrite Hs. reflexivity.
Qed.

(** After [update_edge] the lookup of the MAC finds a record that
    carries the community, the socket and the time just given. *)
Lemma update_edge_find (s : n2n_sn_t) (edgeMac community0 : list Z)
    (sender_sock : n2n_sock_t) (now : Z) :
  (forall a b, sock_equal a b = 0 <-> a = b) ->
  exists (i : nat) (r : peer_info),
    find_peer_by_mac (edges (fst (update_edge s edgeMac community0
                                              sender_sock now))) edgeMac
      = Some (i, r)
    /\ memcmp community0 (community_name r) N2N_COMMUNITY_SIZE = 0
    /\ memcmp edgeMac (mac_addr r) N2N_MAC_SIZE = 0
    /\ peer_sock r = sender_sock
    /\ last_seen r = now.
Proof.
  intros Hse. unfold update_edge.
  destruct (find_peer_by_mac (edges s) edgeMac) as [[i old]|] eqn:Hfind.
  - destruct (find_peer_by_mac_Some _ _ _ _ Hfind) as [_ Hmac].
    eexists i, _. simpl. split.
    + apply find_peer_by_mac_alter; [|exact Hfind].
      intros p. destruct (_ || _); reflexivity.
    + destruct (Z.eqb_spec (memcmp community0 (community_name old)
                                   N2N_COMMUNITY_SIZE) 0) as [Ec|Ec];
        destruct (Z.eqb_spec (sock_equal sender_sock (peer_sock old)) 0)
          as [Es|Es]; simpl;
        repeat split; auto using memcmp_memcpy.
      symmetry. apply Hse, Es.
  - eexists O, _. simpl. rewrite memcmp_memcpy, Z.eqb_refl.
    repeat split; simpl; apply memcmp_memcpy.
Qed.

(** The acknowledgement keeps what [build_ack] put into it; the
    federation block only writes the backup supernodes. *)
Lemma fill_backup_keeps (s : n2n_sn_t) (cmn : n2n_common_t)
    (ack : n2n_REGISTER_SUPER_ACK_t) :
  let ack' := fill_backup s cmn ack in
  ack_cookie ack' = ack_cookie ack
  /\ ack_edgeMac ack' = ack_edgeMac ack
  /\ ack_lifetime ack' = ack_lifetime ack
  /\ ack_sock ack' = ack_sock ack
  /\ (N2N_MULTIPLE_SUPERNODES = false
      \/ comm_find (head (communities s)) (community cmn)
                   (strlen (community cmn)) = None ->
      ack_num_sn ack' = ack_num_sn ack).
Proof.
  unfold fill_backup.
  destruct N2N_MULTIPLE_SUPERNODES; [|simpl; tauto].
  destruct (comm_find _ _ _) as [ci|]; simpl; [|tauto].
  repeat split. intros [H|H]; discriminate.
Qed.

(** What the [REGISTER_SUPER] branch leaves behind: the edge list of
    [update_edge], and one more datagram. *)
Lemma process_REGISTER_SUPER_effect (w : world) (sender_sock : sockaddr_in)
    (udp_buf : list Z) (udp_size now : Z) (cmn : n2n_common_t) (rem idx : Z)
    (reg : n2n_REGISTER_SUPER_t) (rem' idx' : Z) :
  decode_REGISTER_SUPER cmn udp_buf rem idx = (reg, rem', idx') ->
  let w' := process_REGISTER_SUPER net w sender_sock udp_buf udp_size now
                                   cmn rem idx in
  let upd := fst (update_edge (sss w) (rs_edgeMac reg) (community cmn)
                              (observed_sock sender_sock) now) in
  edges (sss w') = edges upd
  /\ communities (sss w') = communities (sss w)
  /\ out w' = out w ++
       [Sendto (sock (sss w)) (ToAddr sender_sock)
          (encode_REGISTER_SUPER_ACK
             (init_cmn n2n_register_super_ack
                (Z.lor N2N_FLAGS_SOCKET N2N_FLAGS_FROM_SUPERNODE)
                (community cmn))
             (fill_backup (sss w) cmn (build_ack (sss w) reg sender_sock)))].
Proof.
  intros Hreg. destruct w as [s o]. destruct s.
  unfold process_REGISTER_SUPER. rewrite Hreg.
  unfold update_edge. simpl.
  destruct (find_peer_by_mac _ _) as [[i old]|]; simpl;
    rewrite take_whole; repeat split; reflexivity.
Qed.

(** C5, with the TTL test made explicit: a [REGISTER_SUPER] whose TTL is
    at least 1 is answered by exactly one datagram, sent to the address
    it came from: a [REGISTER_SUPER_ACK] whose header carries
    the flags [SOCKET | FROM_SUPERNODE], and which echoes the cookie and
    the edge MAC, gives a lifetime of 120, inlines the observed sender
    socket (family [AF_INET], the sender's address and port), and has
    [num_sn] 0 when the federation is not built in (or does not know the
    community). *)
Theorem register_super_is_acknowledged (w : world) (sender_sock : sockaddr_in)
    (udp_buf : list Z) (now : Z) (cmn : n2n_common_t) (rem idx : Z)
    (reg : n2n_REGISTER_SUPER_t) (rem' idx' : Z) :
  decode_common udp_buf (Z.of_nat (length udp_buf)) 0 = Some (cmn, rem, idx) ->
  1 <= ttl cmn ->
  pc cmn = MSG_TYPE_REGISTER_SUPER ->
  decode_REGISTER_SUPER (hop cmn) udp_buf rem idx = (reg, rem', idx') ->
  exists (cmn2 : n2n_common_t) (ack : n2n_REGISTER_SUPER_ACK_t),
    out (fst (process_udp net w sender_sock udp_buf now))
    = out w ++ [Sendto (sock (sss w)) (ToAddr sender_sock)
                       (encode_REGISTER_SUPER_ACK cmn2 ack)]
    /\ pc cmn2 = n2n_register_super_ack
    /\ flags cmn2 = Z.lor N2N_FLAGS_SOCKET N2N_FLAGS_FROM_SUPERNODE
    /\ memcmp (community cmn2) (community cmn) N2N_COMMUNITY_SIZE = 0
    /\ ack_cookie ack = rs_cookie reg
    /\ memcmp (ack_edgeMac ack) (rs_edgeMac reg) N2N_MAC_SIZE = 0
    /\ ack_lifetime ack = 120
    /\ ack_sock ack
       = {| family := AF_INET;
            port := ntohs (sin_port sender_sock);
            addr_v4 := memcpy (sin_addr sender_sock) IPV4_SIZE |}
    /\ (N2N_MULTIPLE_SUPERNODES = false
        \/ comm_find (head (communities (sss w))) (community cmn)
                     (strlen (community cmn)) = None ->
        ack_num_sn ack = 0).
Proof.
  intros Hdec Httl Hpc Hreg.
  rewrite (process_udp_REGISTER_SUPER _ _ _ _ _ _ _ Hdec Httl Hpc).
  destruct (process_REGISTER_SUPER_effect w sender_sock udp_buf
              (Z.of_nat (length udp_buf)) now (hop cmn) rem idx
              reg rem' idx' Hreg) as (_ & _ & Hout).
  destruct (fill_backup_keeps (sss w) (hop cmn)
              (build_ack (sss w) reg sender_sock))
    as (Hc & Hm & Hl & Hs & Hn).
  eexists _, _. split; [exact Hout|].
  split; [reflexivity|]. split; [reflexivity|].
  split; [apply memcmp_memcpy_l|].
  split; [exact Hc|].
  split; [rewrite Hm; apply memcmp_memcpy_l|].
  split; [exact Hl|]. split; [exact Hs|].
  intros H. rewrite (Hn H). reflexivity.
Qed.


End Dispatcher.

(** ** What every handler keeps *)

Lemma keeps_refl (s : n2n_sn_t) : keeps s s.
Proof. split; auto. Qed.

Lemma keeps_trans (s1 s2 s3 : n2n_sn_t) :
  keeps s1 s2 -> keeps s2 s3 -> keeps s1 s3.
Proof. intros [H1 H2] [H3 H4]. split; [auto|congruence]. Qed.

Lemma fold_left_keeps {A : Type} (f : world -> A -> world) (l : list A) :
  (forall w x, keeps (sss w) (sss (f w x))) ->
  forall w, keeps (sss w) (sss (fold_left f l w)).
Proof.
  intros Hf. induction l as [|x l IH]; intros w; simpl.
  - apply keeps_refl.
  - eapply keeps_trans; [apply Hf|apply IH].
Qed.

Section Keeps.

Context {L : n2n_lib} {F : snm_lib}.
Variable net : nat -> Z.

Lemma update_edge_keeps (s : n2n_sn_t) (edgeMac community0 : list Z)
    (sender_sock : n2n_sock_t) (now : Z) :
  keeps s (fst (update_edge s edgeMac community0 sender_sock now)).
Proof. rewrite update_edge_frame. split; auto. Qed.

Lemma try_forward_keeps (w : world) (cmn : n2n_common_t)
    (dstMac pktbuf : list Z) (pktsize : Z) :
  keeps (sss w) (sss (fst (try_forward net w cmn dstMac pktbuf pktsize))).
Proof.
  unfold try_forward.
  destruct (find_peer_by_mac _ _) as [[i scan]|]; [|apply keeps_refl].
  simpl. destruct (_ =? _); split; auto.
Qed.

Lemma try_broadcast_keeps (w : world) (cmn : n2n_common_t)
    (srcMac pktbuf : list Z) (pktsize : Z) :
  keeps (sss w) (sss (fst (try_broadcast net w cmn srcMac pktbuf pktsize))).
Proof.
  unfold try_broadcast. simpl. apply fold_left_keeps.
  intros w0 scan. unfold try_broadcast_scan.
  destruct (_ && _); [|apply keeps_refl].
  simpl. destruct (negb _); split; auto.
Qed.

Lemma process_mgmt_keeps (w : world) (sender_sock : sockaddr_in)
    (mgmt_buf : list Z) (now : Z) :
  keeps (sss w) (sss (fst (process_mgmt net w sender_sock mgmt_buf now))).
Proof.
  unfold process_mgmt, sendto. cbv beta iota zeta.
  destruct (_ <=? _); split; intros; assumption || reflexivity.
Qed.

Lemma process_PACKET_keeps (w : world) (sender_sock : sockaddr_in)
    (udp_buf : list Z) (udp_size now : Z) (cmn : n2n_common_t)
    (from_supernode rem idx : Z) :
  keeps (sss w)
        (sss (process_PACKET net w sender_sock udp_buf udp_size now cmn
                             from_supernode rem idx)).
Proof.
  unfold process_PACKET.
  destruct (decode_PACKET cmn udp_buf rem idx) as [[pkt rem'] idx'].
  set (w1 := with_sss (set_stats (set_last_fwd now)) w).
  assert (H1 : keeps (sss w) (sss w1)) by (split; auto).
  destruct (from_supernode =? 0);
    [destruct (reencode _ _ _ _) as [rec_buf encx]|];
    destruct (is_multi_broadcast_mac _ =? 0);
    (eapply keeps_trans; [exact H1|]);
    first [apply try_forward_keeps | apply try_broadcast_keeps].
Qed.

Lemma process_REGISTER_keeps (w : world) (sender_sock : sockaddr_in)
    (udp_buf : list Z) (udp_size now : Z) (cmn : n2n_common_t)
    (rem idx : Z) :
  keeps (sss w)
        (sss (process_REGISTER net w sender_sock udp_buf udp_size now cmn
                               rem idx)).
Proof.
  unfold process_REGISTER.
  destruct (decode_REGISTER cmn udp_buf rem idx) as [[reg rem'] idx'].
  set (w1 := with_sss (set_stats (set_last_fwd now)) w).
  assert (H1 : keeps (sss w) (sss w1)) by (split; auto).
  destruct (is_multi_broadcast_mac _ =? 0); [|exact H1].
  destruct (negb _);
    [destruct (reencode _ _ _ _) as [rec_buf encx]|];
    (eapply keeps_trans; [exact H1|]); apply try_forward_keeps.
Qed.

Lemma process_REGISTER_SUPER_keeps (w : world) (sender_sock : sockaddr_in)
    (udp_buf : list Z) (udp_size now : Z) (cmn : n2n_common_t)
    (rem idx : Z) :
  keeps (sss w)
        (sss (process_REGISTER_SUPER net w sender_sock udp_buf udp_size now
                                     cmn rem idx)).
Proof.
  unfold process_REGISTER_SUPER.
  destruct (decode_REGISTER_SUPER cmn udp_buf rem idx) as [[reg rem'] idx'].
  simpl. rewrite update_edge_frame. split; auto.
Qed.

Lemma process_udp_keeps (w : world) (sender_sock : sockaddr_in)
    (udp_buf : list Z) (now : Z) :
  keeps (sss w) (sss (fst (process_udp net w sender_sock udp_buf now))).
Proof.
  unfold process_udp.
  destruct (decode_common _ _ _) as [[[cmn rem] idx]|]; [|apply keeps_refl].
  destruct (ttl cmn <? 1); [apply keeps_refl|].
  destruct (_ =? MSG_TYPE_PACKET); [apply process_PACKET_keeps|].
  destruct (_ =? MSG_TYPE_REGISTER); [apply process_REGISTER_keeps|].
  destruct (_ =? MSG_TYPE_REGISTER_ACK); [apply keeps_refl|].
  destruct (_ =? MSG_TYPE_REGISTER_SUPER);
    [apply process_REGISTER_SUPER_keeps|apply keeps_refl].
Qed.

Lemma send_snm_req_keeps (w : world) (to : n2n_sock_t) (req_communities : Z)
    (comms : option (list (list Z))) (communities_num : Z) :
  keeps (sss w)
        (sss (send_snm_req net w to req_communities comms communities_num)).
Proof.
  unfold send_snm_req. cbv zeta.
  destruct (sn_is_loopback _ _); [split; auto|].
  destruct (negb _); [split; auto|].
  destruct comms; split; auto.
Qed.

Lemma send_snm_rsp_keeps (w : world) (to : n2n_sock_t) (hdr : snm_hdr_t)
    (req : n2n_SNM_REQ_t) :
  keeps (sss w) (sss (send_snm_rsp net w to hdr req)).
Proof.
  unfold send_snm_rsp. destruct (build_snm_info _ _ _ _ _). split; auto.
Qed.

Lemma send_snm_adv_keeps (w : world) (to : n2n_sock_t)
    (comm_list : option (list comm_info)) :
  keeps (sss w) (sss (send_snm_adv net w to comm_list)).
Proof.
  unfold send_snm_adv.
  destruct (sn_is_loopback _ _); [apply keeps_refl|].
  destruct (build_snm_adv _ _). split; auto.
Qed.

Lemma advertise_all_keeps (w : world) :
  keeps (sss w) (sss (advertise_all net w)).
Proof.
  unfold advertise_all.
  destruct (head (communities (sss w))) as [|c cs]; [apply keeps_refl|].
  apply fold_left_keeps. intros w0 sni. apply send_snm_adv_keeps.
Qed.

Lemma advertise_community_to_all_keeps (w : world) (community0 : list Z) :
  keeps (sss w) (sss (advertise_community_to_all net w community0)).
Proof.
  unfold advertise_community_to_all. apply fold_left_keeps.
  intros w0 sni. apply send_snm_adv_keeps.
Qed.

Lemma send_req_to_all_supernodes_keeps (w : world) (req_communities : Z)
    (comms : option (list (list Z))) (communities_num : Z) :
  keeps (sss w)
        (sss (send_req_to_all_supernodes net w req_communities comms
                                         communities_num)).
Proof.
  unfold send_req_to_all_supernodes. apply fold_left_keeps.
  intros w0 sni. apply send_snm_req_keeps.
Qed.

Lemma request_new_supernodes_keeps (l : list sn_info) (w : world) (n : Z) :
  keeps (sss w) (sss (request_new_supernodes net w l n)).
Proof.
  revert w n; induction l as [|x l IH]; intros w n; simpl;
    [apply keeps_refl|].
  destruct (n =? 0); [apply keeps_refl|].
  eapply keeps_trans; [apply send_snm_req_keeps|apply IH].
Qed.

Lemma process_SNM_REQ_keeps (w : world) (sender_sn : n2n_sock_t)
    (hdr : snm_hdr_t) (msg_buf : list Z) (rem idx : Z) :
  keeps (sss w)
        (sss (fst (process_SNM_REQ net w sender_sn hdr msg_buf rem idx))).
Proof.
  unfold process_SNM_REQ.
  destruct (decode_SNM_REQ hdr msg_buf rem idx) as [[req rem'] idx'].
  assert (Hfinish : forall (b : bool) (w1 : world),
             keeps (sss w) (sss w1) ->
             keeps (sss w)
               (sss (fst (if b
                          then (with_sss (fun s =>
                                  set_supernodes
                                    (update_and_save_supernodes
                                       (supernodes s) sender_sn 1) s) w1, 0)
                          else (w1, 0))))).
  { intros b w1 H1. destruct b; simpl; [|exact H1].
    eapply keeps_trans; [exact H1|]. split; auto. }
  destruct (GET_A (snm_flags hdr)).
  - destruct (GET_E (snm_flags hdr)).
    + destruct (negb (comm_num req =? 1)); [apply keeps_refl|].
      destruct (add_new_community _ _) as [[comms need_write] ci].
      destruct (negb (need_write =? 0)); cbn [fmap option_fmap option_map];
        apply Hfinish.
      * eapply keeps_trans; [|apply send_snm_adv_keeps].
        eapply keeps_trans; [|apply advertise_community_to_all_keeps].
        split; auto.
      * eapply keeps_trans; [|apply send_snm_adv_keeps]. split; auto.
    + cbn [fmap option_fmap option_map]. apply Hfinish.
      apply send_snm_adv_keeps.
  - apply Hfinish. apply send_snm_rsp_keeps.
Qed.

Lemma process_sn_msg_keeps (w : world) (sender_sock : sockaddr_in)
    (msg_buf : list Z) (now : Z) :
  keeps (sss w) (sss (fst (process_sn_msg net w sender_sock msg_buf now))).
Proof.
  unfold process_sn_msg.
  destruct (decode_SNM_hdr _ _ _) as [[[hdr rem] idx]|]; [|apply keeps_refl].
  cbv zeta.
  destruct (_ =? SNM_TYPE_REQ_LIST_MSG).
  { destruct (decide _); [apply keeps_refl|apply process_SNM_REQ_keeps]. }
  destruct (_ =? SNM_TYPE_RSP_LIST_MSG).
  { destruct (decide _); [apply keeps_refl|].
    destruct (decode_SNM_INFO _ _ _ _) as [[rsp rem'] idx'].
    destruct (process_snm_rsp _ _ _ _ _) as [[sns comms] added].
    simpl. eapply keeps_trans; [|apply request_new_supernodes_keeps].
    split; auto. }
  destruct (_ =? SNM_TYPE_ADV_MSG); [|apply keeps_refl].
  destruct (decode_SNM_ADV _ _ _ _) as [[adv rem'] idx'].
  destruct (process_snm_adv _ _ _ _) as [[sns comms] updated].
  destruct (_ && _); simpl; [|split; auto].
  eapply keeps_trans; [|apply send_snm_adv_keeps]. split; auto.
Qed.

(** The one place that assigns the discovery state inside the loop
    writes [READY]. *)
Lemma communities_discovery_keeps (w : world) (nowTime : Z) :
  keeps (sss w) (sss (communities_discovery net w nowTime)).
Proof.
  unfold communities_discovery.
  destruct (_ <? _); [apply keeps_refl|].
  destruct (decide _); [|apply keeps_refl].
  cbv zeta.
  match goal with
  | |- keeps _ (sss (with_sss _ (advertise_all _ ?w1))) =>
      pose proof (advertise_all_keeps w1) as [_ Hnak]
  end.
  split; [reflexivity|]. simpl. rewrite Hnak. reflexivity.
Qed.

Lemma deinit_sn_keeps (s : n2n_sn_t) : keeps s (deinit_sn s).
Proof. unfold deinit_sn. destruct N2N_MULTIPLE_SUPERNODES; split; auto. Qed.

Lemma run_loop_turn_keeps (w : world) (t : turn) :
  keeps (sss w) (sss (fst (run_loop_turn net w t))).
Proof.
  unfold run_loop_turn.
  set (w0 := if _ && _ then communities_discovery net w (discovery_clock t)
             else w).
  assert (H0 : keeps (sss w) (sss w0)).
  { subst w0. destruct (_ && _);
      [apply communities_discovery_keeps|apply keeps_refl]. }
  cbv zeta.
  assert (Hpurge : forall w1, keeps (sss w) (sss w1) ->
            keeps (sss w)
              (sss (with_sss (fun s =>
                      set_edges (purge_expired_registrations
                                   (edges s) (purge_clock t)) s) w1))).
  { intros w1 H1. eapply keeps_trans; [exact H1|]. split; auto. }
  destruct (0 <? rc t); [|apply Hpurge, H0].
  set (after_sn := match (if N2N_MULTIPLE_SUPERNODES then on_sn_sock t
                          else None) with
                   | Some r => _ | None => _ end).
  assert (H1 : keeps (sss w) (sss (fst after_sn))).
  { subst after_sn. destruct (if N2N_MULTIPLE_SUPERNODES then _ else _)
      as [r|]; [|exact H0].
    destruct (bread r <=? 0); [exact H0|].
    eapply keeps_trans; [exact H0|apply process_sn_msg_keeps]. }
  destruct after_sn as [w1 keep1]. simpl in H1.
  destruct keep1; [|exact H1].
  set (after_udp := match on_sock t with Some r => _ | None => _ end).
  assert (H2 : keeps (sss w) (sss (fst after_udp))).
  { subst after_udp. destruct (on_sock t) as [r|]; [|exact H1].
    destruct (bread r <? 0); [exact H1|].
    destruct (0 <? bread r); [|exact H1].
    eapply keeps_trans; [exact H1|apply process_udp_keeps]. }
  destruct after_udp as [w2 keep2]. simpl in H2.
  destruct keep2; [|exact H2].
  set (after_mgmt := match on_mgmt_sock t with Some r => _ | None => _ end).
  assert (H3 : keeps (sss w) (sss (fst after_mgmt))).
  { subst after_mgmt. destruct (on_mgmt_sock t) as [r|]; [|exact H2].
    destruct (bread r <=? 0); [exact H2|].
    eapply keeps_trans; [exact H2|apply process_mgmt_keeps]. }
  destruct after_mgmt as [w3 keep3]. simpl in H3.
  destruct keep3; [apply Hpurge, H3|exact H3].
Qed.

Lemma run_turns_keeps (ts : list turn) (w : world) :
  keeps (sss w) (sss (run_turns net w ts)).
Proof.
  revert w; induction ts as [|t ts IH]; intros w; simpl;
    [apply keeps_refl|].
  pose proof (run_loop_turn_keeps w t) as Ht.
  destruct (run_loop_turn net w t) as [w1 keep]. simpl in Ht.
  destruct keep.
  - eapply keeps_trans; [exact Ht|apply IH].
  - eapply keeps_trans; [exact Ht|apply deinit_sn_keeps].
Qed.

Lemma run_loop_keeps (w : world) (start : Z) (ts : list turn) :
  keeps (sss w) (sss (run_loop net w start ts)).
Proof.
  unfold run_loop. eapply keeps_trans; [|apply run_turns_keeps].
  split; auto.
Qed.

Lemma apply_options_keeps (argv : list cli_option) (s s' : n2n_sn_t) :
  apply_options s argv = Some s' -> keeps s s'.
Proof.
  revert s; induction argv as [|o argv IH]; intros s; simpl.
  - intros [= ->]. apply keeps_refl.
  - destruct (apply_option s o) as [s1|] eqn:Ho; [|discriminate].
    intros H. eapply keeps_trans; [|apply IH, H].
    destruct o; simpl in Ho;
      try destruct N2N_MULTIPLE_SUPERNODES;
      try discriminate; injection Ho as <-; split; auto.
Qed.

Lemma load_snm_info_keeps (w : world) :
  keeps (sss w) (sss (fst (load_snm_info w))).
Proof.
  unfold load_snm_info. cbv zeta.
  destruct (read_supernodes_from_file _) as [from_file|]; [|split; auto].
  destruct (fold_left _ _ _) as [sns new_ones].
  destruct (read_communities_from_file _) as [persisted|];
    [|destruct (negb _); split; auto].
  destruct (negb _); simpl; destruct (sn_head sns); split; auto.
Qed.

Lemma main_keeps (argv : list cli_option) (fd mgmt_fd sn_fd start : Z)
    (ts : list turn) (w : world) :
  main net argv fd mgmt_fd sn_fd start ts = Some w ->
  keeps init_sn (sss w).
Proof.
  unfold main.
  destruct (apply_options init_sn argv) as [s|] eqn:Hopts; [|discriminate].
  apply apply_options_keeps in Hopts.
  destruct (fd =? -1); [discriminate|].
  destruct (mgmt_fd =? -1); [discriminate|].
  set (w0 := mk_world (set_socks fd mgmt_fd (sn_sock s) s) []).
  assert (H0 : keeps init_sn (sss w0))
    by (eapply keeps_trans; [exact Hopts|split; auto]).
  destruct N2N_MULTIPLE_SUPERNODES.
  - pose proof (load_snm_info_keeps w0) as Hload.
    destruct (load_snm_info w0) as [w1 r]. simpl in Hload.
    destruct (negb _); [discriminate|].
    destruct (sn_fd =? -1); [discriminate|].
    intros [= <-].
    eapply keeps_trans; [|apply run_loop_keeps].
    eapply keeps_trans; [|apply send_req_to_all_supernodes_keeps].
    eapply keeps_trans; [exact H0|].
    eapply keeps_trans; [exact Hload|]. split; auto.
  - intros [= <-]. eapply keeps_trans; [exact H0|apply run_loop_keeps].
Qed.

(** C9: [READY] is terminal.  From a supernode whose federation state
    is [READY], the handling of any federation datagram (a [REQ], an
    [RSP], an [ADV] or anything else), any run of the discovery
    maintenance, and any sequence of turns of the event loop leave the
    state [READY]. *)
Theorem snm_ready_is_terminal (w : world) :
  snm_discovery_state (sss w) = N2N_SNM_STATE_READY ->
  (forall sender_sock msg_buf now,
      snm_discovery_state
        (sss (fst (process_sn_msg net w sender_sock msg_buf now)))
      = N2N_SNM_STATE_READY)
  /\ (forall nowTime,
         snm_discovery_state (sss (communities_discovery net w nowTime))
         = N2N_SNM_STATE_READY)
  /\ (forall ts,
         snm_discovery_state (sss (run_turns net w ts))
         = N2N_SNM_STATE_READY).
Proof.
  intros Hready. repeat apply conj.
  - intros sender_sock msg_buf now.
    apply (process_sn_msg_keeps w sender_sock msg_buf now), Hready.
  - intros nowTime. apply (communities_discovery_keeps w nowTime), Hready.
  - intros ts. apply (run_turns_keeps ts w), Hready.
Qed.

(** C10: nothing increments [reg_super_nak].  Every handler leaves the
    counter as it finds it, so from [main] on it is 0 whatever
    datagrams are processed; and a management reply built when the
    counter is 0 has "reg_nak   0" as its sixth line. *)
Theorem reg_super_nak_stays_zero :
  (forall w sender_sock udp_buf now,
      reg_super_nak (stats (sss (fst (process_udp net w sender_sock udp_buf
                                                  now))))
      = reg_super_nak (stats (sss w)))
  /\ (forall w sender_sock msg_buf now,
         reg_super_nak (stats (sss (fst (process_sn_msg net w sender_sock
                                                        msg_buf now))))
         = reg_super_nak (stats (sss w)))
  /\ (forall w sender_sock mgmt_buf now,
         reg_super_nak (stats (sss (fst (process_mgmt net w sender_sock
                                                      mgmt_buf now))))
         = reg_super_nak (stats (sss w)))
  /\ (forall w ts,
         reg_super_nak (stats (sss (run_turns net w ts)))
         = reg_super_nak (stats (sss w)))
  /\ (forall argv fd mgmt_fd sn_fd start ts w,
         main net argv fd mgmt_fd sn_fd start ts = Some w ->
         reg_super_nak (stats (sss w)) = 0)
  /\ (forall w sender_sock mgmt_buf now,
         reg_super_nak (stats (sss w)) = 0 ->
         out (fst (process_mgmt net w sender_sock mgmt_buf now))
         = out w ++
           [Sendto (mgmt_sock (sss w)) (ToAddr sender_sock)
                   (octets_of_string
                      (String.concat "" (mgmt_lines (sss w) now)))]
         /\ mgmt_lines (sss w) now !! 5%nat
            = Some ("reg_nak   0" +:+ newline)).
Proof.
  repeat apply conj.
  - intros. apply process_udp_keeps.
  - intros. apply process_sn_msg_keeps.
  - intros. apply process_mgmt_keeps.
  - intros. apply run_turns_keeps.
  - intros argv fd mgmt_fd sn_fd start ts w Hmain.
    apply main_keeps in Hmain. destruct Hmain as [_ ->]. reflexivity.
  - intros w sender_sock mgmt_buf now Hzero. split.
    + unfold process_mgmt, sendto. cbv beta iota zeta.
      rewrite take_whole. destruct (_ <=? _); reflexivity.
    + unfold mgmt_lines. rewrite Hzero. reflexivity.
Qed.

End Keeps.

(** * The properties at work on the scenarios *)

(** [Ref.sock_cmp] answers 0 for equal sockets and for no others. *)
Lemma ref_sock_cmp_0 (a b : n2n_sock_t) : Ref.sock_cmp a b = 0 <-> a = b.
Proof.
  unfold Ref.sock_cmp. destruct (decide (a = b)); split; intros H;
    try reflexivity; try assumption; try discriminate; contradiction.
Qed.

Section Witnesses.

Import Scenario.

#[local] Existing Instance Ref.lib.
#[local] Existing Instance Ref.snm.

(** C1 on a frame: the supernode knows edges 1 and 2; a [PACKET] for
    edge 1 arrives from 192.0.2.11 with [FROM_SUPERNODE] set and TTL 2.
    What is sent to edge 1 is that very frame, whose TTL octet (at
    offset 1) is still 2. *)
Lemma from_supernode_packet_sent_verbatim_witness :
  out (fst (process_udp fails (serving [edge2; edge1]) sender2
                        packet_from_supernode 200))
  = [Sendto 3 (ToSock sock1) packet_from_supernode]
  /\ octet packet_from_supernode 1 = 2.
Proof.
  split; [|reflexivity].
  refine (from_supernode_packet_sent_verbatim fails (serving [edge2; edge1])
            sender2 packet_from_supernode 200 (mk_common 2 3 32 net1) 18 21
            (mk_PACKET mac2 mac1 zero_sock) 6 33 1%nat edge1 _ _ _ _ _ _ _);
    [reflexivity | vm_compute; discriminate | reflexivity
    | vm_compute; discriminate | reflexivity | reflexivity | reflexivity].
Defined.

(** The other path of [PACKET] for comparison: the same frame without
    [FROM_SUPERNODE] is encoded again, and there the TTL octet is 1 and
    the flags are [SOCKET | FROM_SUPERNODE] (0x60), followed by the
    sender's socket. *)
Example packet_from_edge_is_encoded_again :
  out (fst (process_udp fails (serving [edge2; edge1]) sender2
                        packet_from_edge 200))
  = [Sendto 3 (ToSock sock1)
       (frame 1 3 96 net1
          (mac2 ++ mac1 ++ [2; 156; 65; 192; 0; 2; 11] ++ ethernet))].
Proof. reflexivity. Qed.

(** C2 on a frame: a [REGISTER] for edge 1 arrives straight from edge 2,
    [FROM_SUPERNODE] not set.  It is forwarded as it came: flags still
    0, no socket inlined. *)
Lemma register_rewrite_when_from_supernode_witness :
  out (fst (process_udp fails (serving [edge2; edge1]) sender2
                        register_from_edge 200))
  = [Sendto 3 (ToSock sock1) register_from_edge]
  /\ octet register_from_edge 4 = 0.
Proof.
  split; [|reflexivity].
  destruct (register_rewrite_when_from_supernode fails
              (serving [edge2; edge1]) sender2 register_from_edge 200
              (mk_common 2 1 0 net1) 16 21
              (mk_REGISTER 16909060 mac2 mac1 zero_sock) 0 37)
    as [_ Hunicast];
    [reflexivity | vm_compute; discriminate | reflexivity | reflexivity |].
  destruct (Hunicast 1%nat edge1) as [Hverbatim _];
    [reflexivity | reflexivity |].
  apply Hverbatim. reflexivity.
Defined.


(** C4 on a frame: edge 1 is registered under "net1"; a [PACKET] for its
    MAC that carries the community "net2" is sent to edge 1's socket all
    the same. *)
Lemma try_forward_ignores_community_witness :
  exists data,
    out (fst (process_udp fails (serving [edge2; edge1]) sender2
                          packet_other_community 200))
    = [Sendto 3 (ToSock sock1) data].
Proof.
  destruct (try_forward_ignores_community fails (serving [edge2; edge1])
              mac1 1%nat edge1) as (_ & _ & Hpacket & _); [reflexivity|].
  eapply (Hpacket sender2 packet_other_community 200);
    [reflexivity | vm_compute; discriminate | reflexivity | reflexivity
    | reflexivity | reflexivity | vm_compute; discriminate].
Defined.

(** C5 on S1: the [REGISTER_SUPER] of edge 1 is answered by one
    datagram, to 192.0.2.10:40000. *)
Lemma register_super_is_acknowledged_witness :
  exists data,
    out (fst (process_udp fails (serving []) sender1 register_super 200))
    = [Sendto 3 (ToAddr sender1) data].
Proof.
  destruct (register_super_is_acknowledged fails (serving []) sender1
              register_super 200 (mk_common 2 5 0 net1) 10 21
              (mk_REGISTER_SUPER 3735928559 mac1) 0 31)
    as (cmn2 & ack & Hout & _);
    [reflexivity | vm_compute; discriminate | reflexivity | reflexivity |].
  eexists. exact Hout.
Defined.

(** C5 as it is worded, for every [REGISTER_SUPER] received, does not
    hold: the [REGISTER_SUPER] of edge 1 with TTL 0 is decoded as such
    (packet code 5, cookie 0xDEADBEEF, MAC of edge 1) and gets no
    answer; the test on the TTL comes before the packet code is looked
    at. *)
Lemma register_super_with_ttl_0_is_not_acknowledged :
  (exists rem idx,
      decode_common register_super_expired
                    (Z.of_nat (length register_super_expired)) 0
      = Some (mk_common 0 MSG_TYPE_REGISTER_SUPER 0 net1, rem, idx)
      /\ fst (fst (decode_REGISTER_SUPER
                     (mk_common 0 MSG_TYPE_REGISTER_SUPER 0 net1)
                     register_super_expired rem idx))
         = mk_REGISTER_SUPER 3735928559 mac1)
  /\ out (fst (process_udp fails (serving []) sender1
                           register_super_expired 200)) = [].
Proof. split; [exists 10, 21; split; reflexivity|reflexivity]. Qed.

(** C6 on S3: three edges in "net1"; a broadcast from edge 2 is sent
    to edges 3 and 1, in directory order, and not to edge 2. *)
Lemma try_broadcast_targets_witness :
  out (fst (try_broadcast (delivers [39; 39]) (serving [edge3; edge2; edge1])
                          (mk_common 1 3 0 net1) mac2 packet_from_edge 39))
  = [Sendto 3 (ToSock sock3) packet_from_edge;
     Sendto 3 (ToSock sock1) packet_from_edge].
Proof. rewrite try_broadcast_targets. reflexivity. Defined.

(** C7 on S4: DE:AD:BE:EF:00:00 is not registered; [try_forward] leaves
    the world as it is. *)
Lemma try_forward_unknown_mac_drops_witness :
  try_forward fails (serving [edge2; edge1]) (mk_common 1 3 0 net1)
              mac_unknown packet_from_edge 39
  = (serving [edge2; edge1], 0).
Proof.
  destruct (try_forward_unknown_mac_drops fails (serving [edge2; edge1])
              mac_unknown) as [Hdrop _]; [reflexivity|].
  apply Hdrop.
Defined.

(** C8 on S6: a frame with TTL 0 changes nothing. *)
Lemma process_udp_expired_ttl_witness :
  process_udp fails (serving [edge2; edge1]) sender2 expired 200
  = (serving [edge2; edge1], 0).
Proof.
  eapply (process_udp_expired_ttl fails (serving [edge2; edge1]) sender2
            expired 200); reflexivity.
Defined.

(** C9 on a run: a supernode in state [READY] goes through two busy
    turns of the loop, with a federation request in each, and is still
    [READY]. *)
Lemma snm_ready_is_terminal_witness :
  snm_discovery_state
    (sss (run_turns fails (serving_ready [edge2]) [busy_turn; busy_turn]))
  = N2N_SNM_STATE_READY.
Proof.
  destruct (snm_ready_is_terminal fails (serving_ready [edge2]))
    as (_ & _ & Hturns); [reflexivity|].
  apply Hturns.
Defined.

(** C10 on a run: [main] with a seed supernode and one busy turn ends
    with the counter at 0. *)
Lemma reg_super_nak_stays_zero_witness :
  exists w,
    main fails [opt_l 7654; opt_i sock3; opt_f] 3 4 5 900 [busy_turn] = Some w
    /\ reg_super_nak (stats (sss w)) = 0.
Proof.
  destruct (reg_super_nak_stays_zero fails) as (_ & _ & _ & _ & Hmain & _).
  eexists. split; [vm_compute; reflexivity|].
  apply (Hmain [opt_l 7654; opt_i sock3; opt_f] 3 4 5 900 [busy_turn]).
  vm_compute. reflexivity.
Defined.

End Witnesses.

(** * More about the directory *)

Lemma memcpy_memcpy (a : list Z) (n : nat) : memcpy (memcpy a n) n = memcpy a n.
Proof.
  revert a; induction n as [|n IH]; intros a; [reflexivity|].
  change (memcpy (memcpy a (S n)) (S n))
    with (hd 0 a :: memcpy (memcpy (tl a) n) n).
  change (memcpy a (S n)) with (hd 0 a :: memcpy (tl a) n).
  rewrite IH. reflexivity.
Qed.

Lemma memcmp_trans_0 (a b c : list Z) (n : nat) :
  memcmp a b n = 0 -> memcmp b c n = 0 -> memcmp a c n = 0.
Proof. rewrite !memcmp_0_iff. congruence. Qed.

Lemma unique_macs_alter (f : peer_info -> peer_info) (i : nat)
    (peers : list peer_info) :
  (forall p, mac_addr (f p) = mac_addr p) ->
  unique_macs peers -> unique_macs (alter f i peers).
Proof.
  intros Hf Hu j k p q Hp Hq Heq.
  rewrite list_lookup_alter in Hp, Hq.
  assert (Hp' : exists p0, peers !! j = Some p0 /\ mac_addr p = mac_addr p0).
  { destruct (decide (i = j)) as [->|_].
    - destruct (peers !! j) as [p0|]; [|discriminate].
      injection Hp as <-. eauto.
    - eauto. }
  assert (Hq' : exists q0, peers !! k = Some q0 /\ mac_addr q = mac_addr q0).
  { destruct (decide (i = k)) as [->|_].
    - destruct (peers !! k) as [q0|]; [|discriminate].
      injection Hq as <-. eauto.
    - eauto. }
  destruct Hp' as (p0 & Hp0 & Ep), Hq' as (q0 & Hq0 & Eq).
  apply (Hu j k p0 q0 Hp0 Hq0). rewrite <- Ep, <- Eq. exact Heq.
Qed.

Section Directory.

Context {L : n2n_lib}.

(** What [update_edge] does to a known record does not change its MAC. *)
Lemma update_edge_unique_macs (s : n2n_sn_t) (edgeMac community0 : list Z)
    (sender_sock : n2n_sock_t) (now : Z) :
  unique_macs (edges s) ->
  unique_macs (edges (fst (update_edge s edgeMac community0 sender_sock now))).
Proof.
  intros Hu. unfold update_edge.
  destruct (find_peer_by_mac (edges s) edgeMac) as [[i old]|] eqn:Hfind.
  - simpl. apply unique_macs_alter; [|exact Hu].
    intros p. destruct (_ || _); reflexivity.
  - apply find_peer_by_mac_None in Hfind.
    rewrite Forall_forall in Hfind. simpl.
    intros [|j] [|k] p q Hp Hq Heq; simpl in Hp, Hq.
    + reflexivity.
    + exfalso. injection Hp as <-. simpl in Heq.
      apply (Hfind q); [eapply list_elem_of_lookup_2; exact Hq|].
      apply memcmp_0_iff. apply memcmp_0_iff in Heq.
      rewrite memcpy_memcpy in Heq. exact Heq.
    + exfalso. injection Hq as <-. simpl in Heq.
      apply (Hfind p); [eapply list_elem_of_lookup_2; exact Hp|].
      apply memcmp_0_iff. apply memcmp_0_iff in Heq.
      rewrite memcpy_memcpy in Heq. congruence.
    + f_equal. apply (Hu j k p q Hp Hq Heq).
Qed.

(** X2: [update_edge] for one MAC leaves every record of any other MAC
    in the directory as it was, and brings in no record of another MAC:
    a registration cannot alter or evict somebody else's entry. *)
Theorem update_edge_other_records (s : n2n_sn_t) (edgeMac community0 : list Z)
    (sender_sock : n2n_sock_t) (now : Z) (p : peer_info) :
  memcmp edgeMac (mac_addr p) N2N_MAC_SIZE <> 0 ->
  p ∈ edges (fst (update_edge s edgeMac community0 sender_sock now))
  <-> p ∈ edges s.
Proof.
  intros Hother. unfold update_edge.
  destruct (find_peer_by_mac (edges s) edgeMac) as [[i old]|] eqn:Hfind.
  - destruct (find_peer_by_mac_Some _ _ _ _ Hfind) as [Hi Hmac].
    simpl. rewrite !list_elem_of_lookup. split; intros [j Hj].
    + rewrite list_lookup_alter in Hj.
      destruct (decide (i = j)) as [->|Hne]; [|eauto].
      exfalso. rewrite Hi in Hj. injection Hj as <-.
      apply Hother. destruct (_ || _); exact Hmac.
    + exists j. rewrite list_lookup_alter_ne; [exact Hj|].
      intros ->. rewrite Hi in Hj. injection Hj as <-. contradiction.
  - simpl. rewrite elem_of_cons. split; [|auto].
    intros [->|H]; [|exact H].
    exfalso. apply Hother. apply memcmp_memcpy.
Qed.

Lemma update_edge_unfold (s : n2n_sn_t) (edgeMac community0 : list Z)
    (sender_sock : n2n_sock_t) (now : Z) :
  fst (update_edge s edgeMac community0 sender_sock now)
  = set_edges
      (match find_peer_by_mac (edges s) edgeMac with
       | None =>
           mk_peer (memcpy community0 N2N_COMMUNITY_SIZE)
                   (memcpy edgeMac N2N_MAC_SIZE) sender_sock now :: edges s
       | Some (i, _) =>
           alter (refresh_peer community0 sender_sock now) i (edges s)
       end) s.
Proof.
  unfold update_edge.
  destruct (find_peer_by_mac (edges s) edgeMac) as [[i old]|]; reflexivity.
Qed.

Lemma refresh_peer_mac (community0 : list Z) (sender_sock : n2n_sock_t)
    (now : Z) (p : peer_info) :
  mac_addr (refresh_peer community0 sender_sock now p) = mac_addr p.
Proof. unfold refresh_peer. destruct (_ || _); reflexivity. Qed.

Lemma refresh_peer_again (community0 : list Z) (sender_sock : n2n_sock_t)
    (t1 t2 : Z) (p : peer_info) :
  refresh_peer community0 sender_sock t2
               (refresh_peer community0 sender_sock t1 p)
  = refresh_peer community0 sender_sock t2 p.
Proof.
  unfold refresh_peer.
  destruct (negb (memcmp community0 (community_name p)
                         N2N_COMMUNITY_SIZE =? 0)
            || negb (sock_equal sender_sock (peer_sock p) =? 0)) eqn:Hc;
    unfold set_last_seen;
    cbn [community_name peer_sock mac_addr last_seen].
  - match goal with
    | |- context [if ?b then _ else _] => destruct b
    end; reflexivity.
  - rewrite Hc. reflexivity.
Qed.

(** X3: registering again only refreshes the time.  Two calls of
    [update_edge] for the same MAC, community and socket, at times [t1]
    and [t2], leave the structure that the single call at [t2] leaves,
    whatever [sock_equal] answers. *)
Theorem update_edge_again (s : n2n_sn_t) (edgeMac community0 : list Z)
    (sender_sock : n2n_sock_t) (t1 t2 : Z) :
  fst (update_edge (fst (update_edge s edgeMac community0 sender_sock t1))
                   edgeMac community0 sender_sock t2)
  = fst (update_edge s edgeMac community0 sender_sock t2).
Proof.
  rewrite !update_edge_unfold.
  destruct (find_peer_by_mac (edges s) edgeMac) as [[i old]|] eqn:Hfind.
  - cbn [edges set_edges].
    rewrite (find_peer_by_mac_alter _ _ _ _ _
               (refresh_peer_mac community0 sender_sock t1) Hfind).
    rewrite list_alter_alter_eq.
    rewrite (list_alter_ext
               (refresh_peer community0 sender_sock t2
                  ∘ refresh_peer community0 sender_sock t1)
               (refresh_peer community0 sender_sock t2)
               (edges s) (edges s) i);
      [destruct s; reflexivity | | reflexivity].
    intros p _. apply refresh_peer_again.
  - assert (Hs1 : forall e, edges (set_edges e s) = e)
      by (intros e; destruct s; reflexivity).
    rewrite Hs1. cbn [find_peer_by_mac mac_addr].
    rewrite memcmp_memcpy, Z.eqb_refl.
    cbn [alter list_alter].
    assert (Hr : refresh_peer community0 sender_sock t2
                   (mk_peer (memcpy community0 N2N_COMMUNITY_SIZE)
                            (memcpy edgeMac N2N_MAC_SIZE) sender_sock t1)
                 = mk_peer (memcpy community0 N2N_COMMUNITY_SIZE)
                           (memcpy edgeMac N2N_MAC_SIZE) sender_sock t2).
    { unfold refresh_peer, set_last_seen.
      cbn [community_name peer_sock mac_addr last_seen].
      match goal with
      | |- context [if ?b then _ else _] => destruct b
      end; reflexivity. }
    rewrite Hr. destruct s; reflexivity.
Qed.

End Directory.

(** * More about the dispatcher *)

(** ** What a handler may change, for any relation the changes respect *)

Section Accounting.

Context {L : n2n_lib} {F : snm_lib}.
Variable net : nat -> Z.

Variable R : n2n_sn_t -> n2n_sn_t -> Prop.
Hypothesis R_refl : forall s, R s s.
Hypothesis R_trans : forall a b c, R a b -> R b c -> R a c.
Hypothesis R_fwd : forall s, R s (set_stats incr_fwd s).
Hypothesis R_errors : forall s, R s (set_stats incr_errors s).
Hypothesis R_broadcast : forall s, R s (set_stats incr_broadcast s).

Lemma try_forward_respects (w : world) (cmn : n2n_common_t)
    (dstMac pktbuf : list Z) (pktsize : Z) :
  R (sss w) (sss (fst (try_forward net w cmn dstMac pktbuf pktsize))).
Proof.
  unfold try_forward.
  destruct (find_peer_by_mac _ _) as [[i scan]|]; [|apply R_refl].
  unfold sendto_sock. cbv beta iota zeta.
  destruct (_ =? _); [apply R_fwd|apply R_errors].
Qed.

Lemma try_broadcast_respects (w : world) (cmn : n2n_common_t)
    (srcMac pktbuf : list Z) (pktsize : Z) :
  R (sss w) (sss (fst (try_broadcast net w cmn srcMac pktbuf pktsize))).
Proof.
  unfold try_broadcast. cbn [fst].
  generalize (edges (sss w)). intros peers. revert w.
  induction peers as [|scan peers IH]; intros w; cbn [fold_left];
    [apply R_refl|].
  eapply R_trans; [|apply IH].
  unfold try_broadcast_scan.
  destruct (_ && _); [|apply R_refl].
  unfold sendto_sock. cbv beta iota zeta.
  destruct (negb _); [apply R_errors|apply R_broadcast].
Qed.

Hypothesis R_last_fwd : forall now s, R s (set_stats (set_last_fwd now) s).

Lemma process_PACKET_respects (w : world) (sender_sock : sockaddr_in)
    (udp_buf : list Z) (udp_size now : Z) (cmn : n2n_common_t)
    (from_supernode rem idx : Z) :
  R (sss w)
    (sss (process_PACKET net w sender_sock udp_buf udp_size now cmn
                         from_supernode rem idx)).
Proof.
  unfold process_PACKET.
  destruct (decode_PACKET cmn udp_buf rem idx) as [[pkt rem'] idx'].
  set (w1 := with_sss (set_stats (set_last_fwd now)) w).
  assert (H1 : R (sss w) (sss w1)) by apply R_last_fwd.
  destruct (from_supernode =? 0);
    [destruct (reencode _ _ _ _) as [rec_buf encx]|];
    destruct (is_multi_broadcast_mac _ =? 0);
    (eapply R_trans; [exact H1|]);
    first [apply try_forward_respects | apply try_broadcast_respects].
Qed.

Lemma process_REGISTER_respects (w : world) (sender_sock : sockaddr_in)
    (udp_buf : list Z) (udp_size now : Z) (cmn : n2n_common_t)
    (rem idx : Z) :
  R (sss w)
    (sss (process_REGISTER net w sender_sock udp_buf udp_size now cmn
                           rem idx)).
Proof.
  unfold process_REGISTER.
  destruct (decode_REGISTER cmn udp_buf rem idx) as [[reg rem'] idx'].
  set (w1 := with_sss (set_stats (set_last_fwd now)) w).
  assert (H1 : R (sss w) (sss w1)) by apply R_last_fwd.
  destruct (is_multi_broadcast_mac _ =? 0); [|exact H1].
  destruct (negb _);
    [destruct (reencode _ _ _ _) as [rec_buf encx]|];
    (eapply R_trans; [exact H1|]); apply try_forward_respects.
Qed.

Hypothesis R_last_reg_super :
  forall now s, R s (set_stats (set_last_reg_super now) s).
Hypothesis R_reg_super : forall s, R s (set_stats incr_reg_super s).
Hypothesis R_edges : forall e s, R s (set_edges e s).

Lemma process_REGISTER_SUPER_respects (w : world) (sender_sock : sockaddr_in)
    (udp_buf : list Z) (udp_size now : Z) (cmn : n2n_common_t)
    (rem idx : Z) :
  R (sss w)
    (sss (process_REGISTER_SUPER net w sender_sock udp_buf udp_size now
                                 cmn rem idx)).
Proof.
  unfold process_REGISTER_SUPER.
  destruct (decode_REGISTER_SUPER cmn udp_buf rem idx) as [[reg rem'] idx'].
  unfold sendto. cbn [fst sss with_sss emit].
  rewrite update_edge_frame.
  eapply R_trans; [apply R_last_reg_super|].
  eapply R_trans; [apply R_reg_super|]. apply R_edges.
Qed.

Lemma process_udp_respects (w : world) (sender_sock : sockaddr_in)
    (udp_buf : list Z) (now : Z) :
  R (sss w) (sss (fst (process_udp net w sender_sock udp_buf now))).
Proof.
  unfold process_udp.
  destruct (decode_common _ _ _) as [[[cmn rem] idx]|]; [|apply R_refl].
  destruct (ttl cmn <? 1); [apply R_refl|].
  destruct (_ =? MSG_TYPE_PACKET); [apply process_PACKET_respects|].
  destruct (_ =? MSG_TYPE_REGISTER); [apply process_REGISTER_respects|].
  destruct (_ =? MSG_TYPE_REGISTER_ACK); [apply R_refl|].
  destruct (_ =? MSG_TYPE_REGISTER_SUPER);
    [apply process_REGISTER_SUPER_respects|apply R_refl].
Qed.

End Accounting.

(** ** The shape of the forwarding branches *)

Section Shapes.

Context {L : n2n_lib} {F : snm_lib}.
Variable net : nat -> Z.

(** The [PACKET] branch ends in one call, of [try_forward] or of
    [try_broadcast], on the world in which [last_fwd] has been set; the
    buffer it passes is sent whole, and it is the ingress buffer when
    the frame came from a supernode. *)
Lemma process_PACKET_forwards (w : world) (sender_sock : sockaddr_in)
    (udp_buf : list Z) (now : Z) (cmn : n2n_common_t)
    (from_supernode rem idx : Z) (pkt : n2n_PACKET_t) (rem' idx' : Z) :
  decode_PACKET cmn udp_buf rem idx = (pkt, rem', idx') ->
  exists rec_buf encx,
    take (Z.to_nat encx) rec_buf = rec_buf
    /\ (from_supernode <> 0 -> rec_buf = udp_buf)
    /\ (from_supernode = 0 ->
        rec_buf
        = encode_PACKET
            (set_flags (Z.lor (flags cmn)
                          (Z.lor N2N_FLAGS_SOCKET N2N_FLAGS_FROM_SUPERNODE))
                       cmn)
            (set_pkt_sock (observed_sock sender_sock) pkt)
          ++ encode_buf (drop (Z.to_nat idx') udp_buf)
                        (to_size_t (Z.of_nat (length udp_buf) - idx')))
    /\ process_PACKET net w sender_sock udp_buf (Z.of_nat (length udp_buf))
                      now cmn from_supernode rem idx
       = if is_multi_broadcast_mac (pkt_dstMac pkt) =? 0
         then fst (try_forward net (with_sss (set_stats (set_last_fwd now)) w)
                               cmn (pkt_dstMac pkt) rec_buf encx)
         else fst (try_broadcast net
                                 (with_sss (set_stats (set_last_fwd now)) w)
                                 cmn (pkt_srcMac pkt) rec_buf encx).
Proof.
  intros Hdec. unfold process_PACKET. rewrite Hdec.
  destruct (Z.eqb_spec from_supernode 0) as [E|E].
  - unfold reencode. cbv beta iota zeta.
    eexists _, _. split; [apply take_whole|].
    split; [intros; contradiction|]. split; [reflexivity|].
    reflexivity.
  - cbv beta iota zeta. exists udp_buf, (Z.of_nat (length udp_buf)).
    split; [apply take_whole|]. split; [reflexivity|].
    split; [intros; contradiction|reflexivity].
Qed.

(** The [REGISTER] branch ends in [try_forward], or in nothing when the
    destination is not unicast. *)
Lemma process_REGISTER_forwards (w : world) (sender_sock : sockaddr_in)
    (udp_buf : list Z) (now : Z) (cmn : n2n_common_t)
    (rem idx : Z) (reg : n2n_REGISTER_t) (rem' idx' : Z) :
  decode_REGISTER cmn udp_buf rem idx = (reg, rem', idx') ->
  exists rec_buf encx,
    take (Z.to_nat encx) rec_buf = rec_buf
    /\ process_REGISTER net w sender_sock udp_buf (Z.of_nat (length udp_buf))
                        now cmn rem idx
       = if is_multi_broadcast_mac (reg_dstMac reg) =? 0
         then fst (try_forward net (with_sss (set_stats (set_last_fwd now)) w)
                               cmn (reg_dstMac reg) rec_buf encx)
         else with_sss (set_stats (set_last_fwd now)) w.
Proof.
  intros Hdec. unfold process_REGISTER. rewrite Hdec.
  destruct (negb (Z.land (flags cmn) N2N_FLAGS_FROM_SUPERNODE =? 0)).
  - unfold reencode. cbv beta iota zeta.
    eexists _, _. split; [apply take_whole|].
    destruct (_ =? 0); reflexivity.
  - cbv beta iota zeta. exists udp_buf, (Z.of_nat (length udp_buf)).
    split; [apply take_whole|]. destruct (_ =? 0); reflexivity.
Qed.

(** What [try_forward] adds to the log: at most one datagram, on the
    edge socket. *)
Lemma try_forward_log (w : world) (cmn : n2n_common_t)
    (dstMac pktbuf : list Z) (pktsize : Z) :
  exists evs,
    out (fst (try_forward net w cmn dstMac pktbuf pktsize)) = out w ++ evs
    /\ Forall (sent_on (sock (sss w))) evs
    /\ (length evs <= 1)%nat.
Proof.
  destruct (find_peer_by_mac (edges (sss w)) dstMac) as [[i scan]|] eqn:Hfind.
  - eexists. split; [apply (try_forward_known net _ _ _ _ _ i scan Hfind)|].
    split; [repeat constructor|simpl; lia].
  - exists []. unfold try_forward. rewrite Hfind. cbn [fst].
    rewrite app_nil_r. repeat split; [constructor|simpl; lia].
Qed.

(** What [try_broadcast] adds: at most one datagram per record of the
    directory, all on the edge socket. *)
Lemma try_broadcast_log (w : world) (cmn : n2n_common_t)
    (srcMac pktbuf : list Z) (pktsize : Z) :
  exists evs,
    out (fst (try_broadcast net w cmn srcMac pktbuf pktsize)) = out w ++ evs
    /\ Forall (sent_on (sock (sss w))) evs
    /\ (length evs <= length (edges (sss w)))%nat.
Proof.
  destruct (try_broadcast_fold net cmn srcMac pktbuf pktsize
                               (edges (sss w)) w) as (_ & _ & Hout).
  eexists. split; [exact Hout|]. split.
  - apply Forall_fmap, Forall_forall. intros p _. reflexivity.
  - rewrite length_fmap. apply length_filter.
Qed.

End Shapes.

(** ** What the dispatcher does beyond the single frame *)

Lemma Z_land_lor_absorb (a m : Z) : Z.land (Z.lor a m) m = m.
Proof.
  apply Z.bits_inj'. intros n Hn.
  rewrite Z.land_spec, Z.lor_spec.
  destruct (Z.testbit a n), (Z.testbit m n); reflexivity.
Qed.

Section DispatcherAtLarge.

Context {L : n2n_lib} {F : snm_lib}.
Variable net : nat -> Z.

(** What [process_udp] adds to the log. *)
Lemma process_udp_log (w : world)
    (sender_sock : sockaddr_in) (udp_buf : list Z) (now : Z) :
  exists evs,
    out (fst (process_udp net w sender_sock udp_buf now)) = out w ++ evs
    /\ Forall (sent_on (sock (sss w))) evs
    /\ (length evs <= Nat.max 1 (length (edges (sss w))))%nat.
Proof.
  assert (Hnone : exists evs : list io_event,
             out w = out w ++ evs
             /\ Forall (sent_on (sock (sss w))) evs
             /\ (length evs <= Nat.max 1 (length (edges (sss w))))%nat).
  { exists []. rewrite app_nil_r. repeat split; [constructor|simpl; lia]. }
  unfold process_udp.
  destruct (decode_common _ _ _) as [[[cmn rem] idx]|]; [|exact Hnone].
  destruct (ttl cmn <? 1); [exact Hnone|]. cbv zeta.
  destruct (_ =? MSG_TYPE_PACKET).
  { cbn [fst].
    destruct (decode_PACKET (hop cmn) udp_buf rem idx) as [[pkt rem'] idx']
      eqn:Hpkt.
    destruct (process_PACKET_forwards net w sender_sock udp_buf now (hop cmn)
                (Z.land (flags cmn) N2N_FLAGS_FROM_SUPERNODE mod 256)
                rem idx pkt rem' idx' Hpkt)
      as (rec_buf & encx & _ & _ & _ & ->).
    destruct (_ =? 0).
    - destruct (try_forward_log net
                  (with_sss (set_stats (set_last_fwd now)) w) (hop cmn)
                  (pkt_dstMac pkt) rec_buf encx) as (evs & Ho & Hf & Hl).
      exists evs. repeat split; [exact Ho|exact Hf|lia].
    - destruct (try_broadcast_log net
                  (with_sss (set_stats (set_last_fwd now)) w) (hop cmn)
                  (pkt_srcMac pkt) rec_buf encx) as (evs & Ho & Hf & Hl).
      exists evs. repeat split; [exact Ho|exact Hf|].
      change (edges (sss (with_sss (set_stats (set_last_fwd now)) w)))
        with (edges (sss w)) in Hl. lia. }
  destruct (_ =? MSG_TYPE_REGISTER).
  { cbn [fst].
    destruct (decode_REGISTER (hop cmn) udp_buf rem idx) as [[reg rem'] idx']
      eqn:Hreg.
    destruct (process_REGISTER_forwards net w sender_sock udp_buf now
                (hop cmn) rem idx reg rem' idx' Hreg)
      as (rec_buf & encx & _ & ->).
    destruct (_ =? 0); [|exact Hnone].
    destruct (try_forward_log net
                (with_sss (set_stats (set_last_fwd now)) w) (hop cmn)
                (reg_dstMac reg) rec_buf encx) as (evs & Ho & Hf & Hl).
    exists evs. repeat split; [exact Ho|exact Hf|lia]. }
  destruct (_ =? MSG_TYPE_REGISTER_ACK); [exact Hnone|].
  destruct (_ =? MSG_TYPE_REGISTER_SUPER); [|exact Hnone].
  cbn [fst].
  destruct (decode_REGISTER_SUPER (hop cmn) udp_buf rem idx)
    as [[reg rem'] idx'] eqn:Hreg.
  destruct (process_REGISTER_SUPER_effect net w sender_sock udp_buf
              (Z.of_nat (length udp_buf)) now (hop cmn) rem idx
              reg rem' idx' Hreg) as (_ & _ & Hout).
  eexists. split; [exact Hout|].
  split; [repeat constructor|simpl; lia].
Qed.

(** X4: whatever datagram arrives, [process_udp] only adds to the log,
    what it adds are datagrams handed to [sendto] on the edge socket,
    and there are at most as many of them as the directory has records
    (at most one when the directory is empty). *)
Theorem process_udp_sends_on_edge_socket (w : world)
    (sender_sock : sockaddr_in) (udp_buf : list Z) (now : Z) :
  exists evs,
    out (fst (process_udp net w sender_sock udp_buf now)) = out w ++ evs
    /\ Forall (sent_on (sock (sss w))) evs
    /\ (length evs <= Nat.max 1 (length (edges (sss w))))%nat.
Proof. apply process_udp_log. Qed.

(** X5: [process_udp] never touches what was set up before the loop
    (start time, daemon flag, ports, the three descriptors) nor
    anything the federation owns (discovery state, sequence number,
    supernode and community lists). *)
Theorem process_udp_leaves_configuration (w : world)
    (sender_sock : sockaddr_in) (udp_buf : list Z) (now : Z) :
  config_of (sss (fst (process_udp net w sender_sock udp_buf now)))
  = config_of (sss w)
  /\ federation_of (sss (fst (process_udp net w sender_sock udp_buf now)))
     = federation_of (sss w).
Proof.
  apply (process_udp_respects net
           (fun s s' => config_of s' = config_of s
                        /\ federation_of s' = federation_of s));
    try (intros; split; reflexivity).
  intros a b c [H1 H2] [H3 H4]. split; congruence.
Qed.

(** Only the [REGISTER_SUPER] branch writes to the edge list. *)
Lemma process_udp_edges_unchanged (w : world) (sender_sock : sockaddr_in)
    (udp_buf : list Z) (now : Z) :
  (forall cmn rem idx,
      decode_common udp_buf (Z.of_nat (length udp_buf)) 0
        = Some (cmn, rem, idx) ->
      pc cmn <> MSG_TYPE_REGISTER_SUPER) ->
  edges (sss (fst (process_udp net w sender_sock udp_buf now)))
  = edges (sss w).
Proof.
  intros Hpc. unfold process_udp.
  destruct (decode_common _ _ _) as [[[cmn rem] idx]|]; [|reflexivity].
  specialize (Hpc cmn rem idx eq_refl).
  destruct (ttl cmn <? 1); [reflexivity|]. cbv zeta.
  destruct (_ =? MSG_TYPE_PACKET).
  { apply (process_PACKET_respects net
             (fun s s' => edges s' = edges s)); intros; congruence
                                                  || reflexivity. }
  destruct (_ =? MSG_TYPE_REGISTER).
  { apply (process_REGISTER_respects net
             (fun s s' => edges s' = edges s)); intros; congruence
                                                  || reflexivity. }
  destruct (_ =? MSG_TYPE_REGISTER_ACK); [reflexivity|].
  destruct (Z.eqb_spec (pc cmn) MSG_TYPE_REGISTER_SUPER);
    [contradiction|reflexivity].
Qed.

(** X6: forwarding never registers.  Unless the datagram is a
    [REGISTER_SUPER], the directory after [process_udp] is the directory
    before, record for record: a [PACKET] or [REGISTER] from an edge
    does not create its record and does not refresh its [last_seen]. *)
Theorem forwarding_never_registers (w : world) (sender_sock : sockaddr_in)
    (udp_buf : list Z) (now : Z) :
  (forall cmn rem idx,
      decode_common udp_buf (Z.of_nat (length udp_buf)) 0
        = Some (cmn, rem, idx) ->
      pc cmn <> MSG_TYPE_REGISTER_SUPER) ->
  edges (sss (fst (process_udp net w sender_sock udp_buf now)))
  = edges (sss w).
Proof. apply process_udp_edges_unchanged. Qed.

(** X1: the directory never holds two records for one MAC.  If no two
    records share a MAC before a datagram is processed, none do after,
    whatever the datagram. *)
Theorem process_udp_keeps_macs_unique (w : world)
    (sender_sock : sockaddr_in) (udp_buf : list Z) (now : Z) :
  unique_macs (edges (sss w)) ->
  unique_macs (edges (sss (fst (process_udp net w sender_sock udp_buf now)))).
Proof.
  intros Hu.
  destruct (decode_common udp_buf (Z.of_nat (length udp_buf)) 0)
    as [[[cmn rem] idx]|] eqn:Hdec.
  - destruct (Z.eqb_spec (pc cmn) MSG_TYPE_REGISTER_SUPER) as [Hpc|Hpc].
    + destruct (Z.ltb_spec (ttl cmn) 1) as [Httl|Httl].
      * unfold process_udp. rewrite Hdec.
        destruct (Z.ltb_spec (ttl cmn) 1); [exact Hu|lia].
      * rewrite (process_udp_REGISTER_SUPER net _ _ _ _ _ _ _ Hdec Httl Hpc).
        cbn [fst].
        destruct (decode_REGISTER_SUPER (hop cmn) udp_buf rem idx)
          as [[reg rem'] idx'] eqn:Hreg.
        destruct (process_REGISTER_SUPER_effect net w sender_sock udp_buf
                    (Z.of_nat (length udp_buf)) now (hop cmn) rem idx
                    reg rem' idx' Hreg) as (-> & _ & _).
        apply update_edge_unique_macs, Hu.
    + rewrite process_udp_edges_unchanged; [exact Hu|].
      intros cmn0 rem0 idx0 H0. rewrite Hdec in H0.
      injection H0 as <- <- <-. exact Hpc.
  - rewrite process_udp_edges_unchanged; [exact Hu|].
    intros cmn0 rem0 idx0 H0. rewrite Hdec in H0. discriminate.
Qed.

End DispatcherAtLarge.

(** ** Counters, fan-out, rewriting *)

Section DispatcherCounters.

Context {L : n2n_lib} {F : snm_lib}.
Variable net : nat -> Z.

(** The counters a forward leaves alone. *)
Lemma try_forward_stamps (w : world) (cmn : n2n_common_t)
    (dstMac pktbuf : list Z) (pktsize : Z) :
  let st := stats (sss w) in
  let st' := stats (sss (fst (try_forward net w cmn dstMac pktbuf pktsize))) in
  last_fwd st' = last_fwd st /\ reg_super st' = reg_super st
  /\ last_reg_super st' = last_reg_super st /\ broadcast st' = broadcast st.
Proof.
  apply (try_forward_respects net
           (fun s s' =>
              last_fwd (stats s') = last_fwd (stats s)
              /\ reg_super (stats s') = reg_super (stats s)
              /\ last_reg_super (stats s') = last_reg_super (stats s)
              /\ broadcast (stats s') = broadcast (stats s)));
    try (intros; repeat split; reflexivity).
Qed.

Lemma try_broadcast_stamps (w : world) (cmn : n2n_common_t)
    (srcMac pktbuf : list Z) (pktsize : Z) :
  let st := stats (sss w) in
  let st' :=
    stats (sss (fst (try_broadcast net w cmn srcMac pktbuf pktsize))) in
  last_fwd st' = last_fwd st /\ reg_super st' = reg_super st
  /\ last_reg_super st' = last_reg_super st /\ fwd st' = fwd st.
Proof.
  apply (try_broadcast_respects net
           (fun s s' =>
              last_fwd (stats s') = last_fwd (stats s)
              /\ reg_super (stats s') = reg_super (stats s)
              /\ last_reg_super (stats s') = last_reg_super (stats s)
              /\ fwd (stats s') = fwd (stats s)));
    try (intros; repeat split; reflexivity).
  intros a b c (H1 & H2 & H3 & H4) (H5 & H6 & H7 & H8).
  repeat split; congruence.
Qed.

(** X7: a [PACKET] or [REGISTER] whose TTL is at least 1 stamps
    [last_fwd] with the current time whether or not anything is sent
    (unknown destination, failed send, rejected multicast [REGISTER]);
    the registration counters stay as they were. *)
Theorem forward_stamps_last_fwd (w : world) (sender_sock : sockaddr_in)
    (udp_buf : list Z) (now : Z) (cmn : n2n_common_t) (rem idx : Z) :
  decode_common udp_buf (Z.of_nat (length udp_buf)) 0 = Some (cmn, rem, idx) ->
  1 <= ttl cmn ->
  pc cmn = MSG_TYPE_PACKET \/ pc cmn = MSG_TYPE_REGISTER ->
  let st' := stats (sss (fst (process_udp net w sender_sock udp_buf now))) in
  last_fwd st' = now
  /\ reg_super st' = reg_super (stats (sss w))
  /\ last_reg_super st' = last_reg_super (stats (sss w)).
Proof.
  intros Hdec Httl [Hpc|Hpc] st'; subst st'.
  - rewrite (process_udp_PACKET net _ _ _ _ _ _ _ Hdec Httl Hpc). cbn [fst].
    destruct (decode_PACKET (hop cmn) udp_buf rem idx) as [[pkt rem'] idx']
      eqn:Hpkt.
    destruct (process_PACKET_forwards net w sender_sock udp_buf now (hop cmn)
                (Z.land (flags cmn) N2N_FLAGS_FROM_SUPERNODE mod 256)
                rem idx pkt rem' idx' Hpkt)
      as (rec_buf & encx & _ & _ & _ & ->).
    destruct (_ =? 0).
    + destruct (try_forward_stamps
                  (with_sss (set_stats (set_last_fwd now)) w) (hop cmn)
                  (pkt_dstMac pkt) rec_buf encx) as (H1 & H2 & H3 & _).
      rewrite H1, H2, H3. repeat split; reflexivity.
    + destruct (try_broadcast_stamps
                  (with_sss (set_stats (set_last_fwd now)) w) (hop cmn)
                  (pkt_srcMac pkt) rec_buf encx) as (H1 & H2 & H3 & _).
      rewrite H1, H2, H3. repeat split; reflexivity.
  - rewrite (process_udp_REGISTER net _ _ _ _ _ _ _ Hdec Httl Hpc). cbn [fst].
    destruct (decode_REGISTER (hop cmn) udp_buf rem idx) as [[reg rem'] idx']
      eqn:Hreg.
    destruct (process_REGISTER_forwards net w sender_sock udp_buf now
                (hop cmn) rem idx reg rem' idx' Hreg)
      as (rec_buf & encx & _ & ->).
    destruct (_ =? 0); [|repeat split; reflexivity].
    destruct (try_forward_stamps
                (with_sss (set_stats (set_last_fwd now)) w) (hop cmn)
                (reg_dstMac reg) rec_buf encx) as (H1 & H2 & H3 & _).
    rewrite H1, H2, H3. repeat split; reflexivity.
Qed.

(** X8: a [REGISTER_SUPER] whose TTL is at least 1 counts once in
    [reg_super] (a [size_t], so modulo 2^64) and stamps
    [last_reg_super]; no other counter moves, [errors] included: the
    result of the [sendto] that carries the acknowledgement is not
    looked at. *)
Theorem register_super_counts_once (w : world) (sender_sock : sockaddr_in)
    (udp_buf : list Z) (now : Z) (cmn : n2n_common_t) (rem idx : Z) :
  decode_common udp_buf (Z.of_nat (length udp_buf)) 0 = Some (cmn, rem, idx) ->
  1 <= ttl cmn ->
  pc cmn = MSG_TYPE_REGISTER_SUPER ->
  stats (sss (fst (process_udp net w sender_sock udp_buf now)))
  = {| errors := errors (stats (sss w));
       reg_super := (reg_super (stats (sss w)) + 1) mod 2 ^ 64;
       reg_super_nak := reg_super_nak (stats (sss w));
       fwd := fwd (stats (sss w));
       broadcast := broadcast (stats (sss w));
       last_fwd := last_fwd (stats (sss w));
       last_reg_super := now |}.
Proof.
  intros Hdec Httl Hpc.
  rewrite (process_udp_REGISTER_SUPER net _ _ _ _ _ _ _ Hdec Httl Hpc).
  cbn [fst]. unfold process_REGISTER_SUPER.
  destruct (decode_REGISTER_SUPER (hop cmn) udp_buf rem idx)
    as [[reg rem'] idx'].
  unfold sendto. cbn [fst sss with_sss emit].
  rewrite update_edge_frame. reflexivity.
Qed.

(** X9: a [PACKET] for a multicast or broadcast MAC is fanned out.  One
    and the same datagram goes to every record of the frame's community
    except the records of the source MAC, in directory order, and to
    nobody else; it is the ingress datagram itself when the frame came
    from a supernode. *)
Theorem packet_broadcast_fan_out (w : world) (sender_sock : sockaddr_in)
    (udp_buf : list Z) (now : Z) (cmn : n2n_common_t) (rem idx : Z)
    (pkt : n2n_PACKET_t) (rem' idx' : Z) :
  decode_common udp_buf (Z.of_nat (length udp_buf)) 0 = Some (cmn, rem, idx) ->
  1 <= ttl cmn ->
  pc cmn = MSG_TYPE_PACKET ->
  decode_PACKET (hop cmn) udp_buf rem idx = (pkt, rem', idx') ->
  is_multi_broadcast_mac (pkt_dstMac pkt) <> 0 ->
  exists data,
    out (fst (process_udp net w sender_sock udp_buf now))
    = out w ++
      ((fun p => Sendto (sock (sss w)) (ToSock (peer_sock p)) data)
         <$> filter (fun p => memcmp (community_name p) (community cmn)
                                     N2N_COMMUNITY_SIZE = 0
                              /\ memcmp (pkt_srcMac pkt) (mac_addr p)
                                        N2N_MAC_SIZE <> 0)
                    (edges (sss w)))
    /\ (Z.land (flags cmn) N2N_FLAGS_FROM_SUPERNODE mod 256 <> 0 ->
        data = udp_buf).
Proof.
  intros Hdec Httl Hpc Hpkt Hmulti.
  rewrite (process_udp_PACKET net _ _ _ _ _ _ _ Hdec Httl Hpc). cbn [fst].
  destruct (process_PACKET_forwards net w sender_sock udp_buf now (hop cmn)
              (Z.land (flags cmn) N2N_FLAGS_FROM_SUPERNODE mod 256)
              rem idx pkt rem' idx' Hpkt)
    as (rec_buf & encx & Hwhole & Hsame & _ & ->).
  destruct (Z.eqb_spec (is_multi_broadcast_mac (pkt_dstMac pkt)) 0);
    [contradiction|].
  exists rec_buf. split; [|exact Hsame].
  destruct (try_broadcast_fold net (hop cmn) (pkt_srcMac pkt) rec_buf encx
              (edges (sss w)) (with_sss (set_stats (set_last_fwd now)) w))
    as (_ & _ & Hout).
  unfold try_broadcast. cbn [fst]. rewrite Hwhole in Hout. exact Hout.
Qed.

(** X10: a unicast [PACKET] that arrives without [FROM_SUPERNODE], for
    a MAC the directory knows, is sent on to that edge as one datagram:
    the header and packet encoded again, followed by the rest of the
    ingress datagram.  The header encoded is the ingress one with the
    TTL one less and with [SOCKET] and [FROM_SUPERNODE] added to its
    flags, nothing else; the packet is the ingress one with the
    observed sender socket.  This is for a datagram that fits the
    [N2N_SN_PKTBUF_SIZE] octets of [encbuf] once encoded again. *)
Theorem packet_from_edge_is_rewritten (w : world) (sender_sock : sockaddr_in)
    (udp_buf : list Z) (now : Z) (cmn : n2n_common_t) (rem idx : Z)
    (pkt : n2n_PACKET_t) (rem' idx' : Z) (i : nat) (scan : peer_info) :
  decode_common udp_buf (Z.of_nat (length udp_buf)) 0 = Some (cmn, rem, idx) ->
  1 <= ttl cmn < 256 ->
  pc cmn = MSG_TYPE_PACKET ->
  Z.land (flags cmn) N2N_FLAGS_FROM_SUPERNODE mod 256 = 0 ->
  decode_PACKET (hop cmn) udp_buf rem idx = (pkt, rem', idx') ->
  is_multi_broadcast_mac (pkt_dstMac pkt) = 0 ->
  find_peer_by_mac (edges (sss w)) (pkt_dstMac pkt) = Some (i, scan) ->
  let cmn2 :=
    {| ttl := ttl cmn - 1;
       pc := pc cmn;
       flags := Z.lor (flags cmn)
                      (Z.lor N2N_FLAGS_SOCKET N2N_FLAGS_FROM_SUPERNODE);
       community := community cmn |} in
  let pkt2 :=
    {| pkt_srcMac := pkt_srcMac pkt;
       pkt_dstMac := pkt_dstMac pkt;
       pkt_sock := observed_sock sender_sock |} in
  let datagram :=
    encode_PACKET cmn2 pkt2
    ++ encode_buf (drop (Z.to_nat idx') udp_buf)
                  (to_size_t (Z.of_nat (length udp_buf) - idx')) in
  Z.of_nat (length datagram) <= N2N_SN_PKTBUF_SIZE ->
  out (fst (process_udp net w sender_sock udp_buf now))
  = out w ++ [Sendto (sock (sss w)) (ToSock (peer_sock scan)) datagram].
Proof.
  intros Hdec Httl Hpc Hfrom Hpkt Huni Hfind cmn2 pkt2 datagram _.
  rewrite (process_udp_PACKET net _ _ _ _ _ _ _ Hdec (proj1 Httl) Hpc).
  cbn [fst].
  destruct (process_PACKET_forwards net w sender_sock udp_buf now (hop cmn)
              (Z.land (flags cmn) N2N_FLAGS_FROM_SUPERNODE mod 256)
              rem idx pkt rem' idx' Hpkt)
    as (rec_buf & encx & Hwhole & _ & Hnew & ->).
  rewrite Huni, Z.eqb_refl.
  rewrite (try_forward_known net _ _ _ _ _ i scan); [|exact Hfind].
  rewrite Hwhole, (Hnew Hfrom).
  subst datagram cmn2 pkt2. unfold hop, set_flags, set_ttl, set_pkt_sock.
  cbn [ttl pc community flags pkt_srcMac pkt_dstMac].
  rewrite (Z.mod_small (ttl cmn - 1) 256) by lia. reflexivity.
Qed.

End DispatcherCounters.

(** ** Registration, then traffic *)

Section RegisterThenForward.

Context {L : n2n_lib} {F : snm_lib}.
Variable net : nat -> Z.

(** X11: once an edge has registered, traffic for its MAC reaches it.
    After a [REGISTER_SUPER] (TTL at least 1) seen from some address, a
    unicast [PACKET] for the MAC it registered is sent, as one
    datagram, to exactly the socket the registration was seen from.
    This takes a [sock_equal] that answers 0 for equal sockets and
    for no others, the convention of [memcmp]. *)
Theorem registered_edge_is_reachable (w : world)
    (edge_sock peer : sockaddr_in) (reg_buf pkt_buf : list Z) (t1 t2 : Z)
    (cmn1 : n2n_common_t) (rem1 idx1 : Z) (reg : n2n_REGISTER_SUPER_t)
    (rem1' idx1' : Z)
    (cmn2 : n2n_common_t) (rem2 idx2 : Z) (pkt : n2n_PACKET_t)
    (rem2' idx2' : Z) :
  (forall a b, sock_equal a b = 0 <-> a = b) ->
  decode_common reg_buf (Z.of_nat (length reg_buf)) 0
    = Some (cmn1, rem1, idx1) ->
  1 <= ttl cmn1 ->
  pc cmn1 = MSG_TYPE_REGISTER_SUPER ->
  decode_REGISTER_SUPER (hop cmn1) reg_buf rem1 idx1 = (reg, rem1', idx1') ->
  decode_common pkt_buf (Z.of_nat (length pkt_buf)) 0
    = Some (cmn2, rem2, idx2) ->
  1 <= ttl cmn2 ->
  pc cmn2 = MSG_TYPE_PACKET ->
  decode_PACKET (hop cmn2) pkt_buf rem2 idx2 = (pkt, rem2', idx2') ->
  is_multi_broadcast_mac (pkt_dstMac pkt) = 0 ->
  pkt_dstMac pkt = rs_edgeMac reg ->
  let w1 := fst (process_udp net w edge_sock reg_buf t1) in
  exists data,
    out (fst (process_udp net w1 peer pkt_buf t2))
    = out w1 ++ [Sendto (sock (sss w)) (ToSock (observed_sock edge_sock)) data].
Proof.
  intros Hse Hdec1 Httl1 Hpc1 Hreg Hdec2 Httl2 Hpc2 Hpkt Huni Hdst w1.
  assert (Hsock : sock (sss w1) = sock (sss w)).
  { subst w1.
    apply (process_udp_respects net (fun s s' => sock s' = sock s));
      intros; congruence || reflexivity. }
  assert (Hfind : exists i r,
             find_peer_by_mac (edges (sss w1)) (pkt_dstMac pkt) = Some (i, r)
             /\ peer_sock r = observed_sock edge_sock).
  { subst w1.
    rewrite (process_udp_REGISTER_SUPER net _ _ _ _ _ _ _ Hdec1 Httl1 Hpc1).
    cbn [fst].
    destruct (process_REGISTER_SUPER_effect net w edge_sock reg_buf
                (Z.of_nat (length reg_buf)) t1 (hop cmn1) rem1 idx1
                reg rem1' idx1' Hreg) as (-> & _ & _).
    destruct (update_edge_find (sss w) (rs_edgeMac reg) (community (hop cmn1))
                (observed_sock edge_sock) t1 Hse)
      as (i & r & Hf & _ & _ & Hs & _).
    exists i, r. rewrite Hdst. split; assumption. }
  destruct Hfind as (i & r & Hfind & Hr).
  rewrite (process_udp_PACKET net _ _ _ _ _ _ _ Hdec2 Httl2 Hpc2). cbn [fst].
  destruct (process_PACKET_forwards net w1 peer pkt_buf t2 (hop cmn2)
              (Z.land (flags cmn2) N2N_FLAGS_FROM_SUPERNODE mod 256)
              rem2 idx2 pkt rem2' idx2' Hpkt)
    as (rec_buf & encx & Hwhole & _ & _ & ->).
  rewrite Huni, Z.eqb_refl.
  rewrite (try_forward_known net _ _ _ _ _ i r); [|exact Hfind].
  cbn [out sss with_sss sock set_stats]. rewrite Hwhole, Hr, Hsock.
  eexists. reflexivity.
Qed.

(** X12: what the dispatcher ignores.  A datagram whose common header
    does not decode is answered with -1 and one whose packet code is
    none of [PACKET], [REGISTER] and [REGISTER_SUPER] (a [REGISTER_ACK],
    an acknowledgement, anything unknown) with 0; in both cases nothing
    is sent and nothing in the structure changes, not even the error
    counter or [last_fwd]. *)
Theorem process_udp_ignores (w : world) (sender_sock : sockaddr_in)
    (udp_buf : list Z) (now : Z) :
  (decode_common udp_buf (Z.of_nat (length udp_buf)) 0 = None ->
   process_udp net w sender_sock udp_buf now = (w, -1))
  /\ (forall cmn rem idx,
         decode_common udp_buf (Z.of_nat (length udp_buf)) 0
           = Some (cmn, rem, idx) ->
         pc cmn <> MSG_TYPE_PACKET ->
         pc cmn <> MSG_TYPE_REGISTER ->
         pc cmn <> MSG_TYPE_REGISTER_SUPER ->
         process_udp net w sender_sock udp_buf now = (w, 0)).
Proof.
  unfold process_udp. split.
  - intros ->. reflexivity.
  - intros cmn rem idx -> H1 H2 H3.
    destruct (ttl cmn <? 1); [reflexivity|]. cbv zeta.
    destruct (Z.eqb_spec (pc cmn) MSG_TYPE_PACKET); [contradiction|].
    destruct (Z.eqb_spec (pc cmn) MSG_TYPE_REGISTER); [contradiction|].
    destruct (_ =? MSG_TYPE_REGISTER_ACK); [reflexivity|].
    destruct (Z.eqb_spec (pc cmn) MSG_TYPE_REGISTER_SUPER);
      [contradiction|reflexivity].
Qed.

End RegisterThenForward.

(** * More about the federation *)

Section FederationSends.

Context {L : n2n_lib} {F : snm_lib}.
Variable net : nat -> Z.

(** One request: the sequence number moves on in any case; unless the
    target is held back as loopback, the request that carries the new
    number is handed to [sendto_sock] for it, on the federation
    socket. *)
Lemma send_snm_req_effect (w : world) (to : n2n_sock_t) (req_communities : Z)
    (comms : option (list (list Z))) (communities_num : Z) :
  let w' := send_snm_req net w to req_communities comms communities_num in
  let seq := to_unsigned_int (seq_num (sss w) + 1) in
  sss w' = set_seq_num seq (sss w)
  /\ out w' = out w ++
       (if sn_is_loopback to (sn_port (sss w)) then []
        else [Sendto (sn_sock (sss w)) (ToSock to)
                     (req_datagram seq req_communities comms
                                   communities_num)]).
Proof.
  unfold send_snm_req, req_datagram. cbv zeta.
  change (sn_port (sss (with_sss
            (fun s => set_seq_num (to_unsigned_int (seq_num s + 1)) s) w)))
    with (sn_port (sss w)).
  destruct (sn_is_loopback to (sn_port (sss w))).
  - split; [reflexivity|]. cbn [out with_sss].
    rewrite app_nil_r. reflexivity.
  - destruct (negb (req_communities =? 0)); [|destruct comms];
      (split; [reflexivity|]);
      unfold sendto_sock_sn, sendto_sock;
      cbn [fst sss out emit with_sss snm_type snm_flags snm_seq seq_num
           set_seq_num sn_sock];
      rewrite take_whole; reflexivity.
Qed.

(** One advertisement: the structure stays as it is. *)
Lemma send_snm_adv_effect (w : world) (to : n2n_sock_t)
    (comm_list : option (list comm_info)) :
  let w' := send_snm_adv net w to comm_list in
  sss w' = sss w
  /\ out w' = out w ++
       (if sn_is_loopback to (sn_port (sss w)) then []
        else [Sendto (sn_sock (sss w)) (ToSock to)
                     (adv_datagram (sss w) comm_list)]).
Proof.
  unfold send_snm_adv, adv_datagram. cbv zeta.
  destruct (sn_is_loopback to (sn_port (sss w)));
    [rewrite app_nil_r; split; reflexivity|].
  destruct (build_snm_adv (sock (sss w)) comm_list) as [hdr adv].
  unfold sendto_sock_sn, sendto_sock. cbn [fst sss out emit].
  rewrite take_whole. split; reflexivity.
Qed.

Lemma advertise_to_all (comm_list : world -> option (list comm_info))
    (sns : list sn_info) (w : world) :
  let w' :=
    fold_left (fun w sni => send_snm_adv net w (sn sni) (comm_list w)) sns w in
  (forall w1 w2, sss w1 = sss w2 -> comm_list w1 = comm_list w2) ->
  sss w' = sss w
  /\ out w' = out w ++
       ((fun sni => Sendto (sn_sock (sss w)) (ToSock (sn sni))
                           (adv_datagram (sss w) (comm_list w)))
          <$> not_loopback (sn_port (sss w)) sns).
Proof.
  intros w' Hcl. subst w'. revert w.
  induction sns as [|sni sns IH]; intros w; cbn [fold_left].
  - unfold not_loopback. simpl. rewrite app_nil_r. split; reflexivity.
  - destruct (send_snm_adv_effect w (sn sni) (comm_list w)) as [Hs Ho].
    destruct (IH (send_snm_adv net w (sn sni) (comm_list w))) as [Hs' Ho'].
    split; [congruence|].
    rewrite Ho', Ho, Hs, (Hcl _ w Hs).
    unfold not_loopback. cbn [List.filter].
    destruct (sn_is_loopback (sn sni) (sn_port (sss w))); cbn [negb].
    + rewrite app_nil_r. reflexivity.
    + rewrite <- app_assoc. reflexivity.
Qed.

(** X13: [advertise_all] changes nothing in the structure.  When the
    supernode hosts no community it makes no call of [sendto_sock];
    otherwise it makes one for every known supernode that is not held
    back as loopback, in list order, each with the federation
    descriptor, that supernode's socket and one and the same encoded
    advertisement. *)
Theorem advertise_all_targets (w : world) :
  sss (advertise_all net w) = sss w
  /\ out (advertise_all net w)
     = out w ++
       match head (communities (sss w)) with
       | [] => []
       | _ :: _ =>
           (fun sni => Sendto (sn_sock (sss w)) (ToSock (sn sni))
                         (adv_datagram (sss w)
                            (Some (head (communities (sss w))))))
             <$> not_loopback (sn_port (sss w))
                              (sn_head (supernodes (sss w)))
       end.
Proof.
  unfold advertise_all.
  destruct (head (communities (sss w))) as [|c cs] eqn:Hhead.
  - rewrite app_nil_r. split; reflexivity.
  - destruct (advertise_to_all
                (fun w => Some (head (communities (sss w))))
                (sn_head (supernodes (sss w))) w) as [Hs Ho].
    + intros w1 w2 ->. reflexivity.
    + split; [exact Hs|]. rewrite Ho, Hhead. reflexivity.
Qed.

(** A round that starts one request later. *)
Lemma req_round_cons (fd port0 seq req_communities : Z)
    (comms : option (list (list Z))) (communities_num : Z)
    (sni : sn_info) (sns : list sn_info) :
  req_round fd port0 seq req_communities comms communities_num (sni :: sns)
  = (if sn_is_loopback (sn sni) port0 then []
     else [Sendto fd (ToSock (sn sni))
                  (req_datagram (to_unsigned_int (seq + 1)) req_communities
                                comms communities_num)])
    ++ req_round fd port0 (to_unsigned_int (seq + 1)) req_communities comms
                 communities_num sns.
Proof.
  unfold req_round. rewrite imap_cons. cbn [concat].
  rewrite Z.add_0_r. f_equal. f_equal.
  apply imap_ext. intros k x _. unfold compose.
  replace (to_unsigned_int (to_unsigned_int (seq + 1) + Z.of_nat k + 1))
    with (to_unsigned_int (seq + Z.of_nat (S k) + 1)); [reflexivity|].
  unfold to_unsigned_int.
  rewrite <- (Z.add_assoc ((seq + 1) mod 2 ^ 32)), Zplus_mod_idemp_l.
  f_equal. lia.
Qed.

(** A run of requests down a list of supernodes: the round goes out,
    and in the structure only the sequence number has moved. *)
Lemma send_requests_effect (req_communities : Z)
    (comms : option (list (list Z))) (communities_num : Z)
    (sns : list sn_info) (w : world) :
  let w' :=
    fold_left (fun w sni => send_snm_req net w (sn sni) req_communities
                                         comms communities_num) sns w in
  (exists n, sss w' = set_seq_num n (sss w)
             /\ to_unsigned_int n
                = to_unsigned_int (seq_num (sss w) + Z.of_nat (length sns)))
  /\ out w' = out w ++
       req_round (sn_sock (sss w)) (sn_port (sss w)) (seq_num (sss w))
                 req_communities comms communities_num sns.
Proof.
  cbv zeta. revert w. induction sns as [|sni sns IH]; intros w; cbn [fold_left].
  - split.
    + exists (seq_num (sss w)). split; [destruct w as [[] ?]; reflexivity|].
      simpl. rewrite Z.add_0_r. reflexivity.
    + unfold req_round. cbn. rewrite app_nil_r. reflexivity.
  - destruct (send_snm_req_effect w (sn sni) req_communities comms
                                  communities_num) as (Hs & Ho).
    destruct (IH (send_snm_req net w (sn sni) req_communities comms
                               communities_num))
      as ((n & Hs' & Hn) & Ho').
    rewrite Hs in Hs', Hn, Ho'.
    cbn [seq_num sn_sock sn_port set_seq_num] in Hn, Ho'.
    split.
    + exists n. split; [rewrite Hs'; destruct w as [[] ?]; reflexivity|].
      rewrite Hn. cbn [length].
      unfold to_unsigned_int. rewrite Zplus_mod_idemp_l.
      f_equal. lia.
    + rewrite Ho', Ho, req_round_cons, app_assoc. reflexivity.
Qed.

(** X14: a round of requests to all supernodes.  Supernode [k] of the
    list, counted from 0, has the request with sequence number
    [seq_num + k + 1] (modulo 2^32) handed to [sendto_sock] for its
    socket, on the federation descriptor, in list order; a supernode
    held back as loopback gets nothing but uses up its number all the
    same.  In the structure only the sequence number changes, by the
    length of the list. *)
Theorem send_req_to_all_supernodes_effect (w : world) (req_communities : Z)
    (comms : option (list (list Z))) (communities_num : Z) :
  let w' :=
    send_req_to_all_supernodes net w req_communities comms communities_num in
  let sns := sn_head (supernodes (sss w)) in
  (exists n, sss w' = set_seq_num n (sss w)
             /\ n mod 2 ^ 32
                = (seq_num (sss w) + Z.of_nat (length sns)) mod 2 ^ 32)
  /\ out w' = out w ++
       req_round (sn_sock (sss w)) (sn_port (sss w)) (seq_num (sss w))
                 req_communities comms communities_num sns.
Proof.
  apply (send_requests_effect req_communities comms communities_num
           (sn_head (supernodes (sss w))) w).
Qed.

(** The loop of the [RSP] branch is a round of requests to the first
    [n] supernodes of the list; a negative [n] never reaches 0. *)
Lemma request_new_supernodes_fold (sns : list sn_info) (w : world) (n : Z) :
  request_new_supernodes net w sns n
  = fold_left (fun w sni => send_snm_req net w (sn sni) 1 None 0)
              (if n <? 0 then sns else take (Z.to_nat n) sns) w.
Proof.
  revert w n. induction sns as [|sni sns IH]; intros w n;
    cbn [request_new_supernodes].
  - destruct (n <? 0); [reflexivity|]. rewrite take_nil. reflexivity.
  - destruct (Z.eqb_spec n 0) as [->|Hn]; [reflexivity|].
    rewrite IH. destruct (Z.ltb_spec n 0) as [Hneg|Hpos].
    + destruct (Z.ltb_spec (n - 1) 0); [reflexivity|lia].
    + destruct (Z.ltb_spec (n - 1) 0); [lia|].
      replace (Z.to_nat n) with (S (Z.to_nat (n - 1))) by lia.
      reflexivity.
Qed.

(** X15: what an [RSP] sets off.  An [RSP] taken during discovery has
    its supernodes and communities merged by [process_snm_rsp], which
    answers a number [sn_num]; [process_sn_msg] then runs a round of
    requests for all communities (C flag) down the merged supernode
    list, to its first [sn_num] supernodes and no further, or to all
    of them when [sn_num] is negative, since it then never reaches 0.
    Each request goes to the socket of its supernode with the next
    sequence number, and the answer is 0. *)
Theorem rsp_requests_new_supernodes (w : world) (sender_sock : sockaddr_in)
    (msg_buf : list Z) (now : Z) (hdr : snm_hdr_t) (rem idx : Z)
    (rsp : n2n_SNM_INFO_t) (rem' idx' : Z)
    (sns : sn_list_t) (comms : comm_list_t) (sn_num0 : Z) :
  decode_SNM_hdr msg_buf (Z.of_nat (length msg_buf)) 0
    = Some (hdr, rem, idx) ->
  snm_type hdr = SNM_TYPE_RSP_LIST_MSG ->
  SNM_TYPE_RSP_LIST_MSG <> SNM_TYPE_REQ_LIST_MSG ->
  snm_discovery_state (sss w) <> N2N_SNM_STATE_READY ->
  decode_SNM_INFO hdr msg_buf rem idx = (rsp, rem', idx') ->
  process_snm_rsp (supernodes (sss w)) (communities (sss w))
                  (sender_sn_of sender_sock) hdr rsp
    = (sns, comms, sn_num0) ->
  let asked :=
    if sn_num0 <? 0 then sn_head sns
    else take (Z.to_nat sn_num0) (sn_head sns) in
  let w' := fst (process_sn_msg net w sender_sock msg_buf now) in
  snd (process_sn_msg net w sender_sock msg_buf now) = 0
  /\ supernodes (sss w') = sns
  /\ communities (sss w') = comms
  /\ seq_num (sss w') mod 2 ^ 32
     = (seq_num (sss w) + Z.of_nat (length asked)) mod 2 ^ 32
  /\ out w' = out w ++
       req_round (sn_sock (sss w)) (sn_port (sss w)) (seq_num (sss w))
                 1 None 0 asked.
Proof.
  intros Hdec Htype Hne Hstate Hinfo Hrsp asked w'. subst w'.
  unfold process_sn_msg. rewrite Hdec. cbv zeta. rewrite Htype.
  destruct (Z.eqb_spec SNM_TYPE_RSP_LIST_MSG SNM_TYPE_REQ_LIST_MSG);
    [contradiction|].
  rewrite Z.eqb_refl.
  destruct (decide _) as [Hr|_]; [contradiction|].
  rewrite Hinfo, Hrsp. cbn [fst snd]. split; [reflexivity|].
  rewrite request_new_supernodes_fold.
  cbn [sss with_sss supernodes set_supernodes set_communities].
  fold asked.
  destruct (send_requests_effect 1 None 0 asked
              (with_sss (fun s => set_communities comms
                                    (set_supernodes sns s)) w))
    as ((m & Hs & Hn) & Ho).
  cbv zeta in Hs, Ho. rewrite Hs, Ho.
  cbn [sss out with_sss supernodes communities seq_num sn_sock sn_port
       set_seq_num set_supernodes set_communities] in *.
  repeat split; try reflexivity. exact Hn.
Qed.

End FederationSends.

(** ** What the federation handlers may change *)

Section FederationPlane.

Context {L : n2n_lib} {F : snm_lib}.
Variable net : nat -> Z.

Variable R : n2n_sn_t -> n2n_sn_t -> Prop.
Hypothesis R_refl : forall s, R s s.
Hypothesis R_trans : forall a b c, R a b -> R b c -> R a c.
Hypothesis R_seq_num : forall n s, R s (set_seq_num n s).
Hypothesis R_supernodes : forall l s, R s (set_supernodes l s).
Hypothesis R_communities : forall c s, R s (set_communities c s).

Lemma send_snm_req_respects (w : world) (to : n2n_sock_t) (req_communities : Z)
    (comms : option (list (list Z))) (communities_num : Z) :
  R (sss w)
    (sss (send_snm_req net w to req_communities comms communities_num)).
Proof.
  destruct (send_snm_req_effect net w to req_communities comms
                                communities_num) as [-> _].
  apply R_seq_num.
Qed.

Lemma send_snm_adv_respects (w : world) (to : n2n_sock_t)
    (comm_list : option (list comm_info)) :
  R (sss w) (sss (send_snm_adv net w to comm_list)).
Proof.
  destruct (send_snm_adv_effect net w to comm_list) as [-> _]. apply R_refl.
Qed.

Lemma send_snm_rsp_respects (w : world) (to : n2n_sock_t) (hdr : snm_hdr_t)
    (req : n2n_SNM_REQ_t) :
  R (sss w) (sss (send_snm_rsp net w to hdr req)).
Proof.
  unfold send_snm_rsp. destruct (build_snm_info _ _ _ _ _). apply R_refl.
Qed.

Lemma fold_left_respects {A : Type} (f : world -> A -> world) (l : list A) :
  (forall w x, R (sss w) (sss (f w x))) ->
  forall w, R (sss w) (sss (fold_left f l w)).
Proof.
  intros Hf. induction l as [|x l IH]; intros w; cbn [fold_left].
  - apply R_refl.
  - eapply R_trans; [apply Hf|apply IH].
Qed.

Lemma request_new_supernodes_respects (l : list sn_info) (w : world) (n : Z) :
  R (sss w) (sss (request_new_supernodes net w l n)).
Proof.
  revert w n; induction l as [|x l IH]; intros w n;
    cbn [request_new_supernodes]; [apply R_refl|].
  destruct (n =? 0); [apply R_refl|].
  eapply R_trans; [apply send_snm_req_respects|apply IH].
Qed.

Lemma process_SNM_REQ_respects (w : world) (sender_sn : n2n_sock_t)
    (hdr : snm_hdr_t) (msg_buf : list Z) (rem idx : Z) :
  R (sss w) (sss (fst (process_SNM_REQ net w sender_sn hdr msg_buf rem idx))).
Proof.
  unfold process_SNM_REQ.
  destruct (decode_SNM_REQ hdr msg_buf rem idx) as [[req rem'] idx'].
  assert (Hfinish : forall (b : bool) (w1 : world),
             R (sss w) (sss w1) ->
             R (sss w)
               (sss (fst (if b
                          then (with_sss (fun s =>
                                  set_supernodes
                                    (update_and_save_supernodes
                                       (supernodes s) sender_sn 1) s) w1, 0)
                          else (w1, 0))))).
  { intros b w1 H1. destruct b; cbn [fst]; [|exact H1].
    eapply R_trans; [exact H1|]. apply R_supernodes. }
  destruct (GET_A (snm_flags hdr)).
  - destruct (GET_E (snm_flags hdr)).
    + destruct (negb (comm_num req =? 1)); [apply R_refl|].
      destruct (add_new_community _ _) as [[comms need_write] ci].
      destruct (negb (need_write =? 0)); cbn [fmap option_fmap option_map];
        apply Hfinish.
      * eapply R_trans; [|apply send_snm_adv_respects].
        eapply R_trans;
          [|unfold advertise_community_to_all; apply fold_left_respects;
            intros; apply send_snm_adv_respects].
        apply R_communities.
      * eapply R_trans; [|apply send_snm_adv_respects]. apply R_communities.
    + cbn [fmap option_fmap option_map]. apply Hfinish.
      apply send_snm_adv_respects.
  - apply Hfinish. apply send_snm_rsp_respects.
Qed.

Lemma process_sn_msg_respects (w : world) (sender_sock : sockaddr_in)
    (msg_buf : list Z) (now : Z) :
  R (sss w) (sss (fst (process_sn_msg net w sender_sock msg_buf now))).
Proof.
  unfold process_sn_msg.
  destruct (decode_SNM_hdr _ _ _) as [[[hdr rem] idx]|]; [|apply R_refl].
  cbv zeta.
  destruct (_ =? SNM_TYPE_REQ_LIST_MSG).
  { destruct (decide _); [apply R_refl|apply process_SNM_REQ_respects]. }
  destruct (_ =? SNM_TYPE_RSP_LIST_MSG).
  { destruct (decide _); [apply R_refl|].
    destruct (decode_SNM_INFO _ _ _ _) as [[rsp rem'] idx'].
    destruct (process_snm_rsp _ _ _ _ _) as [[sns comms] added].
    cbn [fst]. eapply R_trans; [|apply request_new_supernodes_respects].
    eapply R_trans; [apply R_supernodes|apply R_communities]. }
  destruct (_ =? SNM_TYPE_ADV_MSG); [|apply R_refl].
  destruct (decode_SNM_ADV _ _ _ _) as [[adv rem'] idx'].
  destruct (process_snm_adv _ _ _ _) as [[sns comms] updated].
  destruct (_ && _); cbn [fst].
  - eapply R_trans; [|apply send_snm_adv_respects].
    eapply R_trans; [apply R_supernodes|apply R_communities].
  - eapply R_trans; [apply R_supernodes|apply R_communities].
Qed.

Lemma send_req_to_all_supernodes_respects (w : world) (req_communities : Z)
    (comms : option (list (list Z))) (communities_num : Z) :
  R (sss w)
    (sss (send_req_to_all_supernodes net w req_communities comms
                                     communities_num)).
Proof.
  unfold send_req_to_all_supernodes. apply fold_left_respects.
  intros. apply send_snm_req_respects.
Qed.

End FederationPlane.

Section FederationAtLarge.

Context {L : n2n_lib} {F : snm_lib}.
Variable net : nat -> Z.

(** X16: federation traffic stays in its plane.  Whatever datagram
    arrives on the federation socket, [process_sn_msg] leaves the edge
    directory, every counter (a failed send is not even counted in
    [errors]), the configuration and the discovery state as they
    were. *)
Theorem process_sn_msg_leaves_edge_plane (w : world)
    (sender_sock : sockaddr_in) (msg_buf : list Z) (now : Z) :
  let s' := sss (fst (process_sn_msg net w sender_sock msg_buf now)) in
  edges s' = edges (sss w)
  /\ stats s' = stats (sss w)
  /\ config_of s' = config_of (sss w)
  /\ snm_discovery_state s' = snm_discovery_state (sss w).
Proof.
  apply (process_sn_msg_respects net
           (fun s s' => edges s' = edges s /\ stats s' = stats s
                        /\ config_of s' = config_of s
                        /\ snm_discovery_state s'
                           = snm_discovery_state s));
    try (intros; repeat split; reflexivity).
  intros a b c (H1 & H2 & H3 & H4) (H5 & H6 & H7 & H8).
  repeat split; congruence.
Qed.

(** X17: the two gates of the federation.  A [REQ] is refused while the
    supernode is not [READY], an [RSP] once it is, and a datagram whose
    header does not decode always: the answer is -1, nothing is sent
    and nothing changes.  In every state one of the two kinds of
    message is refused. *)
Theorem process_sn_msg_gates (w : world) (sender_sock : sockaddr_in)
    (msg_buf : list Z) (now : Z) :
  (decode_SNM_hdr msg_buf (Z.of_nat (length msg_buf)) 0 = None ->
   process_sn_msg net w sender_sock msg_buf now = (w, -1))
  /\ (forall hdr rem idx,
         decode_SNM_hdr msg_buf (Z.of_nat (length msg_buf)) 0
           = Some (hdr, rem, idx) ->
         (snm_type hdr = SNM_TYPE_REQ_LIST_MSG ->
          snm_discovery_state (sss w) <> N2N_SNM_STATE_READY ->
          process_sn_msg net w sender_sock msg_buf now = (w, -1))
         /\ (snm_type hdr = SNM_TYPE_RSP_LIST_MSG ->
             SNM_TYPE_RSP_LIST_MSG <> SNM_TYPE_REQ_LIST_MSG ->
             snm_discovery_state (sss w) = N2N_SNM_STATE_READY ->
             process_sn_msg net w sender_sock msg_buf now = (w, -1))).
Proof.
  unfold process_sn_msg. split; [intros ->; reflexivity|].
  intros hdr rem idx ->. cbv zeta. split.
  - intros -> Hstate. rewrite Z.eqb_refl.
    destruct (decide _); [reflexivity|contradiction].
  - intros -> Hne Hstate.
    destruct (Z.eqb_spec SNM_TYPE_RSP_LIST_MSG SNM_TYPE_REQ_LIST_MSG);
      [contradiction|].
    rewrite Z.eqb_refl. destruct (decide _); [reflexivity|contradiction].
Qed.

(** X18: what a [REQ] does to the supernode directory.  For a [REQ]
    taken in state [READY], the sender is merged into the supernode
    list by [update_and_save_supernodes] exactly when the E flag is not
    set; a request that says it comes from an edge never changes the
    list, whatever else it asks for. *)
Theorem snm_req_merges_supernodes_only (w : world) (sender_sock : sockaddr_in)
    (msg_buf : list Z) (now : Z) (hdr : snm_hdr_t) (rem idx : Z) :
  decode_SNM_hdr msg_buf (Z.of_nat (length msg_buf)) 0
    = Some (hdr, rem, idx) ->
  snm_type hdr = SNM_TYPE_REQ_LIST_MSG ->
  snm_discovery_state (sss w) = N2N_SNM_STATE_READY ->
  supernodes (sss (fst (process_sn_msg net w sender_sock msg_buf now)))
  = if GET_E (snm_flags hdr) then supernodes (sss w)
    else update_and_save_supernodes (supernodes (sss w))
                                    (sender_sn_of sender_sock) 1.
Proof.
  intros Hdec Htype Hready. unfold process_sn_msg. rewrite Hdec. cbv zeta.
  rewrite Htype, Z.eqb_refl.
  destruct (decide _) as [Hn|_]; [contradiction|].
  unfold process_SNM_REQ.
  destruct (decode_SNM_REQ hdr msg_buf rem idx) as [[req rem'] idx'].
  assert (Hadv : forall w1 to cl,
             supernodes (sss (send_snm_adv net w1 to cl))
             = supernodes (sss w1)).
  { intros w1 to cl.
    destruct (send_snm_adv_effect net w1 to cl) as [-> _]. reflexivity. }
  destruct (GET_A (snm_flags hdr)).
  - destruct (GET_E (snm_flags hdr)).
    + destruct (negb (comm_num req =? 1)); [reflexivity|].
      destruct (add_new_community _ _) as [[comms need_write] ci].
      destruct (negb (need_write =? 0));
        cbn [fmap option_fmap option_map negb fst]; rewrite Hadv;
        [|reflexivity].
      unfold advertise_community_to_all.
      match goal with
      | |- supernodes (sss (fold_left ?f ?l ?w0)) = _ =>
          transitivity (supernodes (sss w0)); [|reflexivity];
          apply (fold_left_respects
                   (fun s s' => supernodes s' = supernodes s))
      end; [reflexivity | intros; congruence |].
      intros w1 sni. apply Hadv.
    + cbn [fmap option_fmap option_map negb fst sss with_sss supernodes
           set_supernodes]. rewrite Hadv. reflexivity.
  - destruct (GET_E (snm_flags hdr)); cbn [negb fst sss with_sss supernodes
                                           set_supernodes];
      unfold send_snm_rsp; destruct (build_snm_info _ _ _ _ _); reflexivity.
Qed.

End FederationAtLarge.


(** * The loop and the start-up *)

(** ** Worlds that come after one another *)

Lemma sends_on_mono (fds fds' : list Z) (e : io_event) :
  (forall fd, fd ∈ fds -> fd ∈ fds') -> sends_on fds e -> sends_on fds' e.
Proof. intros Hsub. destruct e; cbn [sends_on]; auto. Qed.

Lemma extends_refl (P : n2n_sn_t -> list Z) (w : world) : extends P w w.
Proof.
  split; [reflexivity|]. exists []. rewrite app_nil_r.
  split; [reflexivity|constructor].
Qed.

Lemma extends_trans (P : n2n_sn_t -> list Z) (a b c : world) :
  extends P a b -> extends P b c -> extends P a c.
Proof.
  intros [H1 (e1 & O1 & F1)] [H2 (e2 & O2 & F2)].
  split; [congruence|]. exists (e1 ++ e2).
  rewrite O2, O1, app_assoc. split; [reflexivity|].
  apply Forall_app. split; [exact F1|]. rewrite <- H1. exact F2.
Qed.

Lemma extends_sss (P : n2n_sn_t -> list Z) (f : n2n_sn_t -> n2n_sn_t)
    (w : world) :
  P (f (sss w)) = P (sss w) -> extends P w (with_sss f w).
Proof.
  intros H. split; [exact H|]. exists []. cbn [out with_sss].
  rewrite app_nil_r. split; [reflexivity|constructor].
Qed.

Lemma extends_emit (P : n2n_sn_t -> list Z) (e : io_event) (w : world) :
  sends_on (P (sss w)) e -> extends P w (emit e w).
Proof.
  intros H. split; [reflexivity|]. exists [e].
  split; [reflexivity|]. repeat constructor. exact H.
Qed.

(** ** The federation handlers, step by step *)

Section Steps.

Context {L : n2n_lib} {F : snm_lib}.
Variable net : nat -> Z.

Variable W : world -> world -> Prop.
Hypothesis W_refl : forall w, W w w.
Hypothesis W_trans : forall a b c, W a b -> W b c -> W a c.
Hypothesis W_seq_num : forall n w, W w (with_sss (set_seq_num n) w).
Hypothesis W_supernodes : forall l w, W w (with_sss (set_supernodes l) w).
Hypothesis W_communities : forall c w, W w (with_sss (set_communities c) w).
Hypothesis W_state :
  forall st w, W w (with_sss (set_snm_discovery_state st) w).
Hypothesis W_send_sn :
  forall to data w, W w (emit (Sendto (sn_sock (sss w)) (ToSock to) data) w).
Hypothesis W_write_communities :
  forall f l w, W w (emit (WriteCommunities f l) w).

Lemma send_snm_req_steps (w : world) (to : n2n_sock_t) (req_communities : Z)
    (comms : option (list (list Z))) (communities_num : Z) :
  W w (send_snm_req net w to req_communities comms communities_num).
Proof.
  unfold send_snm_req. cbv zeta.
  set (w1 := with_sss
               (fun s => set_seq_num (to_unsigned_int (seq_num s + 1)) s) w).
  assert (H1 : W w w1)
    by apply (W_seq_num (to_unsigned_int (seq_num (sss w) + 1)) w).
  destruct (sn_is_loopback _ _); [exact H1|].
  eapply W_trans; [exact H1|].
  destruct (negb (req_communities =? 0)); [|destruct comms];
    unfold sendto_sock; cbn [fst]; apply W_send_sn.
Qed.

Lemma send_snm_adv_steps (w : world) (to : n2n_sock_t)
    (comm_list : option (list comm_info)) :
  W w (send_snm_adv net w to comm_list).
Proof.
  unfold send_snm_adv.
  destruct (sn_is_loopback _ _); [apply W_refl|].
  destruct (build_snm_adv _ _) as [hdr adv].
  unfold sendto_sock. cbn [fst]. apply W_send_sn.
Qed.

Lemma send_snm_rsp_steps (w : world) (to : n2n_sock_t) (hdr : snm_hdr_t)
    (req : n2n_SNM_REQ_t) :
  W w (send_snm_rsp net w to hdr req).
Proof.
  unfold send_snm_rsp. destruct (build_snm_info _ _ _ _ _).
  unfold sendto_sock. cbn [fst]. apply W_send_sn.
Qed.

Lemma fold_left_steps {A : Type} (f : world -> A -> world) (l : list A) :
  (forall w x, W w (f w x)) -> forall w, W w (fold_left f l w).
Proof.
  intros Hf. induction l as [|x l IH]; intros w; cbn [fold_left].
  - apply W_refl.
  - eapply W_trans; [apply Hf|apply IH].
Qed.

Lemma send_req_to_all_supernodes_steps (w : world) (req_communities : Z)
    (comms : option (list (list Z))) (communities_num : Z) :
  W w (send_req_to_all_supernodes net w req_communities comms
                                  communities_num).
Proof.
  unfold send_req_to_all_supernodes. apply fold_left_steps.
  intros. apply send_snm_req_steps.
Qed.

Lemma request_new_supernodes_steps (l : list sn_info) (w : world) (n : Z) :
  W w (request_new_supernodes net w l n).
Proof.
  revert w n; induction l as [|x l IH]; intros w n;
    cbn [request_new_supernodes]; [apply W_refl|].
  destruct (n =? 0); [apply W_refl|].
  eapply W_trans; [apply send_snm_req_steps|apply IH].
Qed.

Lemma advertise_all_steps (w : world) : W w (advertise_all net w).
Proof.
  unfold advertise_all. destruct (head (communities (sss w)));
    [apply W_refl|].
  apply fold_left_steps. intros. apply send_snm_adv_steps.
Qed.

Lemma communities_discovery_steps (w : world) (nowTime : Z) :
  W w (communities_discovery net w nowTime).
Proof.
  unfold communities_discovery.
  destruct (_ <? _); [apply W_refl|].
  destruct (decide _); [|apply W_refl]. cbv zeta.
  eapply W_trans; [|apply W_state].
  eapply W_trans; [|apply advertise_all_steps].
  apply W_communities.
Qed.

Lemma process_SNM_REQ_steps (w : world) (sender_sn : n2n_sock_t)
    (hdr : snm_hdr_t) (msg_buf : list Z) (rem idx : Z) :
  W w (fst (process_SNM_REQ net w sender_sn hdr msg_buf rem idx)).
Proof.
  unfold process_SNM_REQ.
  destruct (decode_SNM_REQ hdr msg_buf rem idx) as [[req rem'] idx'].
  assert (Hfinish : forall (b : bool) (w1 : world),
             W w w1 ->
             W w (fst (if b
                       then (with_sss (fun s =>
                               set_supernodes
                                 (update_and_save_supernodes
                                    (supernodes s) sender_sn 1) s) w1, 0)
                       else (w1, 0)))).
  { intros b w1 H1. destruct b; cbn [fst]; [|exact H1].
    eapply W_trans; [exact H1|].
    apply (W_supernodes
             (update_and_save_supernodes (supernodes (sss w1)) sender_sn 1)
             w1). }
  destruct (GET_A (snm_flags hdr)).
  - destruct (GET_E (snm_flags hdr)).
    + destruct (negb (comm_num req =? 1)); [apply W_refl|].
      destruct (add_new_community _ _) as [[comms need_write] ci].
      destruct (negb (need_write =? 0)); cbn [fmap option_fmap option_map];
        apply Hfinish.
      * eapply W_trans; [|apply send_snm_adv_steps].
        eapply W_trans;
          [|unfold advertise_community_to_all; apply fold_left_steps;
            intros; apply send_snm_adv_steps].
        eapply W_trans; [apply (W_communities comms w)|].
        apply W_write_communities.
      * eapply W_trans; [apply (W_communities comms w)|].
        apply send_snm_adv_steps.
    + cbn [fmap option_fmap option_map]. apply Hfinish.
      apply send_snm_adv_steps.
  - apply Hfinish. apply send_snm_rsp_steps.
Qed.

Lemma process_sn_msg_steps (w : world) (sender_sock : sockaddr_in)
    (msg_buf : list Z) (now : Z) :
  W w (fst (process_sn_msg net w sender_sock msg_buf now)).
Proof.
  assert (Hmerge : forall sns comms,
             W w (with_sss (fun s => set_communities comms
                                       (set_supernodes sns s)) w)).
  { intros sns comms.
    apply (W_trans _ (with_sss (set_supernodes sns) w));
      [apply W_supernodes|].
    apply (W_communities comms (with_sss (set_supernodes sns) w)). }
  unfold process_sn_msg.
  destruct (decode_SNM_hdr _ _ _) as [[[hdr rem] idx]|]; [|apply W_refl].
  cbv zeta.
  destruct (_ =? SNM_TYPE_REQ_LIST_MSG).
  { destruct (decide _); [apply W_refl|apply process_SNM_REQ_steps]. }
  destruct (_ =? SNM_TYPE_RSP_LIST_MSG).
  { destruct (decide _); [apply W_refl|].
    destruct (decode_SNM_INFO _ _ _ _) as [[rsp rem'] idx'].
    destruct (process_snm_rsp _ _ _ _ _) as [[sns comms] added].
    cbn [fst]. eapply W_trans; [|apply request_new_supernodes_steps].
    apply Hmerge. }
  destruct (_ =? SNM_TYPE_ADV_MSG); [|apply W_refl].
  destruct (decode_SNM_ADV _ _ _ _) as [[adv rem'] idx'].
  destruct (process_snm_adv _ _ _ _) as [[sns comms] updated].
  destruct (_ && _); cbn [fst].
  - eapply W_trans; [|apply send_snm_adv_steps]. apply Hmerge.
  - apply Hmerge.
Qed.

End Steps.

(** ** A turn of the loop, from the discovery step on *)

Section Turn.

Context {L : n2n_lib} {F : snm_lib}.
Variable net : nat -> Z.

Variable W : world -> world -> Prop.
Hypothesis W_refl : forall w, W w w.
Hypothesis W_trans : forall a b c, W a b -> W b c -> W a c.
Hypothesis W_edges : forall e w, W w (with_sss (set_edges e) w).
Hypothesis W_udp :
  forall w sender_sock udp_buf now,
    W w (fst (process_udp net w sender_sock udp_buf now)).
Hypothesis W_mgmt :
  forall w sender_sock mgmt_buf now,
    W w (fst (process_mgmt net w sender_sock mgmt_buf now)).
Hypothesis W_sn :
  N2N_MULTIPLE_SUPERNODES = true ->
  forall w sender_sock msg_buf now,
    W w (fst (process_sn_msg net w sender_sock msg_buf now)).

Lemma run_loop_turn_steps (w : world) (t : turn) :
  W (if N2N_MULTIPLE_SUPERNODES
        && negb (bool_decide (snm_discovery_state (sss w)
                              = N2N_SNM_STATE_READY))
     then communities_discovery net w (discovery_clock t)
     else w)
    (fst (run_loop_turn net w t)).
Proof.
  unfold run_loop_turn. cbv zeta.
  set (w0 := if _ && _ then communities_discovery net w (discovery_clock t)
             else w). clearbody w0.
  assert (Hpurge : forall w1, W w0 w1 ->
            W w0 (with_sss (fun s =>
                    set_edges (purge_expired_registrations
                                 (edges s) (purge_clock t)) s) w1)).
  { intros w1 H1. eapply W_trans; [exact H1|].
    apply (W_edges (purge_expired_registrations (edges (sss w1))
                                                (purge_clock t)) w1). }
  destruct (0 <? rc t); cbn [fst]; [|apply Hpurge, W_refl].
  set (after_sn := match (if N2N_MULTIPLE_SUPERNODES then on_sn_sock t
                          else None) with
                   | Some r => _ | None => _ end).
  assert (H1 : W w0 (fst after_sn)).
  { subst after_sn. destruct N2N_MULTIPLE_SUPERNODES eqn:HM;
      [|apply W_refl].
    destruct (on_sn_sock t) as [r|]; [|apply W_refl].
    destruct (bread r <=? 0); [apply W_refl|].
    apply W_sn. reflexivity. }
  destruct after_sn as [w1 keep1]. cbn [fst] in H1.
  destruct keep1; [|exact H1].
  set (after_udp := match on_sock t with Some r => _ | None => _ end).
  assert (H2 : W w0 (fst after_udp)).
  { subst after_udp. destruct (on_sock t) as [r|]; [|exact H1].
    destruct (bread r <? 0); [exact H1|].
    destruct (0 <? bread r); [|exact H1].
    eapply W_trans; [exact H1|]. apply W_udp. }
  destruct after_udp as [w2 keep2]. cbn [fst] in H2.
  destruct keep2; [|exact H2].
  set (after_mgmt := match on_mgmt_sock t with Some r => _ | None => _ end).
  assert (H3 : W w0 (fst after_mgmt)).
  { subst after_mgmt. destruct (on_mgmt_sock t) as [r|]; [|exact H2].
    destruct (bread r <=? 0); [exact H2|].
    eapply W_trans; [exact H2|]. apply W_mgmt. }
  destruct after_mgmt as [w3 keep3]. cbn [fst] in H3.
  destruct keep3; [apply Hpurge, H3|exact H3].
Qed.

End Turn.

Section LoopAtLarge.

Context {L : n2n_lib} {F : snm_lib}.
Variable net : nat -> Z.

(** X19: whether the loop goes on after a turn is decided by what
    [select] and [recvfrom] answered and by nothing else: no content of
    any datagram and no state of the supernode can stop it.  A timeout
    never stops it, nor does an empty datagram on the edge socket. *)
Theorem run_loop_turn_keeps_running (w : world) (t : turn) :
  snd (run_loop_turn net w t) = negb (turn_breaks t).
Proof.
  unfold run_loop_turn, turn_breaks. cbv zeta.
  set (w0 := if _ && _ then communities_discovery net w (discovery_clock t)
             else w). clearbody w0.
  destruct (0 <? rc t); cbn [andb negb snd]; [|reflexivity].
  destruct (if N2N_MULTIPLE_SUPERNODES then on_sn_sock t else None) as [r1|];
    [destruct (bread r1 <=? 0)|];
    (destruct (on_sock t) as [r2|];
     [destruct (bread r2 <? 0); [|destruct (0 <? bread r2)]|]);
    (destruct (on_mgmt_sock t) as [r3|]; [destruct (bread r3 <=? 0)|]);
    reflexivity.
Qed.

(** X20: discovery ends on time and no sooner.  After a turn of the
    loop the federation state is [READY] if it was so before, or if
    the build has the federation and the clock read at the top of the
    turn is at least [N2N_SUPER_DISCOVERY_INTERVAL] past the start
    time; otherwise it is still [DISCOVERY], whatever datagrams the
    turn processed. *)
Theorem discovery_ends_on_time (w : world) (t : turn) :
  snm_discovery_state (sss (fst (run_loop_turn net w t)))
  = if N2N_MULTIPLE_SUPERNODES
       && negb (discovery_clock t - start_time (sss w)
                <? N2N_SUPER_DISCOVERY_INTERVAL)
    then N2N_SNM_STATE_READY
    else snm_discovery_state (sss w).
Proof.
  pose proof (run_loop_turn_steps net
                (fun w w' => snm_discovery_state (sss w')
                             = snm_discovery_state (sss w))) as Htail.
  cbv beta in Htail. rewrite Htail; clear Htail.
  - destruct N2N_MULTIPLE_SUPERNODES; cbn [andb]; [|reflexivity].
    destruct (bool_decide_reflect
                (snm_discovery_state (sss w) = N2N_SNM_STATE_READY))
      as [Hr|Hr]; cbn [negb].
    + rewrite Hr. destruct (negb _); reflexivity.
    + unfold communities_discovery.
      destruct (_ <? _); cbn [negb]; [reflexivity|].
      destruct (decide _) as [_|Hd]; [reflexivity|].
      destruct (snm_discovery_state (sss w)); contradiction.
  - reflexivity.
  - intros; congruence.
  - reflexivity.
  - intros w1 sender_sock udp_buf now.
    apply (process_udp_respects net
             (fun s s' => snm_discovery_state s' = snm_discovery_state s));
      intros; reflexivity || congruence.
  - intros w1 sender_sock mgmt_buf now.
    unfold process_mgmt, sendto. cbv beta iota zeta.
    destruct (_ <=? _); reflexivity.
  - intros _ w1 sender_sock msg_buf now.
    apply (process_sn_msg_respects net
             (fun s s' => snm_discovery_state s' = snm_discovery_state s));
      intros; reflexivity || congruence.
Qed.

(** What the handlers of the loop add to the log, and on which
    descriptors. *)
Lemma process_udp_extends (w : world) (sender_sock : sockaddr_in)
    (udp_buf : list Z) (now : Z) :
  extends own_sockets w (fst (process_udp net w sender_sock udp_buf now)).
Proof.
  split.
  - apply (process_udp_respects net
             (fun s s' => own_sockets s' = own_sockets s));
      intros; reflexivity || congruence.
  - destruct (process_udp_log net w sender_sock udp_buf now)
      as (evs & Ho & Hf & _).
    exists evs. split; [exact Ho|].
    eapply Forall_impl; [exact Hf|].
    intros [fd to data| |] He; cbn [sent_on sends_on] in *; try exact I.
    subst fd. apply elem_of_cons. left. reflexivity.
Qed.

Lemma process_mgmt_extends (w : world) (sender_sock : sockaddr_in)
    (mgmt_buf : list Z) (now : Z) :
  extends own_sockets w (fst (process_mgmt net w sender_sock mgmt_buf now)).
Proof.
  assert (Hsend : forall data,
             extends own_sockets w
               (emit (Sendto (mgmt_sock (sss w)) (ToAddr sender_sock) data)
                     w)).
  { intros data. apply extends_emit. cbn [sends_on].
    apply elem_of_cons. right. apply elem_of_cons. left. reflexivity. }
  unfold process_mgmt, sendto. cbv beta iota zeta.
  destruct (_ <=? _); cbn [fst]; [|apply Hsend].
  eapply extends_trans; [apply Hsend|].
  apply extends_sss. reflexivity.
Qed.

Lemma send_sn_extends (to : n2n_sock_t) (data : list Z) (w : world) :
  N2N_MULTIPLE_SUPERNODES = true ->
  extends own_sockets w (emit (Sendto (sn_sock (sss w)) (ToSock to) data) w).
Proof.
  intros HM. apply extends_emit. cbn [sends_on]. unfold own_sockets.
  rewrite HM. do 2 (apply elem_of_cons; right).
  apply elem_of_cons. left. reflexivity.
Qed.

Lemma process_sn_msg_extends (w : world) (sender_sock : sockaddr_in)
    (msg_buf : list Z) (now : Z) :
  N2N_MULTIPLE_SUPERNODES = true ->
  extends own_sockets w (fst (process_sn_msg net w sender_sock msg_buf now)).
Proof.
  intros HM.
  apply (process_sn_msg_steps net (extends own_sockets));
    first [ apply extends_refl
          | apply extends_trans
          | intros; apply send_sn_extends; exact HM
          | intros; apply extends_emit; exact I
          | intros; apply extends_sss; reflexivity ].
Qed.

Lemma communities_discovery_extends (w : world) (nowTime : Z) :
  N2N_MULTIPLE_SUPERNODES = true ->
  extends own_sockets w (communities_discovery net w nowTime).
Proof.
  intros HM.
  apply (communities_discovery_steps net (extends own_sockets));
    first [ apply extends_refl
          | apply extends_trans
          | intros; apply send_sn_extends; exact HM
          | intros; apply extends_sss; reflexivity ].
Qed.

Lemma send_req_to_all_supernodes_extends (w : world) (req_communities : Z)
    (comms : option (list (list Z))) (communities_num : Z) :
  N2N_MULTIPLE_SUPERNODES = true ->
  extends own_sockets w
    (send_req_to_all_supernodes net w req_communities comms communities_num).
Proof.
  intros HM.
  apply (send_req_to_all_supernodes_steps net (extends own_sockets));
    first [ apply extends_refl
          | apply extends_trans
          | intros; apply send_sn_extends; exact HM
          | intros; apply extends_sss; reflexivity ].
Qed.

Lemma run_loop_turn_extends (w : world) (t : turn) :
  extends own_sockets w (fst (run_loop_turn net w t)).
Proof.
  eapply extends_trans;
    [|apply (run_loop_turn_steps net (extends own_sockets))].
  - destruct N2N_MULTIPLE_SUPERNODES eqn:HM; cbn [andb];
      [|apply extends_refl].
    destruct (negb _); [|apply extends_refl].
    apply communities_discovery_extends, HM.
  - apply extends_refl.
  - apply extends_trans.
  - intros. apply extends_sss. reflexivity.
  - apply process_udp_extends.
  - apply process_mgmt_extends.
  - intros HM w1 sender_sock msg_buf now.
    apply process_sn_msg_extends, HM.
Qed.

Lemma run_turns_log (ts : list turn) (w : world) :
  exists evs,
    out (run_turns net w ts) = out w ++ evs
    /\ Forall (sends_on (own_sockets (sss w))) evs.
Proof.
  revert w. induction ts as [|t ts IH]; intros w; cbn [run_turns].
  - exists []. rewrite app_nil_r. split; [reflexivity|constructor].
  - pose proof (run_loop_turn_extends w t) as [HP (evs1 & Ho1 & Hf1)].
    destruct (run_loop_turn net w t) as [w1 keep]. cbn [fst] in *.
    destruct keep.
    + destruct (IH w1) as (evs2 & Ho2 & Hf2).
      exists (evs1 ++ evs2). rewrite Ho2, Ho1, app_assoc.
      split; [reflexivity|]. apply Forall_app.
      split; [exact Hf1|]. rewrite <- HP. exact Hf2.
    + exists evs1. split; [exact Ho1|exact Hf1].
Qed.

(** X21: the loop only ever sends on the supernode's own sockets.
    From entry to return, over any number of turns and whatever
    arrives, [run_loop] only adds to the log, and every datagram it
    adds is handed to [sendto] on the edge socket, the management
    socket or, in a federation build, the federation socket, as they
    were on entry. *)
Theorem run_loop_sends_on_own_sockets (w : world) (start : Z)
    (ts : list turn) :
  exists evs,
    out (run_loop net w start ts) = out w ++ evs
    /\ Forall (sends_on (own_sockets (sss w))) evs.
Proof.
  exact (run_turns_log ts (with_sss (set_start_time start) w)).
Qed.

End LoopAtLarge.

(** ** Start-up *)

Section StartUp.

Context {L : n2n_lib} {F : snm_lib}.
Variable net : nat -> Z.

(** [load_snm_info] sends nothing and leaves the descriptors alone. *)
Lemma load_snm_info_log (w : world) :
  sock (sss (fst (load_snm_info w))) = sock (sss w)
  /\ mgmt_sock (sss (fst (load_snm_info w))) = mgmt_sock (sss w)
  /\ exists evs,
       out (fst (load_snm_info w)) = out w ++ evs
       /\ Forall (sends_on []) evs.
Proof.
  assert (Hnil : exists evs : list io_event,
             out w = out w ++ evs /\ Forall (sends_on []) evs).
  { exists []. rewrite app_nil_r. split; [reflexivity|constructor]. }
  unfold load_snm_info. cbv zeta.
  destruct (read_supernodes_from_file _) as [from_file|];
    [|repeat split; exact Hnil].
  destruct (fold_left _ _ _) as [sns new_ones].
  destruct (negb (new_ones =? 0));
    (destruct (read_communities_from_file _) as [persisted|];
     [match goal with
      | |- context [match ?x with [] => _ | _ :: _ => _ end] => destruct x
      end|]);
    cbn [fst sss out with_sss emit];
    (split; [reflexivity|]); (split; [reflexivity|]);
    first [ exact Hnil
          | eexists [_]; split; [reflexivity|repeat constructor] ].
Qed.

(** X22: a supernode that finds no other is ready at once.  When
    [load_snm_info] succeeds, the supernode leaves it in state [READY]
    exactly if it was so before or its supernode list, merged from the
    file and the command line, is empty. *)
Theorem load_snm_info_ready (w : world) :
  snd (load_snm_info w) = 0 ->
  snm_discovery_state (sss (fst (load_snm_info w))) = N2N_SNM_STATE_READY
  <-> (snm_discovery_state (sss w) = N2N_SNM_STATE_READY
       \/ sn_head (supernodes (sss (fst (load_snm_info w)))) = []).
Proof.
  unfold load_snm_info. cbv zeta.
  destruct (read_supernodes_from_file _) as [from_file|];
    [|cbn [snd]; discriminate].
  destruct (fold_left _ _ _) as [sns new_ones].
  destruct (negb (new_ones =? 0));
    (destruct (read_communities_from_file _) as [persisted|];
     [|cbn [snd]; discriminate]);
    cbn [sss with_sss emit supernodes set_supernodes set_communities];
    intros _; destruct (sn_head sns) as [|sni rest] eqn:Hsns;
    cbn [fst sss with_sss emit supernodes set_supernodes set_communities
         snm_discovery_state set_snm_discovery_state];
    rewrite ?Hsns; split; intros H; auto;
    destruct H as [H|H]; auto; discriminate.
Qed.

(** X23: [main] only ever sends on the sockets it opened.  If [main]
    gets as far as the loop, then in everything it did from its first
    instruction to the return of [run_loop] every datagram was handed
    to [sendto] on one of the three descriptors [open_socket] had
    answered. *)
Theorem main_sends_on_opened_sockets (argv : list cli_option)
    (fd mgmt_fd sn_fd start : Z) (ts : list turn) (w : world) :
  main net argv fd mgmt_fd sn_fd start ts = Some w ->
  Forall (sends_on [fd; mgmt_fd; sn_fd]) (out w).
Proof.
  unfold main.
  destruct (apply_options init_sn argv) as [s|]; [|discriminate].
  destruct (fd =? -1); [discriminate|].
  destruct (mgmt_fd =? -1); [discriminate|]. cbv zeta.
  destruct N2N_MULTIPLE_SUPERNODES eqn:HM.
  - pose proof (load_snm_info_log
                  (mk_world (set_socks fd mgmt_fd (sn_sock s) s) []))
      as (Hsock & Hmgmt & evs1 & Ho1 & Hf1).
    destruct (load_snm_info _) as [w1 r]. cbn [fst] in *.
    destruct (negb (r =? 0)); [discriminate|].
    destruct (sn_fd =? -1); [discriminate|].
    intros [= <-].
    set (w2 := with_sss (fun s => set_socks (sock s) (mgmt_sock s) sn_fd s)
                        w1).
    assert (Hown : own_sockets (sss w2) = [fd; mgmt_fd; sn_fd]).
    { unfold own_sockets. rewrite HM. subst w2.
      cbn [sss with_sss]. destruct (sss w1); cbn in *. congruence. }
    match goal with
    | |- context [send_req_to_all_supernodes net w2 ?a ?b ?c] =>
        pose proof (send_req_to_all_supernodes_extends net w2 a b c HM)
          as [HP (evs2 & Ho2 & Hf2)];
        set (w3 := send_req_to_all_supernodes net w2 a b c) in *
    end.
    destruct (run_turns_log net ts (with_sss (set_start_time start) w3))
      as (evs3 & Ho3 & Hf3).
    unfold run_loop. rewrite Ho3. cbn [out with_sss]. rewrite Ho2.
    change (out w2) with (out w1). rewrite Ho1. cbn [out app].
    change (own_sockets (sss (with_sss (set_start_time start) w3)))
      with (own_sockets (sss w3)) in Hf3.
    rewrite HP, Hown in Hf3. rewrite Hown in Hf2.
    repeat (apply Forall_app; split); try assumption.
    eapply Forall_impl; [exact Hf1|].
    intros e. apply sends_on_mono. intros x Hx. inversion Hx.
  - intros [= <-].
    destruct (run_turns_log net ts
                (with_sss (set_start_time start)
                   (mk_world (set_socks fd mgmt_fd (sn_sock s) s) [])))
      as (evs & Ho & Hf).
    unfold run_loop. rewrite Ho. cbn [out with_sss app].
    eapply Forall_impl; [exact Hf|].
    intros e. apply sends_on_mono. unfold own_sockets. rewrite HM.
    destruct s; cbn. intros x Hx.
    apply elem_of_cons in Hx as [->|Hx]; [apply elem_of_cons; left; reflexivity|].
    apply elem_of_cons in Hx as [->|Hx]; [|inversion Hx].
    apply elem_of_cons. right. apply elem_of_cons. left. reflexivity.
Qed.

End StartUp.

(** ** The management report *)

Lemma octets_of_string_app (a b : string) :
  octets_of_string (a +:+ b) = octets_of_string a ++ octets_of_string b.
Proof.
  unfold octets_of_string. induction a as [|c a IH]; [reflexivity|].
  change (String c a +:+ b) with (String c (a +:+ b)).
  cbn [list_ascii_of_string fmap list_fmap app]. f_equal. exact IH.
Qed.

Lemma octets_of_concat (ls : list string) :
  octets_of_string (String.concat "" ls)
  = foldr (fun l acc => octets_of_string l ++ acc) [] ls.
Proof.
  induction ls as [|l ls IH]; [reflexivity|].
  cbn [foldr]. rewrite <- IH. destruct ls as [|l' ls].
  - cbn [String.concat]. rewrite app_nil_r. reflexivity.
  - change (String.concat "" (l :: l' :: ls))
      with (l +:+ "" +:+ String.concat "" (l' :: ls)).
    rewrite octets_of_string_app. reflexivity.
Qed.

Lemma pretty_N_char_no_newline (d : N) :
  Z.of_N (N_of_ascii (pretty_N_char d)) <> 10.
Proof.
  unfold pretty_N_char. repeat case_match; vm_compute; discriminate.
Qed.

(** The digits of a number below [10 ^ k]: at most [k] of them, none a
    newline. *)
Lemma pretty_N_go_digits (k : nat) :
  forall (x : N) (s : string),
    (x < 10 ^ N.of_nat k)%N ->
    Forall (fun c => c <> 10) (octets_of_string s) ->
    Forall (fun c => c <> 10) (octets_of_string (pretty_N_go x s))
    /\ (length (octets_of_string (pretty_N_go x s))
        <= k + length (octets_of_string s))%nat.
Proof.
  induction k as [|k IH]; intros x s Hx Hs.
  - assert (x = 0%N) as -> by (cbn in Hx; lia).
    rewrite pretty_N_go_0. split; [exact Hs|lia].
  - destruct (decide (x = 0%N)) as [->|Hx0].
    + rewrite pretty_N_go_0. split; [exact Hs|lia].
    + rewrite pretty_N_go_step by lia.
      destruct (IH (x `div` 10)%N
                   (String (pretty_N_char (x `mod` 10)%N) s)) as [Hf Hl].
      * apply N.Div0.div_lt_upper_bound.
        rewrite Nat2N.inj_succ, N.pow_succ_r' in Hx. exact Hx.
      * constructor; [apply pretty_N_char_no_newline|exact Hs].
      * split; [exact Hf|].
        change (octets_of_string (String (pretty_N_char (x `mod` 10)%N) s))
          with (Z.of_N (N_of_ascii (pretty_N_char (x `mod` 10)%N))
                  :: octets_of_string s) in Hl.
        cbn [length] in Hl. lia.
Qed.

Lemma pretty_Z_digits (k : nat) (z : Z) :
  (1 <= k)%nat -> 0 <= z < 10 ^ Z.of_nat k ->
  Forall (fun c => c <> 10) (octets_of_string (pretty z))
  /\ (length (octets_of_string (pretty z)) <= k)%nat.
Proof.
  intros Hk Hz. destruct z as [|p|p]; [| |lia].
  - change (octets_of_string (pretty 0)) with [48].
    split; [repeat constructor; discriminate|cbn [length]; lia].
  - change (pretty (Z.pos p)) with (pretty_N_go (N.pos p) "").
    destruct (pretty_N_go_digits k (N.pos p) "") as [Hf Hl].
    + apply N2Z.inj_lt. rewrite N2Z.inj_pow, nat_N_Z. exact (proj2 Hz).
    + constructor.
    + split; [exact Hf|]. cbn [octets_of_string] in Hl.
      change (length (octets_of_string "")) with 0%nat in Hl. lia.
Qed.

Lemma no_newline_count (l : list Z) :
  Forall (fun c => c <> 10) l -> length (filter (fun c => c = 10) l) = 0%nat.
Proof.
  induction 1 as [|c l Hc _ IH]; [reflexivity|].
  rewrite filter_cons. destruct (decide (c = 10)); [contradiction|exact IH].
Qed.

(** What [%lu] and [%u] print: at most 20 and 10 digits. *)
Lemma pretty_size_t (z : Z) :
  let l := octets_of_string (pretty (to_size_t z)) in
  length (filter (fun c => c = 10) l) = 0%nat /\ (length l <= 20)%nat.
Proof.
  destruct (pretty_Z_digits 20 (to_size_t z)) as [Hf Hl]; [lia| |].
  - unfold to_size_t. pose proof (Z.mod_pos_bound z (2 ^ 64)).
    change (10 ^ Z.of_nat 20) with 100000000000000000000. lia.
  - split; [apply no_newline_count, Hf|exact Hl].
Qed.

Lemma pretty_unsigned_int (z : Z) :
  let l := octets_of_string (pretty (to_unsigned_int z)) in
  length (filter (fun c => c = 10) l) = 0%nat /\ (length l <= 10)%nat.
Proof.
  destruct (pretty_Z_digits 10 (to_unsigned_int z)) as [Hf Hl]; [lia| |].
  - unfold to_unsigned_int. pose proof (Z.mod_pos_bound z (2 ^ 32)).
    change (10 ^ Z.of_nat 10) with 10000000000. lia.
  - split; [apply no_newline_count, Hf|exact Hl].
Qed.

Section Management.

Context {L : n2n_lib} {F : snm_lib}.
Variable net : nat -> Z.

(** X24: the management report.  Whatever the request and whatever the
    counters hold, [process_mgmt] answers 0 and hands one datagram to
    [sendto], on the management socket, to the address the request
    came from.  The datagram holds exactly ten newline octets, one per
    line of the report, and at most 252 octets in all, so that none of
    the [snprintf] calls runs out of the [N2N_SN_PKTBUF_SIZE] octets of
    the buffer. *)
Theorem process_mgmt_reply (w : world) (sender_sock : sockaddr_in)
    (mgmt_buf : list Z) (now : Z) :
  exists reply,
    out (fst (process_mgmt net w sender_sock mgmt_buf now))
    = out w ++ [Sendto (mgmt_sock (sss w)) (ToAddr sender_sock) reply]
    /\ length (filter (fun c => c = 10) reply) = 10%nat
    /\ Z.of_nat (length reply) <= 252 < N2N_SN_PKTBUF_SIZE
    /\ snd (process_mgmt net w sender_sock mgmt_buf now) = 0.
Proof.
  exists (octets_of_string (String.concat "" (mgmt_lines (sss w) now))).
  split; [|split; [|split]].
  - unfold process_mgmt, sendto. cbv beta iota zeta.
    rewrite take_whole. destruct (_ <=? _); reflexivity.
  - rewrite octets_of_concat. unfold mgmt_lines. cbn [foldr].
    rewrite !octets_of_string_app, !filter_app, !length_app.
    repeat match goal with
           | |- context [pretty (to_size_t ?z)] =>
               destruct (pretty_size_t z) as [-> _]
           | |- context [pretty (to_unsigned_int ?z)] =>
               destruct (pretty_unsigned_int z) as [-> _]
           end.
    vm_compute. reflexivity.
  - split; [|reflexivity].
    rewrite octets_of_concat. unfold mgmt_lines. cbn [foldr].
    rewrite !octets_of_string_app, !length_app.
    pose proof (pretty_size_t (now - start_time (sss w))) as [_ H1].
    pose proof (pretty_unsigned_int (Z.of_nat (length (edges (sss w)))))
      as [_ H2].
    pose proof (pretty_unsigned_int (errors (stats (sss w)))) as [_ H3].
    pose proof (pretty_unsigned_int (reg_super (stats (sss w)))) as [_ H4].
    pose proof (pretty_unsigned_int (reg_super_nak (stats (sss w))))
      as [_ H5].
    pose proof (pretty_unsigned_int (fwd (stats (sss w)))) as [_ H6].
    pose proof (pretty_unsigned_int (broadcast (stats (sss w)))) as [_ H7].
    pose proof (pretty_size_t (now - last_fwd (stats (sss w)))) as [_ H8].
    pose proof (pretty_size_t (now - last_reg_super (stats (sss w))))
      as [_ H9].
    repeat match goal with
           | |- context [length (octets_of_string (String ?c ?s))] =>
               let v := eval vm_compute in
                          (length (octets_of_string (String c s))) in
               change (length (octets_of_string (String c s))) with v
           end.
    change (length (octets_of_string newline)) with 1%nat.
    change (length (@nil Z)) with 0%nat.
    lia.
  - unfold process_mgmt, sendto. cbv beta iota zeta.
    destruct (_ <=? _); reflexivity.
Qed.

End Management.

(** * The further properties on the scenario *)

Section Runs.

Import Scenario.

#[local] Existing Instance Ref.lib.
#[local] Existing Instance Ref.snm.

(** X1 on S1: edges 1 and 2 are registered, edge 1 registers again;
    the directory still has one record per MAC. *)
Lemma process_udp_keeps_macs_unique_witness :
  unique_macs
    (edges (sss (fst (process_udp fails (serving [edge2; edge1]) sender1
                                  register_super 200)))).
Proof.
  apply (process_udp_keeps_macs_unique fails (serving [edge2; edge1])
           sender1 register_super 200).
  intros i j p q Hi Hj Hm.
  destruct i as [|[|i]], j as [|[|j]]; try reflexivity;
    try discriminate Hi; try discriminate Hj;
    injection Hi as <-; injection Hj as <-;
    vm_compute in Hm; discriminate Hm.
Defined.

(** X2: edge 1 moves to another community and socket; the record of
    edge 2 is in the directory after as it was before. *)
Lemma update_edge_other_records_witness :
  edge2 ∈ edges (fst (update_edge (sss (serving [edge2; edge1])) mac1 net2
                                  sock3 300))
  <-> edge2 ∈ edges (sss (serving [edge2; edge1])).
Proof.
  apply (update_edge_other_records (sss (serving [edge2; edge1])) mac1 net2
           sock3 300 edge2).
  vm_compute. discriminate.
Defined.

(** X6: a [PACKET] from 192.0.2.11 leaves the directory as it was. *)
Lemma forwarding_never_registers_witness :
  edges (sss (fst (process_udp fails (serving [edge2; edge1]) sender2
                               packet_from_edge 200)))
  = [edge2; edge1].
Proof.
  apply (forwarding_never_registers fails (serving [edge2; edge1]) sender2
           packet_from_edge 200).
  intros cmn rem idx Hdec. vm_compute in Hdec.
  injection Hdec as <- _ _. vm_compute. discriminate.
Defined.

(** X7: the [PACKET] stamps [last_fwd] with the time it was given. *)
Lemma forward_stamps_last_fwd_witness :
  last_fwd (stats (sss (fst (process_udp fails (serving [edge2; edge1])
                                         sender2 packet_from_edge 200))))
  = 200.
Proof.
  destruct (forward_stamps_last_fwd fails (serving [edge2; edge1]) sender2
              packet_from_edge 200 (mk_common 2 3 0 net1) 18 21)
    as [Hstamp _];
    [reflexivity | vm_compute; discriminate | left; reflexivity |].
  exact Hstamp.
Defined.

(** X8 on S1: one [REGISTER_SUPER], one count; the acknowledgement
    fails to leave and [errors] is still 0. *)
Lemma register_super_counts_once_witness :
  reg_super (stats (sss (fst (process_udp fails (serving []) sender1
                                          register_super 200)))) = 1
  /\ errors (stats (sss (fst (process_udp fails (serving []) sender1
                                          register_super 200)))) = 0.
Proof.
  rewrite (register_super_counts_once fails (serving []) sender1
             register_super 200 (mk_common 2 5 0 net1) 10 21);
    [split; reflexivity | reflexivity | vm_compute; discriminate
    | reflexivity].
Defined.

(** X9 on S3: a broadcast [PACKET] from edge 2 goes to edges 3 and 1,
    the same octets to both. *)
Lemma packet_broadcast_fan_out_witness :
  exists data,
    out (fst (process_udp (delivers [46; 46]) (serving [edge3; edge2; edge1])
                          sender2 packet_broadcast 200))
    = [Sendto 3 (ToSock sock3) data; Sendto 3 (ToSock sock1) data].
Proof.
  destruct (packet_broadcast_fan_out (delivers [46; 46])
              (serving [edge3; edge2; edge1]) sender2 packet_broadcast 200
              (mk_common 2 3 0 net1) 18 21
              (mk_PACKET mac2 mac_broadcast zero_sock) 6 33)
    as (data & Hout & _);
    [reflexivity | vm_compute; discriminate | reflexivity | reflexivity
    | vm_compute; discriminate |].
  exists data. rewrite Hout. reflexivity.
Defined.

(** X10: the [PACKET] from edge 2 reaches edge 1 with TTL 1, flags
    [SOCKET | FROM_SUPERNODE] (0x60) and the socket of its sender,
    192.0.2.11:40001, inlined before the payload. *)
Lemma packet_from_edge_is_rewritten_witness :
  out (fst (process_udp fails (serving [edge2; edge1]) sender2
                        packet_from_edge 200))
  = [Sendto 3 (ToSock sock1)
       (frame 1 3 96 net1
          (mac2 ++ mac1 ++ [2; 156; 65; 192; 0; 2; 11] ++ ethernet))].
Proof.
  rewrite (packet_from_edge_is_rewritten fails (serving [edge2; edge1])
             sender2 packet_from_edge 200 (mk_common 2 3 0 net1) 18 21
             (mk_PACKET mac2 mac1 zero_sock) 6 33 1%nat edge1);
    [reflexivity | reflexivity | vm_compute; split; [discriminate|reflexivity]
    | reflexivity | reflexivity | reflexivity | reflexivity | reflexivity
    | vm_compute; discriminate].
Defined.

(** X11 on S1 and S2, with [Ref.sock_cmp] for [sock_equal]: edge 1
    registers with an empty supernode; the [PACKET] edge 2 then sends
    to its MAC goes to 192.0.2.10:40000. *)
Lemma registered_edge_is_reachable_witness :
  exists data,
    out (fst (process_udp (L := Ref.lib_cmp) fails
                (fst (process_udp (L := Ref.lib_cmp) fails (serving [])
                                  sender1 register_super 200))
                sender2 packet_from_edge 300))
    = out (fst (process_udp (L := Ref.lib_cmp) fails (serving []) sender1
                            register_super 200))
      ++ [Sendto 3 (ToSock sock1) data].
Proof.
  destruct (registered_edge_is_reachable (L := Ref.lib_cmp) fails
              (serving []) sender1 sender2
              register_super packet_from_edge 200 300
              (mk_common 2 5 0 net1) 10 21
              (mk_REGISTER_SUPER 3735928559 mac1) 0 31
              (mk_common 2 3 0 net1) 18 21 (mk_PACKET mac2 mac1 zero_sock)
              6 33)
    as (data & Hout);
    [exact ref_sock_cmp_0 | reflexivity | vm_compute; discriminate
    | reflexivity | reflexivity | reflexivity | vm_compute; discriminate
    | reflexivity | reflexivity | reflexivity | reflexivity |].
  exists data. exact Hout.
Defined.

(** X12: three octets are refused with -1, a [REGISTER_ACK] is taken
    and dropped with 0. *)
Lemma process_udp_ignores_witness :
  process_udp fails (serving [edge2]) sender1 runt 200
  = (serving [edge2], -1)
  /\ process_udp fails (serving [edge2]) sender1 register_ack 200
     = (serving [edge2], 0).
Proof.
  split.
  - apply (proj1 (process_udp_ignores fails (serving [edge2]) sender1 runt
                                      200)).
    reflexivity.
  - apply (proj2 (process_udp_ignores fails (serving [edge2]) sender1
                                      register_ack 200)
             (mk_common 2 4 0 net1) 0 21);
      [reflexivity | vm_compute; discriminate ..].
Defined.

(** X15: during discovery a response names one new supernode,
    192.0.2.12:40002.  It is sent a request for all communities (flags
    S and C); the sequence number, 0xFFFFFFFF after [init_sn], has
    wrapped to 0. *)
Lemma rsp_requests_new_supernodes_witness :
  out (fst (process_sn_msg fails (serving []) sender2 snm_rsp 200))
  = [Sendto 5 (ToSock sock3) [1; 3; 0; 0; 0; 0]].
Proof.
  destruct (rsp_requests_new_supernodes (F := Ref.snm) fails (serving [])
              sender2 snm_rsp 200 (mk_snm_hdr 2 1 7) 11 6
              (([sock3], []) : Ref.SNM_INFO) 0 17
              (mk_sn_list [mk_sn_info sock3] "") (mk_comm_list [] [] "") 1)
    as (_ & _ & _ & _ & Hout);
    [reflexivity | reflexivity | discriminate | discriminate
    | reflexivity | reflexivity |].
  rewrite Hout. reflexivity.
Defined.

(** X17: a [REQ] that arrives during discovery is refused. *)
Lemma process_sn_msg_gates_witness :
  process_sn_msg fails (serving [edge2]) sender2 snm_req 200
  = (serving [edge2], -1).
Proof.
  destruct (proj2 (process_sn_msg_gates fails (serving [edge2]) sender2
                                        snm_req 200)
              (mk_snm_hdr 1 9 7) 0 6) as [Hreq _]; [reflexivity|].
  apply Hreq; [reflexivity|discriminate].
Defined.

(** X18: a [REQ] without the E flag, from 192.0.2.11:40001, taken in
    state [READY]: the sender is in the supernode list after. *)
Lemma snm_req_merges_supernodes_only_witness :
  supernodes (sss (fst (process_sn_msg fails (serving_ready [edge2]) sender2
                                       snm_req 200)))
  = mk_sn_list [mk_sn_info sock2] "".
Proof.
  rewrite (snm_req_merges_supernodes_only fails (serving_ready [edge2])
             sender2 snm_req 200 (mk_snm_hdr 1 9 7) 0 6);
    reflexivity.
Defined.

(** X22: no supernode on the command line, none in the file: ready. *)
Lemma load_snm_info_ready_witness :
  snm_discovery_state (sss (fst (load_snm_info (serving []))))
  = N2N_SNM_STATE_READY.
Proof.
  destruct (load_snm_info_ready (serving [])) as [_ Hready];
    [vm_compute; reflexivity|].
  apply Hready. right. vm_compute. reflexivity.
Defined.

(** X23 on a run: [main] with a seed supernode and one busy turn; all
    it sent left on descriptors 3, 4 and 5. *)
Lemma main_sends_on_opened_sockets_witness :
  exists w,
    main fails [opt_l 7654; opt_i sock3; opt_f] 3 4 5 900 [busy_turn] = Some w
    /\ Forall (sends_on [3; 4; 5]) (out w).
Proof.
  eexists. split; [vm_compute; reflexivity|].
  apply (main_sends_on_opened_sockets fails [opt_l 7654; opt_i sock3; opt_f]
           3 4 5 900 [busy_turn]).
  vm_compute. reflexivity.
Defined.

End Runs.
